(** * The Polaris project scripts: authenticate, paginate, correlate, export

    A shallow embedding of the scripts of the repository
    (getProjectProperties, setProjectProperties, getProjectBranches,
    getProjectUserInformation).  Every script is one async function that
    talks to three collaborators: the file system ([fs]), the operator
    ([readline]) and the remote API ([axios]).  They are modelled by an
    explicit [World]: the files, the answers the operator will type, the
    outcomes the API will give to the successive requests, and what the
    script did (requests issued, lines logged). *)

From Stdlib Require Import Ascii String List Arith Lia Sorted.
From stdpp Require Import base option strings list gmap pretty.

Local Open Scope string_scope.
Local Open Scope list_scope.

(** ** JavaScript strings *)

Module Js.

(** White space removed by [String.prototype.trim], for the 8-bit
    characters of [string]. *)
Definition isSpace (c : ascii) : bool :=
  let n := nat_of_ascii c in
  (Nat.leb 9 n && Nat.leb n 13) || Nat.eqb n 32.

Fixpoint trimStart (s : string) : string :=
  match s with
  | String c s' => if isSpace c then trimStart s' else s
  | EmptyString => EmptyString
  end.

Fixpoint trimEnd (s : string) : string :=
  match s with
  | String c s' =>
      match trimEnd s' with
      | EmptyString => if isSpace c then EmptyString else String c EmptyString
      | t => String c t
      end
  | EmptyString => EmptyString
  end.

Definition trim (s : string) : string := trimEnd (trimStart s).

(** [toLowerCase] on the letters A-Z. *)
Definition lowerChar (c : ascii) : ascii :=
  let n := nat_of_ascii c in
  if Nat.leb 65 n && Nat.leb n 90 then ascii_of_nat (n + 32) else c.

Fixpoint toLowerCase (s : string) : string :=
  match s with
  | String c s' => String (lowerChar c) (toLowerCase s')
  | EmptyString => EmptyString
  end.

Definition startsWith (prefix s : string) : bool := String.prefix prefix s.

(** [s.split(sep)] for a one-character separator: never empty. *)
Fixpoint split (sep : ascii) (s : string) : list string :=
  match s with
  | EmptyString => [EmptyString]
  | String c s' =>
      if Ascii.eqb c sep then EmptyString :: split sep s'
      else match split sep s' with
           | seg :: rest => String c seg :: rest
           | [] => [String c EmptyString]
           end
  end.

Fixpoint dropChars (n : nat) (s : string) : string :=
  match n, s with
  | S n', String _ s' => dropChars n' s'
  | _, _ => s
  end.

(** [s.replace(pattern, replacement)] with a string pattern: the first
    occurrence only.  The replacement is taken literally (no [$]
    patterns). *)
Fixpoint replace (pattern replacement s : string) : string :=
  if String.prefix pattern s
  then replacement +:+ dropChars (String.length pattern) s
  else match s with
       | String c s' => String c (replace pattern replacement s')
       | EmptyString => EmptyString
       end.

(** Truthiness of a value that is a string or undefined. *)
Definition truthy (v : option string) : bool :=
  match v with
  | Some s => negb (String.eqb s "")
  | None => false
  end.

(** [array.includes(x)] on strings. *)
Definition includes (l : list string) (x : string) : bool :=
  existsb (String.eqb x) l.

(** [Math.max(...xs)] used as an array length: the empty maximum
    (minus infinity) gives length 0. *)
Definition maxLength (xs : list nat) : nat := fold_right Nat.max 0 xs.

End Js.

(** ** The remote API as the scripts see it *)

Inductive Method := GET | POST.

(** Project resource of the project listing. *)
Record RemoteProject := mkRemoteProject {
  rp_id : string;
  rp_type : string;
  rp_properties : list (string * string);
  rp_name : string;
  rp_branches : string }.

(** Branch resource: [attributes.name] and
    [relationships.project.data.id]. *)
Record Branch := mkBranch {
  br_id : string;
  br_name : string;
  br_project : string }.

(** User resource of the users listing. *)
Record RemoteUser := mkRemoteUser {
  ru_id : string;
  ru_name : string;
  ru_email : string;
  ru_groups : list string }.

(** A resource of the [included] array of a role-assignments response,
    by its [type]. *)
Inductive Included :=
| IncUser (name email : string) (groups : list string)
| IncGroup (id groupname : string)
| IncOther (type : string).

Inductive Payload :=
| NoPayload
| AuthBody (jwt : option string)
| ProjectsPage (data : list RemoteProject)
| BranchesPage (data : list Branch)
| UsersPage (data : list RemoteUser)
| RoleAssignments (included : list Included).

Record Response := mkResponse {
  status : nat;
  statusText : string;
  setCookie : option (list string);
  data : Payload }.

Inductive Body :=
| NoBody
| Form (fields : list (string * string))
| SetProperties (projects : list string) (properties : list (string * string)).

Record Request := mkRequest {
  method : Method;
  url : string;
  headers : list (string * string);
  body : Body }.

(** What [axios.request] does with one request: the promise resolves with
    a response, or rejects with an error that carries the response when
    the server answered ([error.response]) and none on a transport
    failure. *)
Inductive Outcome :=
| Resolve (r : Response)
| Reject (message : string) (response : option Response).

(** ** Files *)

Record Config := mkConfig {
  customer : string;
  email : string;
  password : option string;
  accesstoken : option string;
  authUrlTemplate : string;
  authUrlV2Template : string;
  setPropertyUrlTemplate : string;
  projectsUrlTemplate : string;
  branchesUrlTemplate : string }.

(** Formatted project of projectList.json. *)
Record Project := mkProject {
  p_id : string;
  p_type : string;
  p_properties : list (string * string);
  p_name : string;
  p_branches : string }.

(** Project of projectList.json as getProjectUserInformation writes it. *)
Record ProjectRef := mkProjectRef {
  pr_id : string;
  pr_name : string }.

(** A CSV file: the header line and the rows, cell by cell. *)
Record Table := mkTable {
  header : list string;
  rows : list (list string) }.

Inductive Content :=
| JsonConfig (c : Config)
| JsonProjects (ps : list Project)
| JsonProjectRefs (ps : list ProjectRef)
| JsonBranches (bs : list Branch)
| Csv (t : Table)
| Text (s : string).

(** ** The world and the script monad *)

Inductive Log :=
| Info (line : string)
| Error (line : string).

Record World := mkWorld {
  files : gmap string Content;
  answers : list string;
  script : list Outcome;
  requests : list Request;
  console : list Log }.

(** A thrown JavaScript error: its [message] and its [response], if any. *)
Record Err := mkErr {
  message : string;
  response : option Response }.

(** A step returns, throws, or waits for ever (no outcome or answer is
    left). *)
Inductive Result (A : Type) :=
| Ok (a : A) (w : World)
| Exn (e : Err) (w : World)
| Pending (w : World).
Arguments Ok {A} a w.
Arguments Exn {A} e w.
Arguments Pending {A} w.

Definition M (A : Type) : Type := World -> Result A.

Definition final {A} (r : Result A) : World :=
  match r with
  | Ok _ w => w
  | Exn _ w => w
  | Pending w => w
  end.

Definition ret {A} (a : A) : M A := fun w => Ok a w.

Definition bind {A B} (m : M A) (k : A -> M B) : M B :=
  fun w =>
    match m w with
    | Ok a w' => k a w'
    | Exn e w' => Exn e w'
    | Pending w' => Pending w'
    end.

Definition throw {A} (e : Err) : M A := fun w => Exn e w.

Definition throwError {A} (msg : string) : M A := throw (mkErr msg None).

Definition tryCatch {A} (m : M A) (handler : Err -> M A) : M A :=
  fun w =>
    match m w with
    | Ok a w' => Ok a w'
    | Exn e w' => handler e w'
    | Pending w' => Pending w'
    end.

Global Instance M_ret : MRet M := @ret.
Global Instance M_bind : MBind M := fun A B k m => bind m k.

Definition consoleLog (line : string) : M unit :=
  fun w => Ok tt (mkWorld (files w) (answers w) (script w) (requests w)
                          (console w ++ [Info line])).

Definition consoleError (line : string) : M unit :=
  fun w => Ok tt (mkWorld (files w) (answers w) (script w) (requests w)
                          (console w ++ [Error line])).

(** [axios.request]: the request goes out, then the next outcome of the
    API decides. *)
Definition request (r : Request) : M Response :=
  fun w =>
    let sent := requests w ++ [r] in
    match script w with
    | Resolve resp :: s =>
        Ok resp (mkWorld (files w) (answers w) s sent (console w))
    | Reject msg resp :: s =>
        Exn (mkErr msg resp) (mkWorld (files w) (answers w) s sent (console w))
    | [] => Pending (mkWorld (files w) (answers w) [] sent (console w))
    end.

(** [rl.question]: the next answer of the operator. *)
Definition askQuestion (query : string) : M string :=
  fun w =>
    match answers w with
    | a :: rest =>
        Ok a (mkWorld (files w) rest (script w) (requests w) (console w))
    | [] => Pending w
    end.

(** [fs.access] in its try/catch: ENOENT is the only failure modelled. *)
Definition fileExists (path : string) : M bool :=
  fun w => Ok (bool_decide (is_Some (files w !! path))) w.

Definition unlink (path : string) : M unit :=
  fun w =>
    match files w !! path with
    | Some _ => Ok tt (mkWorld (delete path (files w)) (answers w) (script w)
                               (requests w) (console w))
    | None => Exn (mkErr "ENOENT" None) w
    end.

Definition readFile (path : string) : M Content :=
  fun w =>
    match files w !! path with
    | Some c => Ok c w
    | None => Exn (mkErr "ENOENT" None) w
    end.

Definition writeFile (path : string) (c : Content) : M unit :=
  fun w => Ok tt (mkWorld (<[path := c]> (files w)) (answers w) (script w)
                          (requests w) (console w)).

(** ** Credential resolution (the block every script repeats) *)

Module Auth.

Definition authUrl (config : Config) : string :=
  Js.replace "{customer}" (customer config) (authUrlTemplate config).

Definition authUrlV2 (config : Config) : string :=
  Js.replace "{customer}" (customer config) (authUrlV2Template config).

(** [config.password && config.password.trim() !== ""] *)
Definition provided (field : option string) : bool :=
  match field with
  | Some s => Js.truthy (Some s) && negb (String.eqb (Js.trim s) "")
  | None => false
  end.

Definition formHeaders : list (string * string) :=
  [("Accept", "application/json");
   ("Content-Type", "application/x-www-form-urlencoded")].

(** The [authConfig] of the request, or nothing when the script throws. *)
Definition authConfig (config : Config) : option Request :=
  if provided (password config) then
    Some (mkRequest POST (authUrl config) formHeaders
            (Form [("email", email config);
                   ("password", default "" (password config))]))
  else if provided (accesstoken config) then
    Some (mkRequest POST (authUrlV2 config) formHeaders
            (Form [("email", email config);
                   ("accesstoken", default "" (accesstoken config))]))
  else None.

(** [tokenCookie.split(';')[0].split('=')[1]] on the first cookie that
    starts with [access_token=]. *)
Definition cookieToken (setCookieHeader : option (list string))
  : option string :=
  match setCookieHeader with
  | Some cookies =>
      match find (Js.startsWith "access_token=") cookies with
      | Some tokenCookie =>
          Js.split "=" (hd "" (Js.split ";" tokenCookie)) !! 1
      | None => None
      end
  | None => None
  end.

Definition bodyJwt (d : Payload) : option string :=
  match d with
  | AuthBody jwt => jwt
  | _ => None
  end.

(** The token the script holds before [if (!token) throw]. *)
Definition extractToken (authResponse : Response) : option string :=
  let token := cookieToken (setCookie authResponse) in
  if negb (Js.truthy token) && Js.truthy (bodyJwt (data authResponse))
  then bodyJwt (data authResponse)
  else token.

(** Some scripts log the token-flow request before sending it. *)
Definition logTokenFlow (authConfig : Request) : M unit :=
  consoleLog "Using access token for authentication:";;
  consoleLog ("Request URL: " +:+ url authConfig);;
  consoleLog "Request Headers:";;
  consoleLog "Request Data:".

Definition resolve (verbose : bool) (config : Config) : M string :=
  match authConfig config with
  | None =>
      throwError
        "Neither password nor access token is provided in the config."
  | Some authConfig =>
      (if verbose && negb (provided (password config))
       then logTokenFlow authConfig else mret tt);;
      consoleLog "Sending authentication request...";;
      authResponse ← request authConfig;
      consoleLog ("Authentication response received: "
                    +:+ pretty (status authResponse) +:+ " "
                    +:+ statusText authResponse);;
      let token := extractToken authResponse in
      if Js.truthy token then mret (default "" token)
      else throwError "No access token found in the response."
  end.

End Auth.

(** ** Pagination of the project listing *)

Module Paginator.

Definition apiHeaders (token : string) : list (string * string) :=
  [("accept", "application/vnd.api+json");
   ("Authorization", "Bearer " +:+ token)].

Definition pageRequest (baseUrl token : string) (limit offset : nat)
  : Request :=
  mkRequest GET
    (baseUrl +:+ "?page[limit]=" +:+ pretty limit
             +:+ "&page[offset]=" +:+ pretty offset)
    (apiHeaders token) NoBody.

Section Loop.
Context {Raw Item : Type}.
(** [response.data.data] when it is the array the script maps over. *)
Variable pageData : Payload -> option (list Raw).
Variable format : Raw -> Item.
(** The resource in the log lines: "projects" and "Projects", or
    "users" and "Users". *)
Variable noun title : string.
Variable baseUrl token : string.
Variable limit : nat.

Definition fetching (offset : nat) : Log :=
  Info ("Fetching " +:+ noun +:+ " with offset=" +:+ pretty offset +:+ "...").

Definition received (r : Response) : Log :=
  Info (title +:+ " response received: " +:+ pretty (status r) +:+ " "
              +:+ statusText r).

Definition httpError (r : Response) : Log :=
  Error ("HTTP Error: " +:+ pretty (status r) +:+ " - " +:+ statusText r).

Definition log (line : Log) : M unit :=
  match line with
  | Info s => consoleLog s
  | Error s => consoleError s
  end.

(** The [while (more)] loop.  Every turn consumes one outcome of the
    API, so the fuel [S (length (script w))] given by [paginate]
    never runs out before the outcomes do. *)
Fixpoint loop (fuel : nat) (offset : nat) (all : list Item)
  : M (list Item) :=
  match fuel with
  | 0 => fun w => Pending w
  | S fuel' =>
      log (fetching offset);;
      pageResponse ← request (pageRequest baseUrl token limit offset);
      log (received pageResponse);;
      if Nat.eqb (status pageResponse) 200 then
        match pageData (data pageResponse) with
        | Some pageItems =>
            let all' := all ++ map format pageItems in
            if Nat.eqb (length pageItems) limit
            then loop fuel' (offset + limit) all'
            else mret all'
        | None =>
            throwError "Cannot read properties of undefined"
        end
      else
        log (httpError pageResponse);;
        mret all
  end.

Definition paginate : M (list Item) :=
  fun w => loop (S (length (script w))) 0 [] w.
End Loop.

End Paginator.

(** ** The checks on existing output files *)

Definition affirmative (answer : string) : bool :=
  Js.includes ["yes"; "y"] (Js.toLowerCase answer).

(** The check of one output file: [true] when the script goes on,
    [false] when it returns. *)
Definition confirmDelete (path question deleted : string) : M bool :=
  exists_ ← fileExists path;
  if exists_ : bool then
    answer ← askQuestion question;
    if negb (affirmative answer) then
      consoleLog "Exiting script without making changes.";;
      mret false
    else
      unlink path;;
      consoleLog deleted;;
      mret true
  else mret true.

(** [deleteFileIfExists] of getProjectUserInformation. *)
Definition deleteFileIfExists (path message : string) : M bool :=
  confirmDelete path
    (message +:+ " Do you want to delete it? [ yes | no ]: ")
    ("Existing " +:+ path +:+ " file deleted.").

(** The outer [try ... catch (error)] of every script: the error is
    logged and the script ends. *)
Definition catchAll (run : M unit) : M unit :=
  tryCatch run (fun error =>
    match response error with
    | Some r =>
        consoleError ("HTTP Error: " +:+ pretty (status r) +:+ " - "
                                     +:+ statusText r);;
        consoleError "Response data:"
    | None => consoleError ("Error: " +:+ message error)
    end).

Definition readConfig (configPath : string) : M Config :=
  configData ← readFile configPath;
  match configData with
  | JsonConfig config => mret config
  | _ => throwError "Cannot read properties of undefined (reading 'replace')"
  end.

(** ** getProjectProperties (src/unnamed/part_000) *)

Module GetProjectProperties.

Definition configPath := "./config.json".
Definition projectListPath := "./projectList.json".
Definition csvPath := "./projectList.csv".
Definition limit := 5.

Definition formatProject (project : RemoteProject) : Project :=
  {| p_id := rp_id project;
     p_type := rp_type project;
     p_properties :=
       if Nat.eqb (length (rp_properties project)) 0
       then [("key", "value")]
       else rp_properties project;
     p_name := rp_name project;
     p_branches := rp_branches project |}.

Definition projectsData (d : Payload) : option (list RemoteProject) :=
  match d with
  | ProjectsPage l => Some l
  | _ => None
  end.

Definition baseProjectsUrl (config : Config) : string :=
  hd "" (Js.split "?"
           (Js.replace "{customer}" (customer config)
              (projectsUrlTemplate config))).

Definition fetchProjects (config : Config) (token : string)
  : M (list Project) :=
  Paginator.paginate projectsData formatProject "projects" "Projects"
    (baseProjectsUrl config) token limit.

Definition dquote : string := String (ascii_of_nat 34) EmptyString.

(** [JSON.stringify] of a properties object with string values. *)
Definition stringifyProperties (props : list (string * string)) : string :=
  "{" +:+ String.concat ","
            (map (fun kv => dquote +:+ fst kv +:+ dquote +:+ ":"
                                   +:+ dquote +:+ snd kv +:+ dquote)
                 props) +:+ "}".

Definition csvTable (allProjects : list Project) : Table :=
  {| header := ["ID"; "Type"; "Properties"; "Name"; "Branches"];
     rows := map (fun project =>
                    [p_id project; p_type project;
                     stringifyProperties (p_properties project);
                     p_name project; p_branches project]) allProjects |}.

Definition body : M unit :=
  go ← confirmDelete projectListPath
         "projectList.json already exists. Do you want to delete it? [ yes | no ]: "
         "Existing projectList.json file deleted.";
  if go : bool then
    go ← confirmDelete csvPath
           "projectList.csv already exists. Do you want to delete it? [ yes | no ]: "
           "Existing projectList.csv file deleted.";
    if go : bool then
      config ← readConfig configPath;
      token ← Auth.resolve true config;
      allProjects ← fetchProjects config token;
      writeFile projectListPath (JsonProjects allProjects);;
      consoleLog "Project list has been saved to projectList.json";;
      writeFile csvPath (Csv (csvTable allProjects));;
      consoleLog "Project list has been saved to projectList.csv"
    else mret tt
  else mret tt.

Definition fetchProjectsWithAuth : M unit := catchAll body.

End GetProjectProperties.

(** ** setProjectProperties (src/src/setProjectProperties.mjs) *)

Module SetProjectProperties.

Definition configPath := "./config.json".
Definition projectListPath := "./projectList.json".

Definition setPropertyUrl (config : Config) : string :=
  Js.replace "{customer}" (customer config) (setPropertyUrlTemplate config).

Definition propertiesConfig (url token : string) (project : Project)
  : Request :=
  mkRequest POST url
    [("accept", "application/json");
     ("Content-Type", "application/json");
     ("Authorization", "Bearer " +:+ token)]
    (SetProperties [p_id project] (p_properties project)).

(** The [for (const project of projectList)] loop with its own
    try/catch around the request. *)
Fixpoint setAll (url token : string) (projectList : list Project)
  : M unit :=
  match projectList with
  | [] => mret tt
  | project :: rest =>
      consoleLog ("Setting properties for project ID: " +:+ p_id project);;
      tryCatch
        (propertiesResponse ← request (propertiesConfig url token project);
         consoleLog ("Response for project ID " +:+ p_id project +:+ ": "
                       +:+ pretty (status propertiesResponse) +:+ " "
                       +:+ statusText propertiesResponse);;
         if Nat.eqb (status propertiesResponse) 200 then
           consoleLog ("Project properties have been set successfully for project ID: "
                         +:+ p_id project)
         else
           consoleError ("HTTP Error for project ID " +:+ p_id project +:+ ": "
                           +:+ pretty (status propertiesResponse) +:+ " - "
                           +:+ statusText propertiesResponse))
        (fun error =>
           consoleError ("Error setting properties for project ID "
                           +:+ p_id project +:+ ": " +:+ message error);;
           match response error with
           | Some r =>
               consoleError ("HTTP Error for project ID " +:+ p_id project
                               +:+ ": " +:+ pretty (status r) +:+ " - "
                               +:+ statusText r);;
               consoleError "Response data:"
           | None => mret tt
           end);;
      setAll url token rest
  end.

Definition body : M unit :=
  config ← readConfig configPath;
  consoleLog "Config data loaded:";;
  token ← Auth.resolve true config;
  projectListData ← readFile projectListPath;
  match projectListData with
  | JsonProjects projectList =>
      consoleLog "Project list loaded:";;
      setAll (setPropertyUrl config) token projectList
  | _ => throwError "projectList is not iterable"
  end.

Definition setProjectProperties : M unit :=
  tryCatch body (fun error =>
    consoleError ("Error: " +:+ message error);;
    match response error with
    | Some r =>
        consoleError ("HTTP Error: " +:+ pretty (status r) +:+ " - "
                                     +:+ statusText r);;
        consoleError "Response data:"
    | None => mret tt
    end).

End SetProjectProperties.

(** ** JavaScript objects used as maps

    The own string keys in insertion order, which is the order of
    [Object.values] and [for ... in] for keys that are not array indices.
    Keys are identifiers of the API; the members a key could inherit from
    [Object.prototype] are not modelled. *)

Module JsObject.
Section Obj.
Context {V : Type}.

Fixpoint get (k : string) (o : list (string * V)) : option V :=
  match o with
  | [] => None
  | (k', v) :: o' => if String.eqb k k' then Some v else get k o'
  end.

(** [o[k] = v]: a present key keeps its place. *)
Fixpoint set (k : string) (v : V) (o : list (string * V))
  : list (string * V) :=
  match o with
  | [] => [(k, v)]
  | (k', v') :: o' =>
      if String.eqb k k' then (k, v) :: o' else (k', v') :: set k v o'
  end.

Definition keys (o : list (string * V)) : list string := map fst o.
Definition values (o : list (string * V)) : list V := map snd o.
End Obj.
End JsObject.

(** ** getProjectBranches (second script of setProjectProperties.mjs) *)

Module GetProjectBranches.

Definition configPath := "./config.json".
Definition projectListPath := "./projectList.json".
Definition branchesListPath := "./branchesList.json".
Definition outputCsvPath := "./projectBranches.csv".

(** An entry of [projectMap]. *)
Record Entry := mkEntry {
  name : string;
  branches : list string }.

Definition projectMapOf (projectList : list ProjectRef)
  : list (string * Entry) :=
  fold_left (fun map project =>
               JsObject.set (pr_id project)
                 (mkEntry (pr_name project) []) map)
            projectList [].

Definition addBranch (projectMap : list (string * Entry)) (branch : Branch)
  : list (string * Entry) :=
  let projectId := br_project branch in
  match JsObject.get projectId projectMap with
  | Some entry =>
      JsObject.set projectId
        (mkEntry (name entry) (branches entry ++ [br_name branch]))
        projectMap
  | None => projectMap
  end.

(** [projectMap] after the [forEach] over the branches. *)
Definition correlate (projectList : list ProjectRef)
    (branchesList : list Branch) : list (string * Entry) :=
  fold_left addBranch branchesList (projectMapOf projectList).

Definition branchField (index : nat) : string :=
  "branchName" +:+ pretty (index + 1).

(** [project.branches.reduce((obj, branchName, index) => ..., {})],
    from [index] on. *)
Fixpoint branchFields (index : nat) (branchNames : list string)
    (obj : list (string * string)) : list (string * string) :=
  match branchNames with
  | [] => obj
  | branchName :: rest =>
      branchFields (S index) rest
        (JsObject.set (branchField index) branchName obj)
  end.

(** [{ projectName: project.name, ...reduced }] *)
Definition csvRecord (project : Entry) : list (string * string) :=
  fold_left (fun obj kv => JsObject.set (fst kv) (snd kv) obj)
            (branchFields 0 (branches project) [])
            [("projectName", name project)].

Definition csvData (projectMap : list (string * Entry))
  : list (list (string * string)) :=
  map csvRecord (JsObject.values projectMap).

Definition fields (csvData : list (list (string * string)))
  : list string :=
  "projectName"
    :: map branchField
         (seq 0 (Js.maxLength
                   (map (fun project => length (JsObject.keys project) - 1)
                        csvData))).

(** [parseAsync(records, { fields, header: true })] of json2csv, cell by
    cell: a field a record lacks gives an empty cell. *)
Definition parseAsync (records : list (list (string * string)))
    (fields : list string) : Table :=
  {| header := fields;
     rows := map (fun record =>
                    map (fun field => default "" (JsObject.get field record))
                        fields) records |}.

Definition csvOutput (projectMap : list (string * Entry)) : Table :=
  parseAsync (csvData projectMap) (fields (csvData projectMap)).

Definition projectRefs (c : Content) : option (list ProjectRef) :=
  match c with
  | JsonProjects ps =>
      Some (map (fun p => mkProjectRef (p_id p) (p_name p)) ps)
  | JsonProjectRefs ps => Some ps
  | _ => None
  end.

Definition associateProjectsToBranches : M unit :=
  tryCatch
    (projectListData ← readFile projectListPath;
     branchesListData ← readFile branchesListPath;
     match projectRefs projectListData, branchesListData with
     | Some projectList, JsonBranches branchesList =>
         writeFile outputCsvPath
           (Csv (csvOutput (correlate projectList branchesList)));;
         consoleLog "Project branches have been saved to projectBranches.csv"
     | _, _ => throwError "Cannot read properties of undefined"
     end)
    (fun error => consoleError ("Error: " +:+ message error)).

Definition branchesData (d : Payload) : option (list Branch) :=
  match d with
  | BranchesPage l => Some l
  | _ => None
  end.

Definition branchesRequest (template token : string) (offset : nat)
  : Request :=
  mkRequest GET (Js.replace "{offset}" (pretty offset) template)
    (Paginator.apiHeaders token) NoBody.

(** The [while (moreBranches)] loop; here the request sits in a
    try/catch of its own.  The pair is [(allBranches, moreBranches)]. *)
Fixpoint loop (template token : string) (fuel offset : nat)
    (allBranches : list Branch) : M (list Branch) :=
  match fuel with
  | 0 => fun w => Pending w
  | S fuel' =>
      consoleLog ("Fetching branches with URL: "
                    +:+ url (branchesRequest template token offset));;
      turn ← tryCatch
        (branchesResponse ← request (branchesRequest template token offset);
         if Nat.eqb (status branchesResponse) 200 then
           match branchesData (data branchesResponse) with
           | Some pageItems =>
               mret (allBranches ++ pageItems,
                     Nat.eqb (length pageItems) 500)
           | None => throwError "branchesData is not iterable"
           end
         else
           consoleError ("HTTP Error: " +:+ pretty (status branchesResponse)
                           +:+ " - " +:+ statusText branchesResponse);;
           consoleError "Response data:";;
           mret (allBranches, false))
        (fun branchError =>
           consoleError ("Error fetching branches: "
                           +:+ match response branchError with
                               | Some _ => "(response data)"
                               | None => message branchError
                               end);;
           mret (allBranches, false));
      if snd turn : bool
      then loop template token fuel' (offset + 500) (fst turn)
      else mret (fst turn)
  end.

Definition fetchBranches (template token : string) : M (list Branch) :=
  fun w => loop template token (S (length (script w))) 0 [] w.

Definition body : M unit :=
  go ← confirmDelete branchesListPath
         "branchesList.json already exists. Do you want to delete it? [ yes | no ]: "
         "Existing branchesList.json file deleted.";
  if go : bool then
    config ← readConfig configPath;
    let template :=
      Js.replace "{customer}" (customer config) (branchesUrlTemplate config) in
    if negb (Js.truthy (Some (Auth.authUrl config)))
       || negb (Js.truthy (Some (Auth.authUrlV2 config)))
       || negb (Js.truthy (Some template))
    then throwError "One or more URL templates are missing or not correctly defined in the config."
    else
      token ← Auth.resolve true config;
      allBranches ← fetchBranches template token;
      writeFile branchesListPath (JsonBranches allBranches);;
      consoleLog "Branches list has been saved to branchesList.json";;
      associateProjectsToBranches
  else mret tt.

Definition fetchBranchesWithAuth : M unit := catchAll body.

End GetProjectBranches.

(** ** getProjectUserInformation (src/src/getProjectUserInformation.mjs) *)

Module GetProjectUserInformation.

Definition configPath := "./config.json".
Definition projectListPath := "./projectList.json".
Definition csvPath := "./projectDetails.csv".
Definition usersUrl := "https://demo.polaris.synopsys.com/api/auth/v2/users".
Definition limit := 5.
Definition userLimit := 50.

Record User := mkUser {
  id : string;
  name : string;
  email : string;
  groupIds : list string }.

(** A value of [groupMembers]. *)
Record GroupEntry := mkGroupEntry {
  groupName : string;
  members : list User }.

(** An element of [projectDetails]. *)
Record Detail := mkDetail {
  projectId : string;
  projectName : string;
  groups : list (string * GroupEntry);
  individualUsers : list (string * string) }.

Definition formatProject (project : RemoteProject) : ProjectRef :=
  mkProjectRef (rp_id project) (rp_name project).

Definition formatUser (user : RemoteUser) : User :=
  mkUser (ru_id user) (ru_name user) (ru_email user) (ru_groups user).

Definition usersData (d : Payload) : option (list RemoteUser) :=
  match d with
  | UsersPage l => Some l
  | _ => None
  end.

(** [if (!allGroups[groupId]) allGroups[groupId] = [];
     allGroups[groupId].push(user)] *)
Definition pushUser (user : User) (allGroups : gmap string (list User))
    (groupId : string) : gmap string (list User) :=
  <[groupId := default [] (allGroups !! groupId) ++ [user]]> allGroups.

Definition addUser (allGroups : gmap string (list User)) (user : User)
  : gmap string (list User) :=
  fold_left (pushUser user) (groupIds user) allGroups.

(** [allGroups] after the loop over [allUsers]. *)
Definition groupUsers (allUsers : list User) : gmap string (list User) :=
  fold_left addUser allUsers ∅.

Definition includedGroups (included : list Included)
  : list (string * string) :=
  omap (fun item => match item with
                    | IncGroup gid gname => Some (gid, gname)
                    | _ => None
                    end) included.

(** The users of [included], as [(userName, userEmail, groupId)]:
    [groupId] is [user.relationships.groups.data[0]?.id || 'N/A']. *)
Definition includedUsers (included : list Included)
  : list (string * string * string) :=
  omap (fun item => match item with
                    | IncUser uname uemail ugroups =>
                        let first := head ugroups in
                        Some (uname, uemail,
                              if Js.truthy first then default "" first
                              else "N/A")
                    | _ => None
                    end) included.

Definition groupMembersOf (allGroups : gmap string (list User))
    (groups : list (string * string)) : list (string * GroupEntry) :=
  fold_left (fun groupMembers group =>
               JsObject.set (fst group)
                 (mkGroupEntry (snd group)
                    (default [] (allGroups !! fst group)))
                 groupMembers)
            groups [].

Definition detailOf (allGroups : gmap string (list User))
    (project : ProjectRef) (included : list Included) : Detail :=
  let groups := includedGroups included in
  let users := includedUsers included in
  let individualUsers :=
    filter (fun user => snd user = "N/A") users in
  mkDetail (pr_id project) (pr_name project)
    (groupMembersOf allGroups groups)
    (map (fun user => (fst (fst user), snd (fst user))) individualUsers).

Definition roleAssignmentsRequest (token : string) (project : ProjectRef)
  : Request :=
  mkRequest GET
    ("https://demo.polaris.synopsys.com/api/auth/v2/role-assignments?filter%5Brole-assignments%5D%5Bobject%5D%5B%24eq%5D=urn%3Ax-swip%3Aprojects%3A"
       +:+ pr_id project
       +:+ "&include%5Brole-assignments%5D%5B%5D=role&include%5Brole-assignments%5D%5B%5D=user&include%5Brole-assignments%5D%5B%5D=group")
    (Paginator.apiHeaders token) NoBody.

(** The [for (const project of allProjects)] loop: the request is not in
    a try/catch of its own. *)
Fixpoint correlateProjects (token : string)
    (allGroups : gmap string (list User)) (allProjects : list ProjectRef)
    (projectDetails : list Detail) : M (list Detail) :=
  match allProjects with
  | [] => mret projectDetails
  | project :: rest =>
      consoleLog ("Fetching role assignments for project " +:+ pr_name project
                    +:+ " (ID: " +:+ pr_id project +:+ ")...");;
      roleAssignmentsResponse ← request (roleAssignmentsRequest token project);
      consoleLog ("Role assignments response received: "
                    +:+ pretty (status roleAssignmentsResponse) +:+ " "
                    +:+ statusText roleAssignmentsResponse);;
      if Nat.eqb (status roleAssignmentsResponse) 200 then
        match data roleAssignmentsResponse with
        | RoleAssignments included =>
            correlateProjects token allGroups rest
              (projectDetails ++ [detailOf allGroups project included])
        | _ => throwError "Cannot read properties of undefined (reading 'filter')"
        end
      else
        consoleError ("HTTP Error: " +:+ pretty (status roleAssignmentsResponse)
                        +:+ " - " +:+ statusText roleAssignmentsResponse);;
        correlateProjects token allGroups rest projectDetails
  end.

Definition groupRows (project : Detail) (group : GroupEntry)
  : list (list string) :=
  map (fun member =>
         [projectId project; projectName project; groupName group;
          name member; email member; ""])
      (members group).

Definition detailRows (project : Detail) : list (list string) :=
  flat_map (groupRows project) (JsObject.values (groups project))
  ++ map (fun user =>
            [projectId project; projectName project; "N/A"; ""; "";
             fst user +:+ ", " +:+ snd user])
         (individualUsers project).

Definition csvTable (projectDetails : list Detail) : Table :=
  {| header := ["PROJECT ID"; "PROJECT NAME"; "GROUP NAME"; "MEMBER NAME";
                "MEMBER EMAIL"; "INDIVIDUAL USERS IN A PROJECT"];
     rows := flat_map detailRows projectDetails |}.

Definition body : M unit :=
  go ← deleteFileIfExists projectListPath "projectList.json already exists.";
  if go : bool then
    go ← deleteFileIfExists csvPath "projectDetails.csv already exists.";
    if go : bool then
      config ← readConfig configPath;
      token ← Auth.resolve false config;
      allProjects ← Paginator.paginate GetProjectProperties.projectsData
                      formatProject "projects" "Projects"
                      (GetProjectProperties.baseProjectsUrl config)
                      token limit;
      writeFile projectListPath (JsonProjectRefs allProjects);;
      consoleLog "Project list has been saved to projectList.json";;
      allUsers ← Paginator.paginate usersData formatUser "users" "Users"
                   usersUrl token userLimit;
      projectDetails ← correlateProjects token (groupUsers allUsers)
                         allProjects [];
      writeFile csvPath (Csv (csvTable projectDetails));;
      consoleLog "Project details have been saved to projectDetails.csv"
    else mret tt
  else mret tt.

Definition fetchProjectsWithAuth : M unit := catchAll body.

End GetProjectUserInformation.

(** * Vocabulary of the statements *)


Definition passwordRequest (config : Config) (pw : string) : Request :=
  mkRequest POST (Auth.authUrl config) Auth.formHeaders
    (Form [("email", email config); ("password", pw)]).



Fixpoint occurs (c : ascii) (s : string) : bool :=
  match s with
  | String c' s' => Ascii.eqb c' c || occurs c s'
  | EmptyString => false
  end.

(** The part of [s] before the next [sep]. *)
Fixpoint upTo (sep : ascii) (s : string) : string :=
  match s with
  | String c s' => if Ascii.eqb c sep then "" else String c (upTo sep s')
  | EmptyString => ""
  end.

(** The substring of a cookie entry between [access_token=] and the next
    [;]. *)
Definition cookieValue (entry : string) : string :=
  upTo ";" (Js.dropChars (String.length "access_token=") entry).

(** A response that serves the page [items]: status 200 and [items] as
    its [data.data]. *)
Definition servesPage {Raw : Type} (pageData : Payload -> option (list Raw))
    (r : Response) (items : list Raw) : Prop :=
  status r = 200 /\ pageData (data r) = Some items.

(** The offsets of [n] successive requests. *)
Fixpoint offsetsFrom (offset limit n : nat) : list nat :=
  match n with
  | 0 => []
  | S n' => offset :: offsetsFrom (offset + limit) limit n'
  end.

Definition okResponse (d : Payload) : Response := mkResponse 200 "OK" None d.

(** An endpoint that serves the given project pages in this order. *)
Definition servedPages (pages : list (list RemoteProject)) : list Outcome :=
  map (fun items => Resolve (okResponse (ProjectsPage items))) pages.

(** The index of the first page with fewer than [p] items. *)
Fixpoint firstShortPage {A : Type} (p : nat) (pages : list (list A))
  : option nat :=
  match pages with
  | [] => None
  | items :: rest =>
      if Nat.ltb (length items) p then Some 0
      else S <$> firstShortPage p rest
  end.

(** The stopping rule as the spec words it, for an endpoint serving
    [pages]: pagination ends exactly after the first page with fewer than
    [p] items, with one request per page up to it and the items of these
    pages as result. *)
Definition stopsAfterFirstShortPage (p : nat)
    (pages : list (list RemoteProject)) : Prop :=
  forall k w,
    script w = servedPages pages ->
    firstShortPage p pages = Some k ->
    exists w',
      Paginator.paginate GetProjectProperties.projectsData
        GetProjectProperties.formatProject "projects" "Projects" "" "" p w
      = Ok (map GetProjectProperties.formatProject (concat (take (S k) pages)))
           w'
      /\ length (requests w') = length (requests w) + S k.

(** An answer other than [yes] or [y], whatever the letter case. *)
Definition negative (answer : string) : Prop :=
  Js.toLowerCase answer <> "yes" /\ Js.toLowerCase answer <> "y".

Definition exiting : Log := Info "Exiting script without making changes.".

(** The shape of a script that checks two output files before its work. *)
Definition twoChecks (path1 question1 deleted1 path2 question2 deleted2 : string)
    (work : M unit) : M unit :=
  go ← confirmDelete path1 question1 deleted1;
  if go : bool then
    go ← confirmDelete path2 question2 deleted2;
    if go : bool then work else mret tt
  else mret tt.

(** The destructive-prompt claim as the spec words it, for one run: the
    run returns, no file is deleted or otherwise touched, and no request
    is made. *)
Definition haltsUntouched (run : M unit) (w : World) : Prop :=
  exists w', run w = Ok tt w' /\ files w' = files w /\ requests w' = requests w.

(** What a script that checks [path1] and then [path2] does on a negative
    answer.  At the first prompt, or at the second when the first file is
    absent: the script returns, files and requests are as before, only the
    exit line is logged.  At the second prompt after an affirmative answer
    at the first: the script returns with no request made and with
    [path1], and nothing else, deleted. *)
Definition promptsRespected (run : M unit) (path1 deleted1 path2 : string)
  : Prop :=
  forall w,
    (forall a rest,
       is_Some (files w !! path1) -> answers w = a :: rest -> negative a ->
       run w = Ok tt (mkWorld (files w) rest (script w) (requests w)
                              (console w ++ [exiting])))
    /\ (forall a rest,
          files w !! path1 = None -> is_Some (files w !! path2) ->
          answers w = a :: rest -> negative a ->
          run w = Ok tt (mkWorld (files w) rest (script w) (requests w)
                                 (console w ++ [exiting])))
    /\ (forall a1 a2 rest,
          is_Some (files w !! path1) -> is_Some (files w !! path2) ->
          answers w = a1 :: a2 :: rest -> ~ negative a1 -> negative a2 ->
          run w = Ok tt (mkWorld (delete path1 (files w)) rest (script w)
                                 (requests w)
                                 (console w ++ [Info deleted1; exiting]))).

(** ** Concrete runs used in the evaluations *)

Module Sample.

Definition config : Config :=
  mkConfig "acme" "ops@acme.test" (Some "secret") None
    "https://{customer}.polaris.test/api/auth/authenticate"
    "https://{customer}.polaris.test/api/auth/v2/authenticate"
    "https://{customer}.polaris.test/api/common/v0/properties"
    "https://{customer}.polaris.test/api/common/v0/projects?page[limit]=500"
    "https://{customer}.polaris.test/api/common/v0/branches?page[limit]=500&page[offset]={offset}".

Definition authOk : Outcome :=
  Resolve (mkResponse 200 "OK" (Some ["access_token=tok; Path=/"])
             (AuthBody None)).

Definition remote (id name : string) : RemoteProject :=
  mkRemoteProject id "projects" [] name ("/projects/" +:+ id +:+ "/branches").

Definition fullPage : Outcome :=
  Resolve (okResponse (ProjectsPage
    [remote "p1" "Alpha"; remote "p2" "Beta"; remote "p3" "Gamma";
     remote "p4" "Delta"; remote "p5" "Epsilon"])).

Definition twoProjects : Outcome :=
  Resolve (okResponse (ProjectsPage [remote "p1" "Alpha"; remote "p2" "Beta"])).

Definition noUsers : Outcome := Resolve (okResponse (UsersPage [])).

Definition networkError : Outcome := Reject "Network Error" None.

Definition serverError : Outcome :=
  Reject "Request failed with status code 500"
    (Some (mkResponse 500 "Internal Server Error" None NoPayload)).

Definition rolesOk : Outcome :=
  Resolve (okResponse (RoleAssignments [IncUser "Ann" "ann@acme.test" []])).

(** Both output files of getProjectProperties exist; the operator
    confirms the first deletion and refuses the second. *)
Definition yesThenNo : World :=
  mkWorld {[ "./projectList.json" := Text "old";
             "./projectList.csv" := Text "old";
             "./config.json" := JsonConfig config ]}
          ["yes"; "no"] [authOk; fullPage] [] [].

(** getProjectProperties: the second page fetch meets a transport
    failure. *)
Definition secondPageFails : World :=
  mkWorld {[ "./config.json" := JsonConfig config ]} []
          [authOk; fullPage; networkError] [] [].

(** getProjectUserInformation: the role-assignments request of the
    first of two projects is answered with status 500. *)
Definition firstProjectFails : World :=
  mkWorld {[ "./config.json" := JsonConfig config ]} []
          [authOk; twoProjects; noUsers; serverError; rolesOk] [] [].

End Sample.


(** The fields [branchName<index+1>], [branchName<index+2>], ... paired
    with the given names. *)
Fixpoint numbered (index : nat) (names : list string)
  : list (string * string) :=
  match names with
  | [] => []
  | n :: rest =>
      (GetProjectBranches.branchField index, n) :: numbered (S index) rest
  end.

Module SampleConfig.




End SampleConfig.

(** * Further vocabulary *)

(** The world after a step that consumed the outcomes before [rest],
    issued [sent] and logged [lines]; files and answers as before. *)
Definition after (w : World) (rest : list Outcome) (sent : list Request)
    (lines : list Log) : World :=
  mkWorld (files w) (answers w) rest (requests w ++ sent) (console w ++ lines).

(** The requests of [n] successive pages of [limit] items. *)
Definition pageRequests (baseUrl token : string) (limit n : nat)
  : list Request :=
  map (fun k => Paginator.pageRequest baseUrl token limit (k * limit))
      (seq 0 n).

(** A start of getProjectProperties with its configuration in place and
    no output file left from an earlier run. *)
Definition cleanStart (w : World) (config : Config) : Prop :=
  files w !! GetProjectProperties.projectListPath = None
  /\ files w !! GetProjectProperties.csvPath = None
  /\ files w !! GetProjectProperties.configPath = Some (JsonConfig config).

(** The two output files of getProjectProperties for the projects
    [allProjects], added to the files [fs]. *)
Definition withProjectFiles (allProjects : list Project)
    (fs : gmap string Content) : gmap string Content :=
  <[GetProjectProperties.csvPath :=
      Csv (GetProjectProperties.csvTable allProjects)]>
    (<[GetProjectProperties.projectListPath := JsonProjects allProjects]> fs).

(** The world at the end of a script: as [after], with the files
    given. *)
Definition done (w : World) (fs : gmap string Content) (rest : list Outcome)
    (sent : list Request) (lines : list Log) : World :=
  mkWorld fs (answers w) rest (requests w ++ sent) (console w ++ lines).

(** ** Further concrete runs *)

Module Runs.

Definition five : list RemoteProject :=
  [Sample.remote "p1" "Alpha"; Sample.remote "p2" "Beta";
   Sample.remote "p3" "Gamma"; Sample.remote "p4" "Delta";
   Sample.remote "p5" "Epsilon"].

Definition two : list RemoteProject :=
  [mkRemoteProject "p6" "projects" [("team", "blue")] "Zeta" "/projects/p6/branches";
   Sample.remote "p7" "Eta"].

Definition authResponse : Response :=
  mkResponse 200 "OK" (Some ["access_token=tok; Path=/"]) (AuthBody None).

Definition unavailable : Response :=
  mkResponse 204 "No Content" None NoPayload.

Definition noToken : Response := mkResponse 200 "OK" None (AuthBody None).

Definition start (outcomes : list Outcome) : World :=
  mkWorld {[ "./config.json" := JsonConfig Sample.config ]} [] outcomes [] [].

Definition authRequest : Request := passwordRequest Sample.config "secret".

End Runs.

(** A step that leaves the files and the operator's answers alone,
    however it ends. *)
Definition readOnly {A : Type} (m : M A) : Prop :=
  forall w, files (final (m w)) = files w
            /\ answers (final (m w)) = answers w.

(** The post that sets the properties of a remote project as phase one
    recorded them: its own properties, or the placeholder pair when it
    had none. *)
Definition postedBack (config : Config) (token : string)
    (remote : RemoteProject) : Request :=
  mkRequest POST (SetProjectProperties.setPropertyUrl config)
    [("accept", "application/json");
     ("Content-Type", "application/json");
     ("Authorization", "Bearer " +:+ token)]
    (SetProperties [rp_id remote]
       match rp_properties remote with
       | [] => [("key", "value")]
       | properties => properties
       end).

(** The outcomes that end the branch loop, with the branches each still
    contributes: a page that is not full, a status other than 200, a 200
    response without the array of branches, a rejected request. *)
Inductive EndsBranches : Outcome -> list Branch -> Prop :=
| ends_short r items :
    servesPage GetProjectBranches.branchesData r items ->
    length items <> 500 ->
    EndsBranches (Resolve r) items
| ends_status r :
    status r <> 200 -> EndsBranches (Resolve r) []
| ends_payload r :
    status r = 200 -> GetProjectBranches.branchesData (data r) = None ->
    EndsBranches (Resolve r) []
| ends_reject msg resp :
    EndsBranches (Reject msg resp) [].

(** The requests of [n] successive branch pages. *)
Definition branchRequests (template token : string) (n : nat) : list Request :=
  map (fun k => GetProjectBranches.branchesRequest template token (k * 500))
      (seq 0 n).

(** The branch listing URL of a configuration. *)
Definition branchesTemplate (config : Config) : string :=
  Js.replace "{customer}" (customer config) (branchesUrlTemplate config).


(** The URL templates getProjectBranches insists on. *)
Definition urlsDefined (config : Config) : Prop :=
  Auth.authUrl config <> "" /\ Auth.authUrlV2 config <> ""
  /\ branchesTemplate config <> "".

(** The project list of projectList.json, when the file is there and
    holds one. *)
Definition projectListOf (fs : gmap string Content)
  : option (list ProjectRef) :=
  fs !! GetProjectBranches.projectListPath ≫= GetProjectBranches.projectRefs.


(** Responses that serve a whole collection page by page: full pages of
    [limit] items, then a page of another length. *)
Definition servesAll {Raw : Type} (pageData : Payload -> option (list Raw))
    (limit : nat) (rs : list Response) (r : Response)
    (pre : list (list Raw)) (last : list Raw) : Prop :=
  Forall2 (servesPage pageData) rs pre
  /\ Forall (fun items => length items = limit) pre
  /\ servesPage pageData r last
  /\ length last <> limit.

(** A role-assignments response that, when its status is 200, carries the
    [included] array. *)
Definition answersRoles (r : Response) : Prop :=
  status r = 200 -> exists included, data r = RoleAssignments included.

(** The detail a role-assignments response contributes for its project:
    none when the status is not 200. *)
Definition detailFrom (allGroups : gmap string (list GetProjectUserInformation.User))
    (answered : ProjectRef * Response)
  : option GetProjectUserInformation.Detail :=
  if Nat.eqb (status (snd answered)) 200 then
    match data (snd answered) with
    | RoleAssignments included =>
        Some (GetProjectUserInformation.detailOf allGroups (fst answered)
                included)
    | _ => None
    end
  else None.

Definition detailsFrom (allGroups : gmap string (list GetProjectUserInformation.User))
    (allProjects : list ProjectRef) (rs : list Response)
  : list GetProjectUserInformation.Detail :=
  omap (detailFrom allGroups) (zip allProjects rs).

(** The files of getProjectUserInformation once the project list is
    saved, and once the details are saved too. *)
Definition withProjectList (allProjects : list ProjectRef)
    (fs : gmap string Content) : gmap string Content :=
  <[GetProjectUserInformation.projectListPath := JsonProjectRefs allProjects]> fs.


(** Concrete listings for getProjectUserInformation. *)
Module Listing.

Definition projects : Response :=
  okResponse (ProjectsPage [Sample.remote "p1" "Alpha";
                            Sample.remote "p2" "Beta"]).

Definition users : Response :=
  okResponse (UsersPage [mkRemoteUser "u1" "Ann" "ann@acme.test" ["g1"];
                         mkRemoteUser "u2" "Bob" "bob@acme.test" []]).

Definition roles : Response :=
  okResponse (RoleAssignments [IncGroup "g1" "devs";
                               IncUser "Bob" "bob@acme.test" []]).

Definition header : list string :=
  ["PROJECT ID"; "PROJECT NAME"; "GROUP NAME"; "MEMBER NAME"; "MEMBER EMAIL";
   "INDIVIDUAL USERS IN A PROJECT"].

End Listing.


(** * The scripts of src/unnamed/part_001 *)

(** A JSON value as these scripts hand it to [JSON.stringify]. *)
#[local] Unset Elimination Schemes.
Inductive Json :=
| JString (s : string)
| JArray (items : list Json)
| JObject (fields : list (string * Json)).
#[local] Set Elimination Schemes.

(** ** The users list (first script of src/unnamed/part_001) *)

Module UsersList.

Definition configPath := "./config.json".
Definition projectListPath := "./projectList.json".
Definition csvPath := "./projectList.csv".
Definition usersJsonPath := "./usersList.json".
Definition usersCsvPath := "./usersList.csv".
Definition groupsJsonPath := "./groupsList.json".
Definition limit := 5.

(** An element of [allUsers]. *)
Record UserRow := mkUserRow {
  projectName : string;
  projectId : string;
  name : string;
  email : string;
  group : string }.

(** [groups.find(group => group.id === user.relationships.groups.data[0]?.id)
       ?.attributes.groupname || 'N/A'], for the groups as [(id, groupname)]
    and the group ids of the user. *)
Definition groupOf (groups : list (string * string))
    (userGroups : list string) : string :=
  let groupname :=
    first ← head userGroups;
    snd <$> List.find (fun group => String.eqb (fst group) first) groups in
  if Js.truthy groupname then default "" groupname else "N/A".

(** [users] of one role-assignments response. *)
Definition usersOf (project : ProjectRef) (included : list Included)
  : list UserRow :=
  let groups := GetProjectUserInformation.includedGroups included in
  omap (fun item => match item with
                    | IncUser uname uemail ugroups =>
                        Some (mkUserRow (pr_name project) (pr_id project)
                                uname uemail (groupOf groups ugroups))
                    | _ => None
                    end) included.

(** The [for (const project of allProjects)] loop: the request is not in
    a try/catch of its own.  The pair is [(allUsers, allGroups)]. *)
Fixpoint collect (token : string) (allProjects : list ProjectRef)
    (allUsers : list UserRow) (allGroups : list (string * string))
  : M (list UserRow * list (string * string)) :=
  match allProjects with
  | [] => mret (allUsers, allGroups)
  | project :: rest =>
      consoleLog ("Fetching role assignments for project " +:+ pr_name project
                    +:+ " (ID: " +:+ pr_id project +:+ ")...");;
      roleAssignmentsResponse ←
        request (GetProjectUserInformation.roleAssignmentsRequest token project);
      consoleLog ("Role assignments response received: "
                    +:+ pretty (status roleAssignmentsResponse) +:+ " "
                    +:+ statusText roleAssignmentsResponse);;
      if Nat.eqb (status roleAssignmentsResponse) 200 then
        match data roleAssignmentsResponse with
        | RoleAssignments included =>
            collect token rest
              (allUsers ++ usersOf project included)
              (allGroups ++ GetProjectUserInformation.includedGroups included)
        | _ => throwError "Cannot read properties of undefined (reading 'filter')"
        end
      else
        consoleError ("HTTP Error: " +:+ pretty (status roleAssignmentsResponse)
                        +:+ " - " +:+ statusText roleAssignmentsResponse);;
        collect token rest allUsers allGroups
  end.

(** [Array.from(new Set(values))]: the values in the order of their
    first occurrence. *)
Definition setFrom (values : list string) : list string :=
  fold_left (fun seen value =>
               if decide (value ∈ seen) then seen else seen ++ [value])
            values [].

Definition uniqueGroups (allGroups : list (string * string)) : list string :=
  setFrom (map snd allGroups).

Definition userJson (user : UserRow) : Json :=
  JObject [("projectName", JString (projectName user));
           ("projectId", JString (projectId user));
           ("name", JString (name user));
           ("email", JString (email user));
           ("group", JString (group user))].

Definition usersTable (allUsers : list UserRow) : Table :=
  {| header := ["Project Name"; "Project ID"; "Name"; "Email"; "Group"];
     rows := map (fun user =>
                    [projectName user; projectId user; name user; email user;
                     group user]) allUsers |}.

Section Script.
(** [JSON.stringify(value, null, 2)], left to the library. *)
Variable stringify : Json -> string.

Definition body : M unit :=
  go ← confirmDelete projectListPath
         "projectList.json already exists. Do you want to delete it? [ yes | no ]: "
         "Existing projectList.json file deleted.";
  if go : bool then
    go ← confirmDelete csvPath
           "projectList.csv already exists. Do you want to delete it? [ yes | no ]: "
           "Existing projectList.csv file deleted.";
    if go : bool then
      config ← readConfig configPath;
      token ← Auth.resolve false config;
      allProjects ← Paginator.paginate GetProjectProperties.projectsData
                      GetProjectUserInformation.formatProject
                      "projects" "Projects"
                      (GetProjectProperties.baseProjectsUrl config)
                      token limit;
      writeFile projectListPath (JsonProjectRefs allProjects);;
      consoleLog "Project list has been saved to projectList.json";;
      collected ← collect token allProjects [] [];
      writeFile usersJsonPath
        (Text (stringify (JArray (map userJson (fst collected)))));;
      consoleLog "User list has been saved to usersList.json";;
      writeFile usersCsvPath (Csv (usersTable (fst collected)));;
      consoleLog "User list has been saved to usersList.csv";;
      writeFile groupsJsonPath
        (Text (stringify (JArray (map JString (uniqueGroups (snd collected))))));;
      consoleLog "Group list has been saved to groupsList.json"
    else mret tt
  else mret tt.

Definition fetchProjectsWithAuth : M unit := catchAll body.
End Script.

End UsersList.

(** ** The details list (second script of src/unnamed/part_001) *)

Module DetailsList.

Definition configPath := "./config.json".
Definition projectListPath := "./projectList.json".
Definition detailsJsonPath := "./detailsList.json".
Definition detailsCsvPath := "./detailsList.csv".
Definition limit := 500.

(** An element of [allDetails]. *)
Record DetailRow := mkDetailRow {
  projectName : string;
  projectId : string;
  userType : string;
  name : string;
  email : string }.

(** [[...users, ...groups]] of one role-assignments response. *)
Definition detailsOf (project : ProjectRef) (included : list Included)
  : list DetailRow :=
  omap (fun item => match item with
                    | IncUser uname uemail _ =>
                        Some (mkDetailRow (pr_name project) (pr_id project)
                                "User" uname uemail)
                    | _ => None
                    end) included
  ++ omap (fun item => match item with
                       | IncGroup _ groupname =>
                           Some (mkDetailRow (pr_name project) (pr_id project)
                                   "GroupName" groupname "")
                       | _ => None
                       end) included.

(** [JSON.parse(projectListData)] as the script goes on to use it: a
    list of projects, or ([None]) an object, over which [for ... of]
    cannot iterate.  [Csv] and [Text] contents are not JSON: parsing
    throws (the text of the SyntaxError is not modelled). *)
Definition parseProjects (projectListData : Content)
  : M (option (list ProjectRef)) :=
  match projectListData with
  | JsonProjects ps =>
      mret (Some (map (fun p => mkProjectRef (p_id p) (p_name p)) ps))
  | JsonProjectRefs ps => mret (Some ps)
  | JsonConfig _ | JsonBranches _ => mret None
  | Csv _ | Text _ => throwError "Unexpected token in JSON"
  end.

(** The first [try ... catch (err)]: the projects of an existing
    projectList.json, or, when [fs.access] fails with ENOENT, the
    projects fetched from the API after an authentication of its own.
    Any other error is thrown again. *)
Definition acquireProjects : M (option (list ProjectRef)) :=
  exists_ ← fileExists projectListPath;
  if exists_ : bool then
    projectListData ← readFile projectListPath;
    allProjects ← parseProjects projectListData;
    consoleLog "Reading projects from existing projectList.json";;
    mret allProjects
  else
    consoleLog "projectList.json does not exist. Fetching projects from the API.";;
    config ← readConfig configPath;
    token ← Auth.resolve false config;
    allProjects ← Paginator.paginate GetProjectProperties.projectsData
                    GetProjectUserInformation.formatProject
                    "projects" "Projects"
                    (GetProjectProperties.baseProjectsUrl config)
                    token limit;
    writeFile projectListPath (JsonProjectRefs allProjects);;
    consoleLog "Project list has been saved to projectList.json";;
    mret (Some allProjects).

(** The [for (const project of allProjects)] loop: the request is not in
    a try/catch of its own. *)
Fixpoint collect (token : string) (allProjects : list ProjectRef)
    (allDetails : list DetailRow) : M (list DetailRow) :=
  match allProjects with
  | [] => mret allDetails
  | project :: rest =>
      consoleLog ("Fetching role assignments for project " +:+ pr_name project
                    +:+ " (ID: " +:+ pr_id project +:+ ")...");;
      roleAssignmentsResponse ←
        request (GetProjectUserInformation.roleAssignmentsRequest token project);
      consoleLog ("Role assignments response received: "
                    +:+ pretty (status roleAssignmentsResponse) +:+ " "
                    +:+ statusText roleAssignmentsResponse);;
      if Nat.eqb (status roleAssignmentsResponse) 200 then
        match data roleAssignmentsResponse with
        | RoleAssignments included =>
            collect token rest (allDetails ++ detailsOf project included)
        | _ => throwError "Cannot read properties of undefined (reading 'filter')"
        end
      else
        consoleError ("HTTP Error: " +:+ pretty (status roleAssignmentsResponse)
                        +:+ " - " +:+ statusText roleAssignmentsResponse);;
        collect token rest allDetails
  end.

Definition detailJson (detail : DetailRow) : Json :=
  JObject [("projectName", JString (projectName detail));
           ("projectId", JString (projectId detail));
           ("userType", JString (userType detail));
           ("name", JString (name detail));
           ("email", JString (email detail))].

Definition detailsTable (allDetails : list DetailRow) : Table :=
  {| header := ["Project Name"; "Project ID"; "Type"; "Name"; "Email"];
     rows := map (fun detail =>
                    [projectName detail; projectId detail; userType detail;
                     name detail; email detail]) allDetails |}.

Section Script.
(** [JSON.stringify(value, null, 2)], left to the library. *)
Variable stringify : Json -> string.

Definition body : M unit :=
  allProjects ← acquireProjects;
  config ← readConfig configPath;
  token ← Auth.resolve false config;
  allDetails ← match allProjects with
               | Some projects => collect token projects []
               | None => throwError "allProjects is not iterable"
               end;
  writeFile detailsJsonPath
    (Text (stringify (JArray (map detailJson allDetails))));;
  consoleLog "Details list has been saved to detailsList.json";;
  writeFile detailsCsvPath (Csv (detailsTable allDetails));;
  consoleLog "Details list has been saved to detailsList.csv".

Definition fetchProjectsWithAuth : M unit := catchAll body.
End Script.

End DetailsList.

(** The [included] array a role-assignments response contributes:
    nothing when its status is not 200. *)
Definition includedOf (r : Response) : list Included :=
  if Nat.eqb (status r) 200 then
    match data r with
    | RoleAssignments included => included
    | _ => []
    end
  else [].

(** What the loops of the two scripts gather from the responses that
    answered the projects. *)
Definition usersFrom (answered : list (ProjectRef * Response))
  : list UsersList.UserRow :=
  flat_map (fun pr => UsersList.usersOf (fst pr) (includedOf (snd pr)))
           answered.

Definition groupsFrom (answered : list (ProjectRef * Response))
  : list (string * string) :=
  flat_map (fun pr => GetProjectUserInformation.includedGroups
                        (includedOf (snd pr)))
           answered.

Definition rowsFrom (answered : list (ProjectRef * Response))
  : list DetailsList.DetailRow :=
  flat_map (fun pr => DetailsList.detailsOf (fst pr) (includedOf (snd pr)))
           answered.


(** The files the users-list script leaves for the projects
    [allProjects] and the responses that answered them. *)
Definition withUsersLists (stringify : Json -> string)
    (allProjects : list ProjectRef) (rs : list Response)
    (fs : gmap string Content) : gmap string Content :=
  let answered := zip allProjects rs in
  <[UsersList.groupsJsonPath :=
      Text (stringify
              (JArray (map JString
                           (UsersList.uniqueGroups (groupsFrom answered)))))]>
    (<[UsersList.usersCsvPath := Csv (UsersList.usersTable (usersFrom answered))]>
       (<[UsersList.usersJsonPath :=
            Text (stringify
                    (JArray (map UsersList.userJson (usersFrom answered))))]>
          (<[UsersList.projectListPath := JsonProjectRefs allProjects]> fs))).

(** The two files the details-list script adds for the projects
    [allProjects] and the responses that answered them. *)
Definition withDetailsLists (stringify : Json -> string)
    (allProjects : list ProjectRef) (rs : list Response)
    (fs : gmap string Content) : gmap string Content :=
  let allDetails := rowsFrom (zip allProjects rs) in
  <[DetailsList.detailsCsvPath := Csv (DetailsList.detailsTable allDetails)]>
    (<[DetailsList.detailsJsonPath :=
         Text (stringify (JArray (map DetailsList.detailJson allDetails)))]>
       fs).

(** A step that, run without config.json, issues no request. *)
Definition needsConfig {A : Type} (m : M A) : Prop :=
  forall w, files w !! "./config.json" = None ->
            requests (final (m w)) = requests w.

(** A step that issues no request and does not create config.json. *)
Definition quiet {A : Type} (m : M A) : Prop :=
  forall w, requests (final (m w)) = requests w
            /\ (files w !! "./config.json" = None ->
                files (final (m w)) !! "./config.json" = None).
(** * Properties *)

(** Unfolds the monad operations so that a script step computes. *)
Ltac unfold_script :=
  unfold mbind, M_bind, bind, mret, M_ret, ret, throwError, throw, tryCatch,
    consoleLog, consoleError, request, askQuestion, fileExists, unlink,
    readFile, writeFile in *.

Lemma world_eta (w : World) :
  w = mkWorld (files w) (answers w) (script w) (requests w) (console w).
Proof. by destruct w. Qed.

(** ** JavaScript strings *)

Lemma trim_empty : Js.trim "" = "".
Proof. reflexivity. Qed.

(** A field is used ([provided]) exactly when it is a string that is not
    empty after trimming. *)
Lemma provided_iff (field : option string) :
  Auth.provided field = true <-> exists s, field = Some s /\ Js.trim s <> "".
Proof.
  unfold Auth.provided, Js.truthy. split.
  - destruct field as [s|]; [|done]. intros H.
    apply andb_true_iff in H as [_ H]. exists s. split; [done|].
    apply negb_true_iff in H. by apply String.eqb_neq in H.
  - intros (s & -> & Hs). apply andb_true_iff. split.
    + apply negb_true_iff, String.eqb_neq. intros ->. by apply Hs.
    + by apply negb_true_iff, String.eqb_neq.
Qed.

Lemma provided_false_iff (field : option string) :
  Auth.provided field = false <->
  field = None \/ exists s, field = Some s /\ Js.trim s = "".
Proof.
  split.
  - intros H. destruct field as [s|]; [right|by left].
    exists s. split; [done|].
    destruct (decide (Js.trim s = "")) as [|Hne]; [done|].
    assert (Auth.provided (Some s) = true) by (apply provided_iff; eauto).
    congruence.
  - intros [->|(s & -> & Hs)]; [done|].
    apply not_true_is_false. intros (s' & [= <-] & Hne)%provided_iff. done.
Qed.

(** The operator's answer is accepted exactly when it is [yes] or [y] in
    any letter case. *)
Lemma affirmative_iff (answer : string) :
  affirmative answer = true <->
  Js.toLowerCase answer = "yes" \/ Js.toLowerCase answer = "y".
Proof.
  unfold affirmative, Js.includes. simpl.
  rewrite orb_false_r, orb_true_iff, !String.eqb_eq. tauto.
Qed.

Lemma affirmative_false_iff (answer : string) :
  affirmative answer = false <->
  Js.toLowerCase answer <> "yes" /\ Js.toLowerCase answer <> "y".
Proof.
  rewrite <- not_true_iff_false, affirmative_iff. tauto.
Qed.

(** ** Credential resolution *)

Section Resolve.
Variable config : Config.
Variable w : World.

Variable verbose : bool.


End Resolve.



(** ** Token extraction *)

Lemma append_cons (c : ascii) (a b : string) :
  String c a +:+ b = String c (a +:+ b).
Proof. reflexivity. Qed.

Lemma append_nil_r (a : string) : a +:+ "" = a.
Proof. induction a as [|c a IH]; [done|]. by rewrite append_cons, IH. Qed.

Lemma append_assoc (a b c : string) : (a +:+ b) +:+ c = a +:+ b +:+ c.
Proof. induction a as [|x a IH]; [done|]. by rewrite !append_cons, IH. Qed.

Lemma split_no_sep (sep : ascii) (a : string) :
  occurs sep a = false -> Js.split sep a = [a].
Proof.
  induction a as [|c a IH]; simpl; [done|].
  intros [Hc Ha]%orb_false_iff. rewrite Hc, (IH Ha). done.
Qed.

Lemma split_at_sep (sep : ascii) (a b : string) :
  occurs sep a = false ->
  Js.split sep (a +:+ String sep b) = a :: Js.split sep b.
Proof.
  induction a as [|c a IH]; simpl.
  - intros _. by rewrite Ascii.eqb_refl.
  - intros [Hc Ha]%orb_false_iff. rewrite Hc, (IH Ha). done.
Qed.

Lemma upTo_no_sep (sep : ascii) (a : string) :
  occurs sep a = false -> upTo sep a = a.
Proof.
  induction a as [|c a IH]; simpl; [done|].
  intros [Hc Ha]%orb_false_iff. by rewrite Hc, (IH Ha).
Qed.

Lemma upTo_at_sep (sep : ascii) (a b : string) :
  occurs sep a = false -> upTo sep (a +:+ String sep b) = a.
Proof.
  induction a as [|c a IH]; simpl.
  - intros _. by rewrite Ascii.eqb_refl.
  - intros [Hc Ha]%orb_false_iff. by rewrite Hc, (IH Ha).
Qed.

Lemma occurs_app (c : ascii) (a b : string) :
  occurs c (a +:+ b) = occurs c a || occurs c b.
Proof.
  induction a as [|x a IH]; [done|].
  rewrite append_cons. simpl. by rewrite IH, orb_assoc.
Qed.

(** Where the code and the spec agree: a cookie value without [=] is
    extracted whole, whether the entry ends there or goes on with [;]. *)
Lemma cookieToken_plain_value (value attrs : string) (cookies : list string) :
  occurs ";" value = false -> occurs "=" value = false ->
  let entry := "access_token=" +:+ value +:+ attrs in
  attrs = "" \/ (exists rest, attrs = String ";" rest) ->
  find (Js.startsWith "access_token=") cookies = Some entry ->
  Auth.cookieToken (Some cookies) = Some value
  /\ cookieValue entry = value.
Proof.
  intros Hsemi Heq entry Hattrs Hfind. unfold Auth.cookieToken.
  rewrite Hfind. subst entry.
  assert (occurs ";" ("access_token=" +:+ value) = false) as Hsemi'
    by (by rewrite occurs_app, Hsemi).
  assert (hd "" (Js.split ";" ("access_token=" +:+ value +:+ attrs))
          = "access_token=" +:+ value) as ->.
  { destruct Hattrs as [->|[rest ->]].
    - by rewrite append_nil_r, (split_no_sep _ _ Hsemi').
    - by rewrite <- append_assoc, (split_at_sep _ _ _ Hsemi'). }
  split.
  - change ("access_token=" +:+ value)
      with ("access_token" +:+ String "=" value).
    rewrite split_at_sep by done. by rewrite (split_no_sep _ _ Heq).
  - unfold cookieValue.
    change (Js.dropChars (String.length "access_token=")
              ("access_token=" +:+ value +:+ attrs)) with (value +:+ attrs).
    destruct Hattrs as [->|[rest ->]].
    + rewrite append_nil_r. by apply upTo_no_sep.
    + by apply upTo_at_sep.
Qed.

(** The fall-back to the [jwt] field, and the failure when neither place
    gives a token. *)
Lemma extractToken_fallback (authResponse : Response) :
  Js.truthy (Auth.cookieToken (setCookie authResponse)) = false ->
  (Js.truthy (Auth.bodyJwt (data authResponse)) = true ->
     Auth.extractToken authResponse = Auth.bodyJwt (data authResponse))
  /\ (Js.truthy (Auth.bodyJwt (data authResponse)) = false ->
      Js.truthy (Auth.extractToken authResponse) = false).
Proof.
  intros Hc. unfold Auth.extractToken. rewrite Hc. simpl.
  split; intros ->; done.
Qed.

(** C5 (evaluation at the failing input). The cookie
    [access_token=ab=cd; Path=/] begins with [access_token=] and its
    substring between [access_token=] and the next [;] is [ab=cd], but the
    token the script extracts is [ab]: [split('=')[1]] stops at the first
    [=] of the value. *)
Theorem token_with_equals_sign_is_truncated :
  let entry := "access_token=ab=cd; Path=/" in
  let authResponse := mkResponse 200 "OK" (Some [entry]) (AuthBody None) in
  Js.startsWith "access_token=" entry = true
  /\ cookieValue entry = "ab=cd"
  /\ Auth.extractToken authResponse = Some "ab".
Proof. by vm_compute. Qed.

(** ** Formatting of a project *)

(** C8. The formatted project has the remote project's properties when
    that mapping has at least one key and the placeholder pair
    [{key: "value"}] when it has none; id, type, name and branches link
    are copied. *)
Theorem formatProject_properties (project : RemoteProject) :
  let formatted := GetProjectProperties.formatProject project in
  (1 <= length (rp_properties project) ->
     p_properties formatted = rp_properties project)
  /\ (length (rp_properties project) = 0 ->
      p_properties formatted = [("key", "value")])
  /\ p_id formatted = rp_id project
  /\ p_type formatted = rp_type project
  /\ p_name formatted = rp_name project
  /\ p_branches formatted = rp_branches project.
Proof.
  simpl. repeat split.
  - intros H. destruct (rp_properties project); simpl in *; [lia|done].
  - intros ->. done.
Qed.

Lemma formatProject_properties_witness :
  p_properties (GetProjectProperties.formatProject
                  (mkRemoteProject "p1" "t" [("team", "blue")] "Alpha" "/b"))
  = [("team", "blue")]
  /\ p_properties (GetProjectProperties.formatProject
                     (mkRemoteProject "p2" "t" [] "Beta" "/b"))
     = [("key", "value")].
Proof.
  split.
  - apply (formatProject_properties
             (mkRemoteProject "p1" "t" [("team", "blue")] "Alpha" "/b")).
    simpl. lia.
  - apply (formatProject_properties
             (mkRemoteProject "p2" "t" [] "Beta" "/b")).
    reflexivity.
Defined.

(** ** The pagination loop *)

Section PaginatorLoop.
Context {Raw Item : Type}.
Variable pageData : Payload -> option (list Raw).
Variable format : Raw -> Item.
Variable noun title : string.
Variable baseUrl token : string.
Variable limit : nat.

Local Abbreviation loop :=
  (Paginator.loop pageData format noun title baseUrl token limit).
Local Abbreviation pageRequest := (Paginator.pageRequest baseUrl token limit).
Local Abbreviation fetching := (Paginator.fetching noun).
Local Abbreviation received := (Paginator.received title).

(** One turn on a page: the items are appended; a full page goes on at
    the next offset, any other length ends the loop. *)
Lemma loop_turn_page fuel offset all w r s items :
  script w = Resolve r :: s ->
  servesPage pageData r items ->
  loop (S fuel) offset all w
  = (if Nat.eqb (length items) limit
     then loop fuel (offset + limit) (all ++ map format items)
     else ret (all ++ map format items))
      (mkWorld (files w) (answers w) s (requests w ++ [pageRequest offset])
               (console w ++ [fetching offset; received r])).
Proof.
  intros Hs [Hst Hd]. destruct w as [f a sc rq c]; simpl in *; subst sc.
  unfold Paginator.log, Paginator.fetching, Paginator.received.
  unfold_script; simpl.
  apply Nat.eqb_eq in Hst. rewrite Hst, Hd. simpl.
  rewrite <- app_assoc. simpl. by destruct (Nat.eqb (length items) limit).
Qed.

(** One turn on a response whose status is not 200: logged, and the loop
    ends with what it has. *)
Lemma loop_turn_not_200 fuel offset all w r s :
  script w = Resolve r :: s ->
  status r <> 200 ->
  loop (S fuel) offset all w
  = Ok all (mkWorld (files w) (answers w) s (requests w ++ [pageRequest offset])
                    (console w ++ [fetching offset; received r;
                                   Paginator.httpError r])).
Proof.
  intros Hs Hst. destruct w as [f a sc rq c]; simpl in *; subst sc.
  unfold Paginator.log, Paginator.fetching, Paginator.received,
    Paginator.httpError.
  unfold_script; simpl.
  apply Nat.eqb_neq in Hst. rewrite Hst. simpl.
  by rewrite <- !app_assoc.
Qed.

(** One turn on a rejected request: the error leaves the loop. *)
Lemma loop_turn_reject fuel offset all w msg resp s :
  script w = Reject msg resp :: s ->
  loop (S fuel) offset all w
  = Exn (mkErr msg resp)
        (mkWorld (files w) (answers w) s (requests w ++ [pageRequest offset])
                 (console w ++ [fetching offset])).
Proof.
  intros Hs. destruct w as [f a sc rq c]; simpl in *; subst sc.
  unfold Paginator.log, Paginator.fetching. by unfold_script.
Qed.

(** Full pages followed by a page of another length. *)
Lemma loop_pages pre :
  forall rs last rest fuel offset all w,
    Forall2 (servesPage pageData) rs (pre ++ [last]) ->
    Forall (fun items => length items = limit) pre ->
    length last <> limit ->
    script w = map Resolve rs ++ rest ->
    length pre < fuel ->
    exists lines,
      loop fuel offset all w
      = Ok (all ++ map format (concat (pre ++ [last])))
           (mkWorld (files w) (answers w) rest
              (requests w
               ++ map pageRequest (offsetsFrom offset limit (S (length pre))))
              (console w ++ lines)).
Proof.
  induction pre as [|page pre IH];
    intros rs last rest fuel offset all w Hrs Hfull Hlast Hs Hfuel.
  - apply Forall2_cons_inv_r in Hrs as (r & rs' & Hr & Hrs' & ->).
    apply Forall2_nil_inv_r in Hrs' as ->.
    destruct fuel as [|fuel]; [simpl in Hfuel; lia|].
    rewrite (loop_turn_page _ _ _ _ r rest last) by done.
    apply Nat.eqb_neq in Hlast. rewrite Hlast. simpl.
    eexists. rewrite app_nil_r. reflexivity.
  - simpl in Hrs.
    apply Forall2_cons_inv_r in Hrs as (r & rs' & Hr & Hrs' & ->).
    apply Forall_cons in Hfull as [Hpage Hfull].
    destruct fuel as [|fuel]; [simpl in Hfuel; lia|].
    rewrite (loop_turn_page _ _ _ _ r (map Resolve rs' ++ rest) page) by done.
    apply Nat.eqb_eq in Hpage as Hpage'. rewrite Hpage'.
    edestruct (IH rs' last rest) as [lines ->];
      [done|done|done| |simpl in *; lia|]; [reflexivity|].
    simpl. rewrite map_app, <- !app_assoc. eauto.
Qed.

(** Full pages followed by a rejected request: the error leaves the loop
    and the items accumulated so far go with it. *)
Lemma loop_pages_then_reject pre :
  forall rs msg resp rest fuel offset all w,
    Forall2 (servesPage pageData) rs pre ->
    Forall (fun items => length items = limit) pre ->
    script w = map Resolve rs ++ Reject msg resp :: rest ->
    length pre < fuel ->
    exists lines,
      loop fuel offset all w
      = Exn (mkErr msg resp)
            (mkWorld (files w) (answers w) rest
               (requests w
                ++ map pageRequest (offsetsFrom offset limit (S (length pre))))
               (console w ++ lines)).
Proof.
  induction pre as [|page pre IH];
    intros rs msg resp rest fuel offset all w Hrs Hfull Hs Hfuel.
  - apply Forall2_nil_inv_r in Hrs as ->.
    destruct fuel as [|fuel]; [simpl in Hfuel; lia|].
    rewrite (loop_turn_reject _ _ _ _ msg resp rest) by done. eauto.
  - apply Forall2_cons_inv_r in Hrs as (r & rs' & Hr & Hrs' & ->).
    apply Forall_cons in Hfull as [Hpage Hfull].
    destruct fuel as [|fuel]; [simpl in Hfuel; lia|].
    rewrite (loop_turn_page _ _ _ _ r
               (map Resolve rs' ++ Reject msg resp :: rest) page) by done.
    apply Nat.eqb_eq in Hpage as Hpage'. rewrite Hpage'.
    edestruct (IH rs' msg resp rest) as [lines ->];
      [done|done| |simpl in *; lia|]; [reflexivity|].
    simpl. rewrite <- !app_assoc. eauto.
Qed.

Lemma offsetsFrom_seq offset n :
  offsetsFrom offset limit n
  = map (fun k => offset + k * limit) (seq 0 n).
Proof.
  revert offset. induction n as [|n IH]; intros offset; [done|].
  simpl. rewrite Nat.add_0_r. f_equal.
  rewrite IH, <- seq_shift, map_map. apply map_ext. intros k. lia.
Qed.

(** The result of pagination on full pages followed by a page of
    another length: the items of all these pages in order, one request
    per page at offsets 0, limit, 2 limit, ..., and no outcome consumed
    beyond that page. *)
Lemma paginate_pages rs pre last rest w :
  Forall2 (servesPage pageData) rs (pre ++ [last]) ->
  Forall (fun items => length items = limit) pre ->
  length last <> limit ->
  script w = map Resolve rs ++ rest ->
  exists w',
    Paginator.paginate pageData format noun title baseUrl token limit w
    = Ok (map format (concat (pre ++ [last]))) w'
    /\ requests w'
       = requests w
         ++ map (fun k => pageRequest (k * limit)) (seq 0 (S (length pre)))
    /\ script w' = rest
    /\ files w' = files w.
Proof.
  intros Hrs Hfull Hlast Hs. unfold Paginator.paginate.
  destruct (loop_pages pre rs last rest (S (length (script w))) 0 [] w)
    as [lines Hrun]; [done..| |].
  { rewrite Hs, length_app, length_map.
    apply Forall2_length in Hrs. rewrite Hrs, length_app. simpl. lia. }
  eexists. split; [exact Hrun|].
  simpl. split; [|done].
  do 2 f_equal. rewrite offsetsFrom_seq, map_map, <- seq_shift, map_map.
  apply map_ext. intros k. f_equal; lia.
Qed.
End PaginatorLoop.

Lemma offsets_increasing (p start n : nat) :
  0 < p -> StronglySorted lt (map (fun k => k * p) (seq start n)).
Proof.
  intros Hp. revert start. induction n as [|n IH]; intros start; simpl.
  - constructor.
  - constructor; [apply IH|].
    apply Forall_forall.
    intros o (k & <- & Hk%in_seq)%list_elem_of_In%in_map_iff. nia.
Qed.

(** C1 (as amended). For every page size [p] and every sequence of pages
    the endpoint serves, the paginator issues its GET requests at offsets
    0, p, 2p, ... in this order (strictly increasing when p > 0), appends
    the items of each page in arrival order and ends exactly after the
    first page whose item count differs from [p], leaving the later
    outcomes unconsumed: with pages of at most [p] items that is the first
    page with fewer than [p] items.  For pages of sizes [5,5,5,3] and
    p = 5 it returns 18 items with 4 requests at offsets 0, 5, 10, 15, and
    a first page with fewer than [p] items ends pagination after exactly
    one request. *)
Theorem paginate_until_page_not_full (baseUrl token : string) :
  let paginate := Paginator.paginate GetProjectProperties.projectsData
                    GetProjectProperties.formatProject "projects" "Projects"
                    baseUrl token in
  let served := servesPage GetProjectProperties.projectsData in
  (forall p rs pre last rest w,
     Forall2 served rs (pre ++ [last]) ->
     Forall (fun items => length items = p) pre ->
     length last <> p ->
     script w = map Resolve rs ++ rest ->
     exists w',
       paginate p w
       = Ok (map GetProjectProperties.formatProject (concat (pre ++ [last]))) w'
       /\ requests w'
          = requests w
            ++ map (fun k => Paginator.pageRequest baseUrl token p (k * p))
                   (seq 0 (S (length pre)))
       /\ (0 < p ->
           StronglySorted lt (map (fun k => k * p) (seq 0 (S (length pre)))))
       /\ script w' = rest)
  /\ (forall rs pages rest w,
        Forall2 served rs pages ->
        map length pages = [5; 5; 5; 3] ->
        script w = map Resolve rs ++ rest ->
        exists items w',
          paginate 5 w = Ok items w'
          /\ length items = 18
          /\ requests w'
             = requests w
               ++ map (Paginator.pageRequest baseUrl token 5) [0; 5; 10; 15])
  /\ (forall p r first rest w,
        served r first ->
        length first < p ->
        script w = Resolve r :: rest ->
        exists w',
          paginate p w = Ok (map GetProjectProperties.formatProject first) w'
          /\ requests w'
             = requests w ++ [Paginator.pageRequest baseUrl token p 0]
          /\ script w' = rest).
Proof.
  intros paginate served. split; [|split].
  - intros p rs pre last rest w Hrs Hfull Hlast Hs.
    destruct (paginate_pages GetProjectProperties.projectsData
                GetProjectProperties.formatProject "projects" "Projects"
                baseUrl token p
                rs pre last rest w Hrs Hfull Hlast Hs)
      as (w' & Hrun & Hreq & Hscript & _).
    exists w'. repeat split; [done..| |done].
    intros Hp. by apply offsets_increasing.
  - intros rs pages rest w Hrs Hsizes Hs.
    destruct pages as [|p1 [|p2 [|p3 [|p4 [|p5 pages]]]]]; try done.
    injection Hsizes as H1 H2 H3 H4.
    destruct (paginate_pages GetProjectProperties.projectsData
                GetProjectProperties.formatProject "projects" "Projects"
                baseUrl token 5
                rs [p1; p2; p3] p4 rest w)
      as (w' & Hrun & Hreq & _); [done| |lia|done|].
    { by repeat constructor. }
    eexists _, w'. split; [exact Hrun|]. split; [|exact Hreq].
    rewrite length_map. simpl. rewrite !length_app. simpl. lia.
  - intros p r first rest w Hr Hshort Hs.
    destruct (paginate_pages GetProjectProperties.projectsData
                GetProjectProperties.formatProject "projects" "Projects"
                baseUrl token p
                [r] [] first rest w)
      as (w' & Hrun & Hreq & Hscript & _);
      [by constructor; [exact Hr|constructor]|done|lia|done|].
    exists w'. simpl in Hrun. rewrite app_nil_r in Hrun. done.
Qed.

Lemma paginate_until_page_not_full_witness :
  let project := mkRemoteProject "p" "t" [] "n" "b" in
  let pages := [replicate 5 project; replicate 5 project;
                replicate 5 project; replicate 3 project] in
  exists items w',
    Paginator.paginate GetProjectProperties.projectsData
      GetProjectProperties.formatProject "projects" "Projects"
      "https://api/projects" "tok" 5
      (mkWorld ∅ [] (servedPages pages) [] [])
    = Ok items w'
    /\ length items = 18
    /\ requests w'
       = map (Paginator.pageRequest "https://api/projects" "tok" 5)
             [0; 5; 10; 15].
Proof.
  intros project pages.
  apply (proj1 (proj2 (paginate_until_page_not_full "https://api/projects" "tok"))
           (map (fun items => okResponse (ProjectsPage items)) pages)
           pages []
           (mkWorld ∅ [] (servedPages pages) [] [])).
  - repeat constructor.
  - reflexivity.
  - reflexivity.
Defined.

(** C1 (counterexample to the claim as stated). With p = 5 the endpoint
    serves a page of six items and then a page of three.  The first page
    with fewer than five items is the second one, but the paginator has
    ended after the first: [6 === 5] is false. *)
Lemma overfull_page_ends_pagination :
  let project := mkRemoteProject "p" "t" [] "n" "b" in
  ~ stopsAfterFirstShortPage 5 [replicate 6 project; replicate 3 project].
Proof.
  intros project H.
  destruct (H 1 (mkWorld ∅ [] (servedPages [replicate 6 project;
                                            replicate 3 project]) [] [])
              eq_refl eq_refl) as (w' & Hrun & _).
  vm_compute in Hrun. discriminate Hrun.
Qed.

(** ** The checks on existing output files *)

Lemma negative_iff (answer : string) :
  negative answer <-> affirmative answer = false.
Proof. by rewrite affirmative_false_iff. Qed.

Section ConfirmDelete.
Variables path question deleted : string.
Variable w : World.

Lemma confirmDelete_absent :
  files w !! path = None ->
  confirmDelete path question deleted w = Ok true w.
Proof.
  intros Hf. unfold confirmDelete. unfold_script. by rewrite Hf.
Qed.

Lemma confirmDelete_negative a rest :
  is_Some (files w !! path) -> answers w = a :: rest -> negative a ->
  confirmDelete path question deleted w
  = Ok false (mkWorld (files w) rest (script w) (requests w)
                      (console w ++ [exiting])).
Proof.
  intros Hf Ha Hneg%negative_iff. unfold confirmDelete. unfold_script.
  rewrite bool_decide_eq_true_2 by done. by rewrite Ha, Hneg.
Qed.

Lemma confirmDelete_affirmative a rest :
  is_Some (files w !! path) -> answers w = a :: rest -> ~ negative a ->
  confirmDelete path question deleted w
  = Ok true (mkWorld (delete path (files w)) rest (script w) (requests w)
                     (console w ++ [Info deleted])).
Proof.
  intros Hf Ha Haff. unfold confirmDelete. unfold_script.
  rewrite bool_decide_eq_true_2 by done. rewrite Ha.
  rewrite negative_iff in Haff. apply not_false_is_true in Haff.
  rewrite Haff. simpl. destruct Hf as [c Hc]. by rewrite Hc.
Qed.
End ConfirmDelete.

Lemma twoChecks_respects path1 question1 deleted1 path2 question2 deleted2 work :
  path1 <> path2 ->
  promptsRespected
    (catchAll (twoChecks path1 question1 deleted1 path2 question2 deleted2 work))
    path1 deleted1 path2.
Proof.
  intros Hne w. unfold catchAll, twoChecks. split; [|split].
  - intros a rest Hf Ha Hneg. unfold tryCatch, mbind, M_bind, bind.
    by rewrite (confirmDelete_negative _ _ _ _ a rest).
  - intros a rest Hf1 Hf2 Ha Hneg. unfold tryCatch, mbind, M_bind, bind.
    rewrite confirmDelete_absent by done.
    by rewrite (confirmDelete_negative _ _ _ _ a rest).
  - intros a1 a2 rest Hf1 Hf2 Ha Haff Hneg.
    unfold tryCatch, mbind, M_bind, bind.
    rewrite (confirmDelete_affirmative _ _ _ _ a1 (a2 :: rest)) by done.
    rewrite (confirmDelete_negative _ _ _ _ a2 rest); simpl; try done.
    + by rewrite <- app_assoc.
    + by rewrite lookup_delete_ne.
Qed.

(** C9 (as amended). In getProjectProperties and in
    getProjectUserInformation, when a declared output file exists and the
    answer to its deletion prompt is anything other than [yes] or [y]
    (whatever the letter case), the run halts cleanly with no error
    logged and no network request made, and neither that file nor any
    other is touched from that prompt on; a file whose deletion the
    operator confirmed at the earlier prompt of the same run has been
    deleted by then.  An affirmative answer deletes the existing file
    before the run proceeds. *)
Theorem negative_answer_halts_run :
  promptsRespected GetProjectProperties.fetchProjectsWithAuth
    GetProjectProperties.projectListPath
    "Existing projectList.json file deleted."
    GetProjectProperties.csvPath
  /\ promptsRespected GetProjectUserInformation.fetchProjectsWithAuth
       GetProjectUserInformation.projectListPath
       "Existing ./projectList.json file deleted."
       GetProjectUserInformation.csvPath
  /\ (forall path question deleted w a rest,
        is_Some (files w !! path) -> answers w = a :: rest -> ~ negative a ->
        confirmDelete path question deleted w
        = Ok true (mkWorld (delete path (files w)) rest (script w)
                           (requests w) (console w ++ [Info deleted]))).
Proof.
  split; [|split].
  - by apply twoChecks_respects.
  - by apply twoChecks_respects.
  - intros path question deleted w a rest Hf Ha Haff.
    by apply (confirmDelete_affirmative _ _ _ _ a rest).
Qed.

Lemma negative_answer_halts_run_witness :
  let w := mkWorld {[ "./projectList.json" := Text "old" ]} ["No"] [] [] [] in
  GetProjectProperties.fetchProjectsWithAuth w
  = Ok tt (mkWorld (files w) [] [] [] [exiting]).
Proof.
  intros w.
  apply (proj1 (proj1 negative_answer_halts_run w) "No" []).
  - vm_compute. eauto.
  - reflexivity.
  - split; vm_compute; discriminate.
Defined.

(** C9 (counterexample to the claim as stated). Both output files of
    getProjectProperties exist; the operator answers [yes] for
    projectList.json and [no] for projectList.csv.  The answer to the
    second prompt is negative and the run returns without a request, but
    projectList.json has been deleted: the files are not as before. *)
Lemma confirmed_file_is_gone_after_negative_answer :
  is_Some (files Sample.yesThenNo !! GetProjectProperties.csvPath)
  /\ negative "no"
  /\ ~ haltsUntouched GetProjectProperties.fetchProjectsWithAuth
         Sample.yesThenNo.
Proof.
  split; [vm_compute; eauto|]. split; [split; vm_compute; discriminate|].
  intros (w' & Hrun & Hfiles & _).
  assert (files (final (GetProjectProperties.fetchProjectsWithAuth
                          Sample.yesThenNo))
          !! GetProjectProperties.projectListPath = None) as Hgone
    by (vm_compute; reflexivity).
  rewrite Hrun in Hgone. simpl in Hgone. rewrite Hfiles in Hgone.
  vm_compute in Hgone. discriminate Hgone.
Qed.

(** ** Errors during fetches *)

(** C4 (evaluation at the failing input). getProjectProperties has
    fetched one full page of projects when the second page fetch meets a
    transport failure.  The rejection leaves the pagination loop and
    reaches the outer handler: the error is logged, the five projects
    already accumulated are dropped, and neither projectList.json nor
    projectList.csv is written. *)
Theorem page_fetch_failure_aborts_run :
  let w' := final (GetProjectProperties.fetchProjectsWithAuth
                     Sample.secondPageFails) in
  length (requests w') = 3
  /\ last (console w') = Some (Error "Error: Network Error")
  /\ files w' !! GetProjectProperties.projectListPath = None
  /\ files w' !! GetProjectProperties.csvPath = None.
Proof. by vm_compute. Qed.

(** C3 (evaluation at the failing input). getProjectUserInformation has
    two projects; the role-assignments request of the first is answered
    with status 500, which axios delivers as a rejection.  The loop has no
    handler of its own: the run ends in the outer handler, the second
    project is never asked for (its outcome stays unconsumed) and
    projectDetails.csv is not written. *)
Theorem role_assignment_failure_aborts_run :
  let w' := final (GetProjectUserInformation.fetchProjectsWithAuth
                     Sample.firstProjectFails) in
  length (requests w') = 4
  /\ script w' = [Sample.rolesOk]
  /\ In (Error "HTTP Error: 500 - Internal Server Error") (console w')
  /\ files w' !! GetProjectUserInformation.csvPath = None.
Proof.
  vm_compute. repeat split; try done.
  do 8 right. by left.
Qed.

(** The sibling paths that do handle the failure. *)

(** setProjectProperties: whatever the API answers, every project of the
    list gets its request and the loop returns. *)
Lemma setAll_continues (url token : string) (projectList : list Project) :
  forall w,
    length projectList <= length (script w) ->
    exists w',
      SetProjectProperties.setAll url token projectList w = Ok tt w'
      /\ requests w'
         = requests w
           ++ map (SetProjectProperties.propertiesConfig url token) projectList
      /\ script w' = drop (length projectList) (script w)
      /\ files w' = files w.
Proof.
  induction projectList as [|project rest IH]; intros w Hlen.
  - exists w. simpl. by rewrite app_nil_r.
  - destruct w as [f a sc rq c]. simpl in Hlen.
    destruct sc as [|outcome sc]; [simpl in Hlen; lia|].
    simpl. unfold_script. simpl.
    destruct outcome as [resp|msg [resp|]]; simpl;
      [destruct (Nat.eqb (status resp) 200); simpl| |];
      (match goal with
       | |- context [SetProjectProperties.setAll url token rest ?w0] =>
           destruct (IH w0) as (w' & Hrun & Hreq & Hscript & Hfiles);
           [simpl in *; lia|];
           exists w'; rewrite Hrun, Hreq; simpl;
           rewrite <- app_assoc; done
       end).
Qed.

(** getProjectBranches: the request of the loop sits in a try/catch, so
    the loop never throws; a rejection ends it with the branches it
    has. *)
Lemma branches_loop_never_throws (template token : string) (fuel : nat) :
  forall offset allBranches w e w',
    GetProjectBranches.loop template token fuel offset allBranches w
    <> Exn e w'.
Proof.
  induction fuel as [|fuel IH]; intros offset allBranches w e w'; [done|].
  destruct w as [f a sc rq c]. simpl. unfold_script. simpl.
  destruct sc as [|[resp|msg resp] sc]; simpl; [done| |done].
  destruct (Nat.eqb (status resp) 200); simpl; [|done].
  destruct (GetProjectBranches.branchesData (data resp)); simpl; [|done].
  destruct (Nat.eqb (length l) 500); simpl; [apply IH|done].
Qed.

Lemma branches_turn_reject (template token : string) fuel offset all w msg resp s :
  script w = Reject msg resp :: s ->
  GetProjectBranches.loop template token (S fuel) offset all w
  = Ok all
       (mkWorld (files w) (answers w) s
          (requests w
           ++ [GetProjectBranches.branchesRequest template token offset])
          (console w
           ++ [Info ("Fetching branches with URL: "
                       +:+ url (GetProjectBranches.branchesRequest template
                                  token offset));
               Error ("Error fetching branches: "
                        +:+ match resp with
                            | Some _ => "(response data)"
                            | None => msg
                            end)])).
Proof.
  intros Hs. destruct w as [f a sc rq c]; simpl in *; subst sc.
  unfold_script. simpl. by rewrite <- app_assoc.
Qed.

(** getProjectUserInformation: a role-assignments response that resolves
    with a status other than 200 is logged and the loop goes on with the
    next project. *)
Lemma correlateProjects_skips_not_200 token allGroups project rest details w r s :
  script w = Resolve r :: s ->
  status r <> 200 ->
  GetProjectUserInformation.correlateProjects token allGroups (project :: rest)
    details w
  = GetProjectUserInformation.correlateProjects token allGroups rest details
      (mkWorld (files w) (answers w) s
         (requests w
          ++ [GetProjectUserInformation.roleAssignmentsRequest token project])
         (console w
          ++ [Info ("Fetching role assignments for project " +:+ pr_name project
                      +:+ " (ID: " +:+ pr_id project +:+ ")...");
              Info ("Role assignments response received: "
                      +:+ pretty (status r) +:+ " " +:+ statusText r);
              Error ("HTTP Error: " +:+ pretty (status r) +:+ " - "
                       +:+ statusText r)])).
Proof.
  intros Hs Hst. destruct w as [f a sc rq c]; simpl in *; subst sc.
  unfold_script. simpl. apply Nat.eqb_neq in Hst. rewrite Hst. simpl.
  by rewrite <- !app_assoc.
Qed.

(** ... and a rejected one leaves the loop. *)
Lemma correlateProjects_throws_on_reject token allGroups project rest details
    w msg resp s :
  script w = Reject msg resp :: s ->
  exists w',
    GetProjectUserInformation.correlateProjects token allGroups
      (project :: rest) details w
    = Exn (mkErr msg resp) w'
    /\ script w' = s.
Proof.
  intros Hs. destruct w as [f a sc rq c]; simpl in *; subst sc.
  unfold_script. simpl. eauto.
Qed.

(** ** JavaScript objects *)

Section JsObjectFacts.
Context {V : Type}.
Implicit Types (o : list (string * V)) (k : string) (v : V).





Lemma set_absent o k v :
  JsObject.get k o = None -> JsObject.set k v o = o ++ [(k, v)].
Proof.
  induction o as [|[k' v'] o IH]; simpl; [done|].
  destruct (String.eqb_spec k k'); [done|]. intros H. by rewrite IH.
Qed.




End JsObjectFacts.




(** ** Correlation of projects and branches *)

Section Correlate.
Import GetProjectBranches.






End Correlate.



(** ** The CSV of projects and branches *)

Section CsvColumns.
Import GetProjectBranches.

Lemma branchField_inj i j : branchField i = branchField j -> i = j.
Proof.
  unfold branchField. intros H%(inj (String.append "branchName")).
  apply (inj pretty) in H. lia.
Qed.

Lemma branchField_not_projectName i : branchField i <> "projectName".
Proof. unfold branchField. intros H. inversion H. Qed.

Local Opaque branchField.

Lemma get_app {V : Type} (o1 o2 : list (string * V)) k :
  JsObject.get k (o1 ++ o2)
  = match JsObject.get k o1 with
    | Some v => Some v
    | None => JsObject.get k o2
    end.
Proof.
  induction o1 as [|[k' v'] o1 IH]; simpl; [done|].
  by destruct (String.eqb k k').
Qed.

Lemma get_numbered names :
  forall index i,
    JsObject.get (branchField i) (numbered index names)
    = if decide (index <= i) then names !! (i - index) else None.
Proof.
  induction names as [|n rest IH]; intros index i; simpl.
  - by case_decide.
  - destruct (String.eqb_spec (branchField i) (branchField index))
      as [Heq%branchField_inj|Hne].
    + subst i. rewrite decide_True by lia. by rewrite Nat.sub_diag.
    + assert (i <> index) by congruence. rewrite IH.
      repeat case_decide; try lia; [|done].
      by replace (i - index) with (S (i - S index)) by lia.
Qed.

Lemma branchFields_fold names :
  forall index obj,
    branchFields index names obj
    = fold_left (fun obj kv => JsObject.set (fst kv) (snd kv) obj)
                (numbered index names) obj.
Proof.
  induction names as [|n rest IH]; intros index obj; simpl; [done|].
  by rewrite IH.
Qed.

(** Setting fresh numbered fields one by one appends them. *)
Lemma fold_set_numbered names :
  forall index obj,
    (forall j, index <= j -> JsObject.get (branchField j) obj = None) ->
    fold_left (fun obj kv => JsObject.set (fst kv) (snd kv) obj)
              (numbered index names) obj
    = obj ++ numbered index names.
Proof.
  induction names as [|n rest IH]; intros index obj Hfresh; simpl.
  - by rewrite app_nil_r.
  - rewrite set_absent by (apply Hfresh; lia).
    rewrite IH.
    + by rewrite <- app_assoc.
    + intros j Hj. rewrite get_app, Hfresh by lia. simpl.
      destruct (String.eqb_spec (branchField j) (branchField index))
        as [Heq%branchField_inj|Hne]; [lia|done].
Qed.

(** The record of a project: its name, then its branches numbered from
    1. *)
Lemma csvRecord_numbered project :
  csvRecord project
  = ("projectName", name project) :: numbered 0 (branches project).
Proof.
  unfold csvRecord. rewrite branchFields_fold.
  rewrite (fold_set_numbered _ 0 []) by done. simpl.
  apply (fold_set_numbered _ 0 [("projectName", name project)]).
  intros j _. simpl.
  destruct (String.eqb_spec (branchField j) "projectName")
    as [Heq%branchField_not_projectName|]; done.
Qed.

Lemma length_numbered names index :
  length (numbered index names) = length names.
Proof.
  revert index. induction names as [|n rest IH]; intros index; simpl; auto.
Qed.

Lemma pad_lookups {A : Type} (d : A) (l : list A) :
  forall w, length l <= w ->
    map (fun i => default d (l !! i)) (seq 0 w)
    = l ++ replicate (w - length l) d.
Proof.
  induction l as [|x l IH]; intros w Hw; simpl.
  - rewrite Nat.sub_0_r. clear Hw. generalize 0.
    induction w as [|w IHw]; intros s; simpl; [done|]. by rewrite IHw.
  - destruct w as [|w]; [simpl in Hw; lia|]. simpl. f_equal.
    rewrite <- seq_shift, map_map. simpl in Hw. apply IH. lia.
Qed.

Lemma maxLength_ge (xs : list nat) x : x ∈ xs -> x <= Js.maxLength xs.
Proof.
  induction xs as [|y xs IH]; simpl; [by intros ?%elem_of_nil|].
  intros [->|Hin]%elem_of_cons; [lia|]. specialize (IH Hin). lia.
Qed.

Lemma maxLength_attained (xs : list nat) :
  xs <> [] -> Js.maxLength xs ∈ xs.
Proof.
  induction xs as [|y xs IH]; [done|]. intros _.
  change (Js.maxLength (y :: xs)) with (Nat.max y (Js.maxLength xs)).
  destruct xs as [|z xs].
  - change (Js.maxLength []) with 0. rewrite Nat.max_0_r. by left.
  - destruct (Nat.max_spec y (Js.maxLength (z :: xs))) as [[_ Hm]|[_ Hm]];
      rewrite Hm.
    + right. by apply IH.
    + by left.
Qed.

Lemma row_of_record project width :
  length (branches project) <= width ->
  map (fun field => default "" (JsObject.get field (csvRecord project)))
      ("projectName" :: map branchField (seq 0 width))
  = name project
      :: branches project
      ++ replicate (width - length (branches project)) "".
Proof.
  intros Hw. rewrite csvRecord_numbered. simpl. f_equal.
  rewrite map_map, <- (pad_lookups "" (branches project) width Hw).
  apply map_ext. intros i.
  destruct (String.eqb_spec (branchField i) "projectName")
    as [Heq%branchField_not_projectName|_]; [done|].
  rewrite get_numbered, decide_True by lia. by rewrite Nat.sub_0_r.
Qed.
End CsvColumns.

(** C7. For the correlated records of any collection of projects, the
    exported CSV has as header the project-name column followed by
    [branchName1] ... [branchName<width>], where [width] is the largest
    number of branches of a record (no record has more, and a non-empty
    collection has a record with exactly that many); the row of a record
    holds its name, its branch names, and a blank cell in every branch
    column beyond its own branches. *)
Theorem csv_header_spans_widest_record
    (projectMap : list (string * GetProjectBranches.Entry)) :
  let records := JsObject.values projectMap in
  let width :=
    Js.maxLength (map (fun e => length (GetProjectBranches.branches e))
                      records) in
  let table := GetProjectBranches.csvOutput projectMap in
  header table
  = "projectName" :: map GetProjectBranches.branchField (seq 0 width)
  /\ length (header table) = 1 + width
  /\ (forall e, e ∈ records ->
        length (GetProjectBranches.branches e) <= width)
  /\ (records <> [] ->
      exists e, e ∈ records
                /\ length (GetProjectBranches.branches e) = width)
  /\ rows table
     = map (fun e =>
              GetProjectBranches.name e
                :: GetProjectBranches.branches e
                ++ replicate (width - length (GetProjectBranches.branches e)) "")
           records.
Proof.
  intros records width table.
  assert (map (fun project => length (JsObject.keys project) - 1)
              (GetProjectBranches.csvData projectMap)
          = map (fun e => length (GetProjectBranches.branches e)) records)
    as Hwidths.
  { unfold GetProjectBranches.csvData. rewrite map_map. apply map_ext.
    intros e. rewrite csvRecord_numbered. unfold JsObject.keys. simpl.
    by rewrite length_map, length_numbered, Nat.sub_0_r. }
  assert (forall e, e ∈ records ->
            length (GetProjectBranches.branches e) <= width) as Hle.
  { intros e He. apply maxLength_ge.
    apply list_elem_of_In.
    apply (in_map (fun e => length (GetProjectBranches.branches e))).
    by apply list_elem_of_In. }
  assert (header table
          = "projectName" :: map GetProjectBranches.branchField (seq 0 width))
    as Hheader.
  { subst table. unfold GetProjectBranches.csvOutput,
      GetProjectBranches.parseAsync, GetProjectBranches.fields. simpl.
    by rewrite Hwidths. }
  repeat split; [done| |done| |].
  - rewrite Hheader. simpl. by rewrite length_map, length_seq.
  - intros Hne.
    assert (width ∈ map (fun e => length (GetProjectBranches.branches e))
                        records) as Hin.
    { apply maxLength_attained. by destruct records. }
    apply list_elem_of_In, in_map_iff in Hin as (e & He & Hin).
    exists e. split; [by apply list_elem_of_In|done].
  - subst table. unfold GetProjectBranches.csvOutput,
      GetProjectBranches.parseAsync, GetProjectBranches.fields,
      GetProjectBranches.csvData. simpl.
    rewrite map_map. fold records.
    apply map_ext_in. intros e He%list_elem_of_In.
    change (GetProjectBranches.csvData projectMap)
      with (map GetProjectBranches.csvRecord records) in Hwidths.
    rewrite Hwidths. fold width.
    by apply (row_of_record e width), Hle.
Qed.

Lemma csv_header_spans_widest_record_witness :
  let projectMap :=
    GetProjectBranches.correlate
      [mkProjectRef "p1" "Alpha"; mkProjectRef "p2" "Beta"]
      [mkBranch "b1" "main" "p1"; mkBranch "b2" "dev" "p1";
       mkBranch "b3" "main" "p2"] in
  header (GetProjectBranches.csvOutput projectMap)
  = ["projectName"; "branchName1"; "branchName2"]
  /\ rows (GetProjectBranches.csvOutput projectMap)
     = [["Alpha"; "main"; "dev"]; ["Beta"; "main"; ""]]
  /\ exists e, e ∈ JsObject.values projectMap
               /\ length (GetProjectBranches.branches e) = 2.
Proof.
  intros projectMap.
  destruct (csv_header_spans_widest_record projectMap)
    as (Hheader & _ & _ & Hwidest & Hrows).
  split; [exact Hheader|]. split; [exact Hrows|].
  apply Hwidest. vm_compute. discriminate.
Defined.

(** ** Group members in getProjectUserInformation *)

Section GroupMembers.
Import GetProjectUserInformation.






End GroupMembers.



(** * Further properties of the scripts *)

(** ** Credential resolution: where the token comes from *)

Section ResolveOutcome.
Variable verbose : bool.
Variable config : Config.
Variable req : Request.
Hypothesis Hreq : Auth.authConfig config = Some req.

Lemma resolve_ok w r s token :
  script w = Resolve r :: s ->
  Auth.extractToken r = Some token -> token <> "" ->
  exists lines, Auth.resolve verbose config w = Ok token (after w s [req] lines).
Proof.
  intros Hs Htok Hne. unfold Auth.resolve, Auth.logTokenFlow, after.
  rewrite Hreq. unfold_script. destruct w as [f a sc rq c]; simpl in *.
  subst sc.
  assert (Js.truthy (Some token) = true) as Htruthy
    by (by apply negb_true_iff, String.eqb_neq).
  destruct (verbose && negb (Auth.provided (password config))); simpl;
    rewrite Htok, Htruthy; simpl; rewrite <- !app_assoc; eauto.
Qed.

Lemma resolve_no_token w r s :
  script w = Resolve r :: s ->
  Js.truthy (Auth.extractToken r) = false ->
  exists lines,
    Auth.resolve verbose config w
    = Exn (mkErr "No access token found in the response." None)
          (after w s [req] lines).
Proof.
  intros Hs Htok. unfold Auth.resolve, Auth.logTokenFlow, after.
  rewrite Hreq. unfold_script. destruct w as [f a sc rq c]; simpl in *.
  subst sc.
  destruct (verbose && negb (Auth.provided (password config))); simpl;
    rewrite Htok; simpl; rewrite <- !app_assoc; eauto.
Qed.

Lemma resolve_reject w msg resp s :
  script w = Reject msg resp :: s ->
  exists lines,
    Auth.resolve verbose config w = Exn (mkErr msg resp) (after w s [req] lines).
Proof.
  intros Hs. unfold Auth.resolve, Auth.logTokenFlow, after.
  rewrite Hreq. unfold_script. destruct w as [f a sc rq c]; simpl in *.
  subst sc.
  destruct (verbose && negb (Auth.provided (password config))); simpl;
    rewrite <- ?app_assoc; eauto.
Qed.
End ResolveOutcome.

Lemma truthy_Some (v : option string) :
  Js.truthy v = true -> exists s, v = Some s /\ s <> "".
Proof.
  destruct v as [s|]; [|done]. intros H%negb_true_iff%String.eqb_neq. eauto.
Qed.

(** X1. On an authentication response, a non-empty token taken from the
    [access_token] cookie is the result even when the body has a [jwt]
    field; without such a cookie token a non-empty [jwt] field is the
    result; with neither, resolution throws "No access token found in the
    response." In all three cases the authentication request is the only
    request issued and no file is touched. *)
Theorem resolve_token_precedence (verbose : bool) (config : Config)
    (req : Request) (w : World) (r : Response) (s : list Outcome) :
  Auth.authConfig config = Some req ->
  script w = Resolve r :: s ->
  (forall token,
     Auth.cookieToken (setCookie r) = Some token -> token <> "" ->
     exists lines,
       Auth.resolve verbose config w = Ok token (after w s [req] lines))
  /\ (forall jwt,
        Js.truthy (Auth.cookieToken (setCookie r)) = false ->
        Auth.bodyJwt (data r) = Some jwt -> jwt <> "" ->
        exists lines,
          Auth.resolve verbose config w = Ok jwt (after w s [req] lines))
  /\ (Js.truthy (Auth.cookieToken (setCookie r)) = false ->
      Js.truthy (Auth.bodyJwt (data r)) = false ->
      exists lines,
        Auth.resolve verbose config w
        = Exn (mkErr "No access token found in the response." None)
              (after w s [req] lines)).
Proof.
  intros Hreq Hs. split; [|split].
  - intros token Hcookie Hne. apply (resolve_ok verbose config req Hreq w r s);
      [done| |done].
    unfold Auth.extractToken. rewrite Hcookie.
    assert (Js.truthy (Some token) = true) as ->
      by (by apply negb_true_iff, String.eqb_neq).
    done.
  - intros jwt Hcookie Hjwt Hne.
    apply (resolve_ok verbose config req Hreq w r s); [done| |done].
    unfold Auth.extractToken. rewrite Hcookie, Hjwt.
    assert (Js.truthy (Some jwt) = true) as ->
      by (by apply negb_true_iff, String.eqb_neq).
    done.
  - intros Hcookie Hjwt.
    apply (resolve_no_token verbose config req Hreq w r s); [done|].
    unfold Auth.extractToken. by rewrite Hcookie, Hjwt.
Qed.

Lemma resolve_token_precedence_witness :
  let both := mkResponse 200 "OK" (Some ["sid=1"; "access_token=fromCookie; Path=/"])
                (AuthBody (Some "fromBody")) in
  let bodyOnly := mkResponse 200 "OK" (Some ["sid=1"]) (AuthBody (Some "fromBody")) in
  let none := mkResponse 200 "OK" None (AuthBody None) in
  let world r := mkWorld ∅ [] [Resolve r] [] [] in
  let req := passwordRequest Sample.config "secret" in
  (exists lines, Auth.resolve true Sample.config (world both)
                 = Ok "fromCookie" (after (world both) [] [req] lines))
  /\ (exists lines, Auth.resolve true Sample.config (world bodyOnly)
                    = Ok "fromBody" (after (world bodyOnly) [] [req] lines))
  /\ (exists lines, Auth.resolve true Sample.config (world none)
                    = Exn (mkErr "No access token found in the response." None)
                          (after (world none) [] [req] lines)).
Proof.
  intros both bodyOnly none world req. split; [|split].
  - apply (proj1 (resolve_token_precedence true Sample.config req (world both)
                    both [] eq_refl eq_refl) "fromCookie").
    + reflexivity.
    + discriminate.
  - apply (proj1 (proj2 (resolve_token_precedence true Sample.config req
                           (world bodyOnly) bodyOnly [] eq_refl eq_refl))
             "fromBody").
    + reflexivity.
    + reflexivity.
    + discriminate.
  - apply (proj2 (proj2 (resolve_token_precedence true Sample.config req
                           (world none) none [] eq_refl eq_refl))).
    + reflexivity.
    + reflexivity.
Defined.

(** ** Pagination: what follows the full pages *)

Lemma pageRequests_offsets (baseUrl token : string) (limit n : nat) :
  map (Paginator.pageRequest baseUrl token limit) (offsetsFrom 0 limit n)
  = pageRequests baseUrl token limit n.
Proof.
  unfold pageRequests. rewrite offsetsFrom_seq, map_map. done.
Qed.

Section PaginatorEndings.
Context {Raw Item : Type}.
Variable pageData : Payload -> option (list Raw).
Variable format : Raw -> Item.
Variable noun title : string.
Variable baseUrl token : string.
Variable limit : nat.

Local Abbreviation loop :=
  (Paginator.loop pageData format noun title baseUrl token limit).
Local Abbreviation paginate :=
  (Paginator.paginate pageData format noun title baseUrl token limit).
Local Abbreviation pageRequest := (Paginator.pageRequest baseUrl token limit).
Local Abbreviation fetching := (Paginator.fetching noun).
Local Abbreviation received := (Paginator.received title).

(** The loop over full pages: it arrives at the outcome that follows them
    with all their items, after one request per page. *)
Lemma loop_full_pages pre :
  forall rs tail fuel offset all w,
    Forall2 (servesPage pageData) rs pre ->
    Forall (fun items => length items = limit) pre ->
    script w = map Resolve rs ++ tail ->
    exists lines,
      loop (length pre + fuel) offset all w
      = loop fuel (offset + length pre * limit)
          (all ++ map format (concat pre))
          (after w tail (map pageRequest (offsetsFrom offset limit (length pre)))
                 lines).
Proof.
  induction pre as [|page pre IH];
    intros rs tail fuel offset all w Hrs Hfull Hs.
  - apply Forall2_nil_inv_r in Hrs as ->. exists []. simpl in *.
    unfold after. simpl. rewrite !app_nil_r, Nat.add_0_r.
    by rewrite <- Hs, <- world_eta.
  - apply Forall2_cons_inv_r in Hrs as (r & rs' & Hr & Hrs' & ->).
    apply Forall_cons in Hfull as [Hpage Hfull].
    change (length (page :: pre) + fuel) with (S (length pre + fuel)).
    rewrite (loop_turn_page pageData format noun title baseUrl token limit
               (length pre + fuel) offset all w r
               (map Resolve rs' ++ tail) page Hs Hr).
    apply Nat.eqb_eq in Hpage as Hpage'. rewrite Hpage'.
    destruct (IH rs' tail fuel (offset + limit) (all ++ map format page)
                (mkWorld (files w) (answers w) (map Resolve rs' ++ tail)
                   (requests w ++ [pageRequest offset])
                   (console w ++ [fetching offset; received r]))
                Hrs' Hfull eq_refl) as [lines Hrun].
    rewrite Hrun. exists ([fetching offset; received r] ++ lines).
    unfold after. simpl.
    rewrite map_app, <- !app_assoc. simpl.
    replace (offset + limit + length pre * limit)
      with (offset + (limit + length pre * limit)) by lia.
    reflexivity.
Qed.

Lemma paginate_after_full_pages rs pre tail w :
  Forall2 (servesPage pageData) rs pre ->
  Forall (fun items => length items = limit) pre ->
  script w = map Resolve rs ++ tail ->
  exists lines,
    paginate w
    = loop (S (length tail)) (length pre * limit) (map format (concat pre))
        (after w tail (pageRequests baseUrl token limit (length pre)) lines).
Proof.
  intros Hrs Hfull Hs. unfold Paginator.paginate.
  destruct (loop_full_pages pre rs tail (S (length tail)) 0 [] w Hrs Hfull Hs)
    as [lines Hrun].
  exists lines.
  assert (S (length (script w)) = length pre + S (length tail)) as ->.
  { rewrite Hs, length_app, length_map. apply Forall2_length in Hrs. lia. }
  rewrite Hrun, pageRequests_offsets. reflexivity.
Qed.

Lemma pageRequests_snoc n :
  pageRequests baseUrl token limit n ++ [pageRequest (n * limit)]
  = pageRequests baseUrl token limit (S n).
Proof.
  unfold pageRequests. by rewrite seq_S, map_app.
Qed.

(** One more turn after the full pages, on a world reached by [after]. *)
Lemma after_turn w tail n lines rest more :
  let w' := after w tail (pageRequests baseUrl token limit n) lines in
  mkWorld (files w') (answers w') rest
    (requests w' ++ [pageRequest (n * limit)]) (console w' ++ more)
  = after w rest (pageRequests baseUrl token limit (S n)) (lines ++ more).
Proof.
  unfold after. simpl. by rewrite <- !app_assoc, pageRequests_snoc.
Qed.


(** A rejected request leaves pagination with the error. *)
Lemma paginate_throws_on_reject rs pre msg resp rest w :
  Forall2 (servesPage pageData) rs pre ->
  Forall (fun items => length items = limit) pre ->
  script w = map Resolve rs ++ Reject msg resp :: rest ->
  exists lines,
    paginate w
    = Exn (mkErr msg resp)
          (after w rest (pageRequests baseUrl token limit (S (length pre)))
                 lines).
Proof.
  intros Hrs Hfull Hs.
  destruct (paginate_after_full_pages rs pre _ w Hrs Hfull Hs) as [lines Hrun].
  rewrite Hrun.
  rewrite (loop_turn_reject pageData format noun title baseUrl token limit
             (length (Reject msg resp :: rest)) (length pre * limit)
             (map format (concat pre))
             (after w (Reject msg resp :: rest)
                (pageRequests baseUrl token limit (length pre)) lines)
             msg resp rest eq_refl).
  exists (lines ++ [fetching (length pre * limit)]).
  by rewrite after_turn.
Qed.

(** A page of another length ends pagination with its items added. *)
Lemma paginate_ends_on_page rs pre r last rest w :
  Forall2 (servesPage pageData) rs pre ->
  Forall (fun items => length items = limit) pre ->
  script w = map Resolve rs ++ Resolve r :: rest ->
  servesPage pageData r last -> length last <> limit ->
  exists lines,
    paginate w
    = Ok (map format (concat (pre ++ [last])))
         (after w rest (pageRequests baseUrl token limit (S (length pre)))
                lines).
Proof.
  intros Hrs Hfull Hs Hr Hlast.
  destruct (paginate_after_full_pages rs pre _ w Hrs Hfull Hs) as [lines Hrun].
  rewrite Hrun.
  rewrite (loop_turn_page pageData format noun title baseUrl token limit
             (length (Resolve r :: rest)) (length pre * limit)
             (map format (concat pre))
             (after w (Resolve r :: rest)
                (pageRequests baseUrl token limit (length pre)) lines)
             r rest last eq_refl Hr).
  apply Nat.eqb_neq in Hlast. rewrite Hlast.
  exists (lines ++ [fetching (length pre * limit); received r]).
  unfold ret. rewrite after_turn.
  by rewrite concat_app, map_app; simpl; rewrite app_nil_r.
Qed.

(** One turn with no outcome left: the request stays unanswered. *)
Lemma loop_turn_starved fuel offset all w :
  script w = [] ->
  loop (S fuel) offset all w
  = Pending (after w [] [pageRequest offset] [fetching offset]).
Proof.
  intros Hs. destruct w as [f a sc rq c]; simpl in *; subst sc.
  unfold Paginator.log, Paginator.fetching. by unfold_script.
Qed.

(** One turn on a 200 response without the array: the script throws. *)
Lemma loop_turn_payload fuel offset all w r s :
  script w = Resolve r :: s ->
  status r = 200 -> pageData (data r) = None ->
  loop (S fuel) offset all w
  = Exn (mkErr "Cannot read properties of undefined" None)
        (after w s [pageRequest offset] [fetching offset; received r]).
Proof.
  intros Hs Hst Hd. destruct w as [f a sc rq c]; simpl in *; subst sc.
  unfold Paginator.log, Paginator.fetching, Paginator.received.
  unfold_script; simpl. apply Nat.eqb_eq in Hst. rewrite Hst, Hd. simpl.
  unfold after. simpl. by rewrite <- app_assoc.
Qed.

(** Every turn of the loop starts with its request, and the loop only
    ever adds requests. *)
Lemma loop_requests_start fuel :
  forall offset all w,
    exists more,
      requests (final (loop (S fuel) offset all w))
      = requests w ++ pageRequest offset :: more.
Proof.
  induction fuel as [|fuel IH]; intros offset all w;
    (destruct (script w) as [|[r|msg resp] s] eqn:Hs;
     [rewrite (loop_turn_starved _ _ _ _ Hs); by exists []
     |
     |rewrite (loop_turn_reject pageData format noun title baseUrl token limit
                 _ _ _ _ msg resp s Hs); by exists []]);
    (destruct (decide (status r = 200)) as [Hst|Hst];
     [|rewrite (loop_turn_not_200 pageData format noun title baseUrl token
                  limit _ _ _ _ r s Hs Hst); by exists []]);
    (destruct (pageData (data r)) as [items|] eqn:Hd;
     [|rewrite (loop_turn_payload _ _ _ _ r s Hs Hst Hd); by exists []]);
    rewrite (loop_turn_page pageData format noun title baseUrl token limit
               _ _ _ _ r s items Hs (conj Hst Hd));
    (destruct (Nat.eqb (length items) limit); [|by exists []]).
  - by exists [].
  - match goal with
    | |- context [Paginator.loop _ _ _ _ _ _ _ (S fuel) ?o ?l ?w0] =>
        destruct (IH o l w0) as [more Hmore]
    end.
    exists (pageRequest (offset + limit) :: more).
    rewrite Hmore. cbn [requests]. by rewrite <- app_assoc.
Qed.

(** X2. After full pages the paginator always asks for the next page:
    whatever the API does after [n] full pages, the requests for offsets
    0, limit, ..., n limit have been issued, in this order, before
    anything else.  So a collection whose size is a multiple of the page
    size costs one request more than it has pages. *)
Theorem paginate_asks_again_after_full_page rs pre tail w :
  Forall2 (servesPage pageData) rs pre ->
  Forall (fun items => length items = limit) pre ->
  script w = map Resolve rs ++ tail ->
  exists more,
    requests (final (paginate w))
    = requests w ++ pageRequests baseUrl token limit (S (length pre)) ++ more.
Proof.
  intros Hrs Hfull Hs.
  destruct (paginate_after_full_pages rs pre _ w Hrs Hfull Hs) as [lines Hrun].
  rewrite Hrun.
  destruct (loop_requests_start (length tail) (length pre * limit)
              (map format (concat pre))
              (after w tail (pageRequests baseUrl token limit (length pre)) lines))
    as [more Hmore].
  exists more. rewrite Hmore. unfold after. cbn [requests].
  rewrite <- pageRequests_snoc, <- !app_assoc. done.
Qed.
End PaginatorEndings.

(** ** getProjectProperties from start to end *)

Lemma readConfig_ok path config w :
  files w !! path = Some (JsonConfig config) -> readConfig path w = Ok config w.
Proof. intros Hf. unfold readConfig. unfold_script. by rewrite Hf. Qed.

Section GetProjectPropertiesRun.
Import GetProjectProperties.
Variable w : World.
Variable config : Config.
Variable req : Request.
Variable rAuth : Response.
Variable token : string.
Hypothesis Hstart : cleanStart w config.
Hypothesis Hreq : Auth.authConfig config = Some req.

(** Without output files nobody is asked: the script goes straight to
    the authentication. *)
Lemma body_starts_with_auth :
  body w
  = (token ← Auth.resolve true config;
     allProjects ← fetchProjects config token;
     writeFile projectListPath (JsonProjects allProjects);;
     consoleLog "Project list has been saved to projectList.json";;
     writeFile csvPath (Csv (csvTable allProjects));;
     consoleLog "Project list has been saved to projectList.csv") w.
Proof.
  destruct Hstart as (Hjson & Hcsv & Hconfig).
  unfold body. unfold mbind at 1, M_bind at 1, bind at 1.
  rewrite confirmDelete_absent by done.
  unfold mbind at 1, M_bind at 1, bind at 1.
  rewrite confirmDelete_absent by done.
  unfold mbind at 1, M_bind at 1, bind at 1.
  by rewrite (readConfig_ok _ config).
Qed.

Hypothesis Htoken : Auth.extractToken rAuth = Some token.
Hypothesis Hne : token <> "".

Lemma body_after_auth tail :
  script w = Resolve rAuth :: tail ->
  exists lines,
    body w
    = (allProjects ← fetchProjects config token;
       writeFile projectListPath (JsonProjects allProjects);;
       consoleLog "Project list has been saved to projectList.json";;
       writeFile csvPath (Csv (csvTable allProjects));;
       consoleLog "Project list has been saved to projectList.csv")
        (after w tail [req] lines).
Proof.
  intros Hs. rewrite body_starts_with_auth.
  destruct (resolve_ok true config req Hreq w rAuth tail token Hs Htoken Hne)
    as [lines Hrun].
  exists lines. unfold mbind at 1, M_bind at 1, bind at 1. by rewrite Hrun.
Qed.



(** The run once the authentication has given its token and pagination
    has thrown. *)
Lemma run_after_throw tail lines0 e rest sent lines1 :
  body w
  = (allProjects ← fetchProjects config token;
     writeFile projectListPath (JsonProjects allProjects);;
     consoleLog "Project list has been saved to projectList.json";;
     writeFile csvPath (Csv (csvTable allProjects));;
     consoleLog "Project list has been saved to projectList.csv")
      (after w tail [req] lines0) ->
  fetchProjects config token (after w tail [req] lines0)
  = Exn e (after (after w tail [req] lines0) rest sent lines1) ->
  exists lines2,
    fetchProjectsWithAuth w
    = Ok tt (done w (files w) rest (req :: sent) (lines0 ++ lines1 ++ lines2)).
Proof.
  intros Hbody Hpages. unfold fetchProjectsWithAuth, catchAll, tryCatch.
  rewrite Hbody. unfold mbind at 1, M_bind at 1, bind at 1. rewrite Hpages.
  unfold done, after. destruct (response e) as [r|].
  - exists [Error ("HTTP Error: " +:+ pretty (status r) +:+ " - "
                     +:+ statusText r); Error "Response data:"].
    unfold_script. cbn [files answers script requests console].
    by rewrite <- !app_assoc.
  - exists [Error ("Error: " +:+ message e)].
    unfold_script. cbn [files answers script requests console].
    by rewrite <- !app_assoc.
Qed.
End GetProjectPropertiesRun.



(** X5. When a page request of getProjectProperties is rejected (a
    transport failure, or an HTTP error delivered as a rejection) after
    any number of full pages, the run ends in its outer handler: no file
    is written or changed, the projects received so far are dropped, and
    no further request is issued. *)
Theorem getProjectProperties_rejection_writes_nothing (w : World)
    (config : Config) (req : Request) (rAuth : Response) (token : string)
    (rs : list Response) (pre : list (list RemoteProject))
    (msg : string) (resp : option Response) (rest : list Outcome) :
  cleanStart w config ->
  Auth.authConfig config = Some req ->
  Auth.extractToken rAuth = Some token -> token <> "" ->
  script w = Resolve rAuth :: map Resolve rs ++ Reject msg resp :: rest ->
  Forall2 (servesPage GetProjectProperties.projectsData) rs pre ->
  Forall (fun items => length items = 5) pre ->
  exists lines,
    GetProjectProperties.fetchProjectsWithAuth w
    = Ok tt
        (done w (files w) rest
           (req :: pageRequests (GetProjectProperties.baseProjectsUrl config)
                     token 5 (S (length pre)))
           lines).
Proof.
  intros Hstart Hreq Htoken Hne Hs Hrs Hfull.
  destruct (body_after_auth w config req rAuth token Hstart Hreq Htoken Hne _ Hs)
    as [lines0 Hbody].
  edestruct (paginate_throws_on_reject GetProjectProperties.projectsData
               GetProjectProperties.formatProject "projects" "Projects"
               (GetProjectProperties.baseProjectsUrl config) token 5
               rs pre msg resp rest
               (after w (map Resolve rs ++ Reject msg resp :: rest)
                      [req] lines0))
    as [lines1 Hpages]; [done|done|reflexivity|].
  destruct (run_after_throw w config req token _ lines0 _ rest _ lines1
              Hbody Hpages) as [lines2 Hrun].
  eexists. exact Hrun.
Qed.

(** X6. When the authentication of getProjectProperties fails, by a
    rejected request or by a response without token, the run ends in its
    outer handler after that single request: no project is fetched and no
    file is written. *)
Theorem getProjectProperties_auth_failure (w : World) (config : Config)
    (req : Request) (rest : list Outcome) :
  cleanStart w config ->
  Auth.authConfig config = Some req ->
  (forall msg resp,
     script w = Reject msg resp :: rest ->
     exists lines,
       GetProjectProperties.fetchProjectsWithAuth w
       = Ok tt (done w (files w) rest [req] lines))
  /\ (forall r,
        script w = Resolve r :: rest ->
        Js.truthy (Auth.extractToken r) = false ->
        exists lines,
          GetProjectProperties.fetchProjectsWithAuth w
          = Ok tt (done w (files w) rest [req]
                     (lines ++ [Error "Error: No access token found in the response."]))).
Proof.
  intros Hstart Hreq. split.
  - intros msg resp Hs.
    destruct (resolve_reject true config req Hreq w msg resp rest Hs)
      as [lines Hrun].
    unfold GetProjectProperties.fetchProjectsWithAuth, catchAll, tryCatch.
    rewrite (body_starts_with_auth w config Hstart).
    unfold mbind at 1, M_bind at 1, bind at 1. rewrite Hrun.
    unfold done, after. destruct resp as [resp|].
    + exists (lines ++ [Error ("HTTP Error: " +:+ pretty (status resp) +:+ " - "
                               +:+ statusText resp); Error "Response data:"]).
      unfold_script. cbn [files answers script requests console response].
      by rewrite <- !app_assoc.
    + exists (lines ++ [Error ("Error: " +:+ msg)]).
      unfold_script. cbn [files answers script requests console response message].
      by rewrite <- !app_assoc.
  - intros r Hs Htok.
    destruct (resolve_no_token true config req Hreq w r rest Hs Htok)
      as [lines Hrun].
    unfold GetProjectProperties.fetchProjectsWithAuth, catchAll, tryCatch.
    rewrite (body_starts_with_auth w config Hstart).
    unfold mbind at 1, M_bind at 1, bind at 1. rewrite Hrun.
    unfold done, after. exists lines.
    unfold_script. cbn [files answers script requests console response message].
    by rewrite <- !app_assoc.
Qed.



Lemma getProjectProperties_rejection_writes_nothing_witness :
  let w := Runs.start [Resolve Runs.authResponse;
                       Resolve (okResponse (ProjectsPage Runs.five));
                       Reject "Network Error" None] in
  exists lines,
    GetProjectProperties.fetchProjectsWithAuth w
    = Ok tt
        (done w (files w) []
           (Runs.authRequest
              :: pageRequests (GetProjectProperties.baseProjectsUrl Sample.config)
                   "tok" 5 2)
           lines).
Proof.
  intros w.
  apply (getProjectProperties_rejection_writes_nothing w Sample.config
           Runs.authRequest Runs.authResponse "tok"
           [okResponse (ProjectsPage Runs.five)] [Runs.five]
           "Network Error" None []).
  - repeat split.
  - reflexivity.
  - reflexivity.
  - discriminate.
  - reflexivity.
  - repeat constructor.
  - repeat constructor.
Defined.

Lemma getProjectProperties_auth_failure_witness :
  let rejected := Runs.start [Reject "Request failed with status code 401"
                                (Some (mkResponse 401 "Unauthorized" None
                                         NoPayload))] in
  let tokenless := Runs.start [Resolve Runs.noToken] in
  (exists lines,
     GetProjectProperties.fetchProjectsWithAuth rejected
     = Ok tt (done rejected (files rejected) [] [Runs.authRequest] lines))
  /\ (exists lines,
        GetProjectProperties.fetchProjectsWithAuth tokenless
        = Ok tt (done tokenless (files tokenless) [] [Runs.authRequest]
                   (lines ++ [Error "Error: No access token found in the response."]))).
Proof.
  intros rejected tokenless. split.
  - destruct (getProjectProperties_auth_failure rejected Sample.config
                Runs.authRequest []) as [Hrejected _].
    + repeat split.
    + reflexivity.
    + apply (Hrejected "Request failed with status code 401"
               (Some (mkResponse 401 "Unauthorized" None NoPayload))).
      reflexivity.
  - destruct (getProjectProperties_auth_failure tokenless Sample.config
                Runs.authRequest []) as [_ Htokenless].
    + repeat split.
    + reflexivity.
    + apply (Htokenless Runs.noToken); reflexivity.
Defined.

Lemma paginate_asks_again_after_full_page_witness :
  let w := Runs.start [Resolve (okResponse (ProjectsPage Runs.five));
                       Resolve (okResponse (ProjectsPage []))] in
  exists more,
    requests (final (Paginator.paginate GetProjectProperties.projectsData
                       GetProjectProperties.formatProject "projects" "Projects"
                       "https://api/projects" "tok" 5 w))
    = requests w ++ pageRequests "https://api/projects" "tok" 5 2 ++ more.
Proof.
  intros w.
  apply (paginate_asks_again_after_full_page GetProjectProperties.projectsData
           GetProjectProperties.formatProject "projects" "Projects"
           "https://api/projects" "tok" 5
           [okResponse (ProjectsPage Runs.five)] [Runs.five]
           [Resolve (okResponse (ProjectsPage []))] w).
  - repeat constructor.
  - repeat constructor.
  - reflexivity.
Defined.

(** ** setProjectProperties *)

Section ReadOnly.
Context {A B : Type}.

Lemma readOnly_ret (a : A) : readOnly (mret a : M A).
Proof. by intros w. Qed.

Lemma readOnly_throw (e : Err) : readOnly (throw e : M A).
Proof. by intros w. Qed.

Lemma readOnly_bind (m : M A) (k : A -> M B) :
  readOnly m -> (forall a, readOnly (k a)) -> readOnly (m ≫= k).
Proof.
  intros Hm Hk w. unfold mbind, M_bind, bind.
  destruct (Hm w) as [Hf Ha]. destruct (m w) as [a w'|e w'|w']; simpl in *.
  - destruct (Hk a w') as [Hf' Ha']. by rewrite Hf', Ha'.
  - done.
  - done.
Qed.

Lemma readOnly_tryCatch (m : M A) (handler : Err -> M A) :
  readOnly m -> (forall e, readOnly (handler e)) ->
  readOnly (tryCatch m handler).
Proof.
  intros Hm Hh w. unfold tryCatch.
  destruct (Hm w) as [Hf Ha]. destruct (m w) as [a w'|e w'|w']; simpl in *.
  - done.
  - destruct (Hh e w') as [Hf' Ha']. by rewrite Hf', Ha'.
  - done.
Qed.
End ReadOnly.

Lemma readOnly_consoleLog line : readOnly (consoleLog line).
Proof. by intros w. Qed.

Lemma readOnly_consoleError line : readOnly (consoleError line).
Proof. by intros w. Qed.

Lemma readOnly_request r : readOnly (request r).
Proof.
  intros w. unfold request. by destruct (script w) as [|[resp|msg resp] s].
Qed.

Lemma readOnly_readFile path : readOnly (readFile path).
Proof. intros w. unfold readFile. by destruct (files w !! path). Qed.

Lemma readOnly_throwError {A : Type} msg : readOnly (throwError msg : M A).
Proof. by intros w. Qed.

Ltac read_only :=
  repeat first
    [ apply readOnly_bind; [|intros ?]
    | apply readOnly_tryCatch; [|intros ?]
    | apply readOnly_ret | apply readOnly_throwError
    | apply readOnly_consoleLog | apply readOnly_consoleError
    | apply readOnly_request | apply readOnly_readFile
    | match goal with
      | |- readOnly (if ?b then _ else _) => destruct b
      | |- readOnly (match ?x with _ => _ end) => destruct x
      end ].

Lemma readOnly_resolve verbose config : readOnly (Auth.resolve verbose config).
Proof.
  unfold Auth.resolve, Auth.logTokenFlow.
  destruct (Auth.authConfig config); read_only.
Qed.

Lemma readOnly_readConfig path : readOnly (readConfig path).
Proof. unfold readConfig. read_only. Qed.

Lemma readOnly_setAll url token projectList :
  readOnly (SetProjectProperties.setAll url token projectList).
Proof.
  induction projectList as [|project rest IH]; simpl; [apply readOnly_ret|].
  read_only. exact IH.
Qed.

Lemma readOnly_setProjectProperties :
  readOnly SetProjectProperties.setProjectProperties.
Proof.
  unfold SetProjectProperties.setProjectProperties, SetProjectProperties.body.
  read_only; try apply readOnly_readConfig; try apply readOnly_resolve;
    try apply readOnly_setAll.
Qed.

(** X7. setProjectProperties is read-only on the machine it runs on:
    whatever the configuration, the project list and the answers of the
    API, and however the run ends, no file is created, changed or deleted
    and the operator is never asked anything.  Nor does the run ever end
    with an uncaught error. *)
Theorem setProjectProperties_never_writes (w : World) :
  files (final (SetProjectProperties.setProjectProperties w)) = files w
  /\ answers (final (SetProjectProperties.setProjectProperties w)) = answers w
  /\ forall e w', SetProjectProperties.setProjectProperties w <> Exn e w'.
Proof.
  destruct (readOnly_setProjectProperties w) as [Hf Ha].
  repeat split; [done..|].
  intros e w'. unfold SetProjectProperties.setProjectProperties, tryCatch.
  destruct (SetProjectProperties.body w) as [a w1|e1 w1|w1]; [done| |done].
  unfold_script. by destruct (response e1).
Qed.

Lemma setProjectProperties_run (w : World) (config : Config)
    (req : Request) (rAuth : Response) (token : string)
    (projectList : list Project) (outcomes : list Outcome) :
  files w !! SetProjectProperties.configPath = Some (JsonConfig config) ->
  files w !! SetProjectProperties.projectListPath
  = Some (JsonProjects projectList) ->
  Auth.authConfig config = Some req ->
  Auth.extractToken rAuth = Some token -> token <> "" ->
  script w = Resolve rAuth :: outcomes ->
  length projectList <= length outcomes ->
  exists w',
    SetProjectProperties.setProjectProperties w = Ok tt w'
    /\ requests w'
       = requests w
         ++ req :: map (SetProjectProperties.propertiesConfig
                          (SetProjectProperties.setPropertyUrl config) token)
                       projectList
    /\ script w' = drop (length projectList) outcomes.
Proof.
  intros Hconfig Hlist Hreq Htoken Hne Hs Hlen.
  unfold SetProjectProperties.setProjectProperties,
    SetProjectProperties.body, tryCatch.
  unfold mbind at 1, M_bind at 1, bind at 1.
  rewrite (readConfig_ok _ config) by done.
  unfold mbind at 1, M_bind at 1, bind at 1.
  set (w1 := mkWorld (files w) (answers w) (script w) (requests w)
                     (console w ++ [Info "Config data loaded:"])).
  change (consoleLog "Config data loaded:" w) with (Ok tt w1).
  destruct (resolve_ok true config req Hreq w1 rAuth outcomes token Hs Htoken Hne)
    as [lines Hrun].
  unfold mbind at 1, M_bind at 1, bind at 1. rewrite Hrun.
  unfold mbind at 1, M_bind at 1, bind at 1.
  unfold readFile at 1. simpl. rewrite Hlist.
  unfold mbind at 1, M_bind at 1, bind at 1. unfold consoleLog at 1. simpl.
  match goal with
  | |- context [SetProjectProperties.setAll ?u ?t projectList ?w0] =>
      destruct (setAll_continues u t projectList w0)
        as (w' & Hall & Hrequests & Hscript & _); [simpl; lia|]
  end.
  rewrite Hall. exists w'. split; [done|]. rewrite Hrequests, Hscript. simpl.
  by rewrite <- app_assoc.
Qed.

(** X8. With a token obtained and projectList.json readable,
    setProjectProperties posts the properties of every project of the
    list, once each and in list order, whatever the API answers to these
    posts (success, another status, an HTTP error or a transport
    failure): a failed post never stops the loop, and the outcomes after
    the last post are left unconsumed. *)
Theorem setProjectProperties_posts_every_project (w : World) (config : Config)
    (req : Request) (rAuth : Response) (token : string)
    (projectList : list Project) (outcomes : list Outcome) :
  files w !! SetProjectProperties.configPath = Some (JsonConfig config) ->
  files w !! SetProjectProperties.projectListPath
  = Some (JsonProjects projectList) ->
  Auth.authConfig config = Some req ->
  Auth.extractToken rAuth = Some token -> token <> "" ->
  script w = Resolve rAuth :: outcomes ->
  length projectList <= length outcomes ->
  exists w',
    SetProjectProperties.setProjectProperties w = Ok tt w'
    /\ requests w'
       = requests w
         ++ req :: map (SetProjectProperties.propertiesConfig
                          (SetProjectProperties.setPropertyUrl config) token)
                       projectList
    /\ length (requests w') = length (requests w) + 1 + length projectList
    /\ script w' = drop (length projectList) outcomes.
Proof.
  intros Hconfig Hlist Hreq Htoken Hne Hs Hlen.
  destruct (setProjectProperties_run w config req rAuth token projectList
              outcomes Hconfig Hlist Hreq Htoken Hne Hs Hlen)
    as (w' & Hrun & Hrequests & Hscript).
  exists w'. repeat split; [done..| |done].
  rewrite Hrequests, length_app. simpl. rewrite length_map. lia.
Qed.

Lemma setProjectProperties_posts_every_project_witness :
  let projectList :=
    map GetProjectProperties.formatProject (Runs.five ++ Runs.two) in
  let w := mkWorld {[ "./config.json" := JsonConfig Sample.config;
                      "./projectList.json" := JsonProjects projectList ]} []
             (Resolve Runs.authResponse
                :: replicate 3 (Reject "Network Error" None)
                ++ replicate 4 (Resolve (okResponse NoPayload))) [] [] in
  exists w',
    SetProjectProperties.setProjectProperties w = Ok tt w'
    /\ requests w'
       = Runs.authRequest
           :: map (SetProjectProperties.propertiesConfig
                     (SetProjectProperties.setPropertyUrl Sample.config) "tok")
                  projectList
    /\ length (requests w') = 8
    /\ script w' = [].
Proof.
  intros projectList w.
  apply (setProjectProperties_posts_every_project w Sample.config
           Runs.authRequest Runs.authResponse "tok" projectList
           (replicate 3 (Reject "Network Error" None)
            ++ replicate 4 (Resolve (okResponse NoPayload)))).
  - reflexivity.
  - reflexivity.
  - reflexivity.
  - reflexivity.
  - discriminate.
  - reflexivity.
  - simpl. lia.
Defined.

(** ** Phase one, then phase two *)

Lemma lookup_withProjectFiles allProjects (fs : gmap string Content) :
  withProjectFiles allProjects fs !! SetProjectProperties.projectListPath
  = Some (JsonProjects allProjects)
  /\ withProjectFiles allProjects fs !! SetProjectProperties.configPath
     = fs !! SetProjectProperties.configPath.
Proof.
  unfold withProjectFiles. split.
  - rewrite lookup_insert_ne by done. apply lookup_insert_eq.
  - by rewrite !lookup_insert_ne by done.
Qed.

(** X9. setProjectProperties run on the files getProjectProperties left
    posts, for every project the listing returned and in the same order,
    the properties the project had on the server; a project that had no
    property gets the placeholder pair [key: "value"] posted as its
    property. *)
Theorem placeholder_is_posted_back (w : World) (fs : gmap string Content)
    (remotes : list RemoteProject) (config : Config) (req : Request)
    (rAuth : Response) (token : string) (outcomes : list Outcome) :
  files w
  = withProjectFiles (map GetProjectProperties.formatProject remotes) fs ->
  fs !! SetProjectProperties.configPath = Some (JsonConfig config) ->
  Auth.authConfig config = Some req ->
  Auth.extractToken rAuth = Some token -> token <> "" ->
  script w = Resolve rAuth :: outcomes ->
  length remotes <= length outcomes ->
  exists w',
    SetProjectProperties.setProjectProperties w = Ok tt w'
    /\ requests w' = requests w ++ req :: map (postedBack config token) remotes.
Proof.
  intros Hfiles Hconfig Hreq Htoken Hne Hs Hlen.
  destruct (lookup_withProjectFiles
              (map GetProjectProperties.formatProject remotes) fs)
    as [Hlist Hcfg].
  destruct (setProjectProperties_run w config req rAuth token
              (map GetProjectProperties.formatProject remotes) outcomes)
    as (w' & Hrun & Hrequests & _);
    [by rewrite Hfiles, Hcfg|by rewrite Hfiles|done..| |].
  { by rewrite length_map. }
  exists w'. split; [done|]. rewrite Hrequests, map_map. do 2 f_equal.
  apply map_ext. intros remote.
  unfold SetProjectProperties.propertiesConfig, postedBack. simpl.
  by destruct (rp_properties remote).
Qed.

Lemma placeholder_is_posted_back_witness :
  let remotes := Runs.five ++ Runs.two in
  let w := mkWorld
             (withProjectFiles (map GetProjectProperties.formatProject remotes)
                {[ "./config.json" := JsonConfig Sample.config ]})
             [] (Resolve Runs.authResponse
                   :: replicate 7 (Resolve (okResponse NoPayload))) [] [] in
  exists w',
    SetProjectProperties.setProjectProperties w = Ok tt w'
    /\ requests w'
       = Runs.authRequest :: map (postedBack Sample.config "tok") remotes.
Proof.
  intros remotes w.
  apply (placeholder_is_posted_back w
           {[ "./config.json" := JsonConfig Sample.config ]} remotes
           Sample.config Runs.authRequest Runs.authResponse "tok"
           (replicate 7 (Resolve (okResponse NoPayload)))).
  - reflexivity.
  - reflexivity.
  - reflexivity.
  - reflexivity.
  - discriminate.
  - reflexivity.
  - simpl. lia.
Defined.

(** ** getProjectBranches: the branch loop *)

Section BranchLoop.
Import GetProjectBranches.
Variable template token : string.

Local Abbreviation fetchingBranches offset :=
  (Info ("Fetching branches with URL: "
           +:+ url (branchesRequest template token offset))).

Lemma branches_turn_page fuel offset all w r s items :
  script w = Resolve r :: s ->
  servesPage branchesData r items ->
  loop template token (S fuel) offset all w
  = (if Nat.eqb (length items) 500
     then loop template token fuel (offset + 500) (all ++ items)
     else ret (all ++ items))
      (after w s [branchesRequest template token offset]
             [fetchingBranches offset]).
Proof.
  intros Hs [Hst Hd]. destruct w as [f a sc rq c]; simpl in *; subst sc.
  unfold_script. simpl. apply Nat.eqb_eq in Hst. rewrite Hst, Hd. simpl.
  unfold after. simpl. by destruct (Nat.eqb (length items) 500).
Qed.

Lemma branches_turn_status fuel offset all w r s :
  script w = Resolve r :: s ->
  status r <> 200 ->
  exists lines,
    loop template token (S fuel) offset all w
    = Ok all (after w s [branchesRequest template token offset] lines).
Proof.
  intros Hs Hst. destruct w as [f a sc rq c]; simpl in *; subst sc.
  exists [fetchingBranches offset;
          Error ("HTTP Error: " +:+ pretty (status r) +:+ " - " +:+ statusText r);
          Error "Response data:"].
  unfold_script. simpl. apply Nat.eqb_neq in Hst. rewrite Hst. simpl.
  unfold after. simpl. by rewrite <- !app_assoc.
Qed.

Lemma branches_turn_payload fuel offset all w r s :
  script w = Resolve r :: s ->
  status r = 200 -> branchesData (data r) = None ->
  exists lines,
    loop template token (S fuel) offset all w
    = Ok all (after w s [branchesRequest template token offset] lines).
Proof.
  intros Hs Hst Hd. destruct w as [f a sc rq c]; simpl in *; subst sc.
  exists [fetchingBranches offset;
          Error "Error fetching branches: branchesData is not iterable"].
  unfold_script. simpl. apply Nat.eqb_eq in Hst. rewrite Hst, Hd. simpl.
  unfold after. simpl. by rewrite <- !app_assoc.
Qed.

(** Whatever ends the loop, the turn returns. *)
Lemma branches_turn_end fuel offset all w o s items :
  script w = o :: s ->
  EndsBranches o items ->
  exists lines,
    loop template token (S fuel) offset all w
    = Ok (all ++ items)
         (after w s [branchesRequest template token offset] lines).
Proof.
  intros Hs Hend. destruct Hend as [r items Hr Hlen|r Hst|r Hst Hd|msg resp].
  - rewrite (branches_turn_page fuel offset all w r s items Hs Hr).
    apply Nat.eqb_neq in Hlen. rewrite Hlen. eauto.
  - rewrite app_nil_r. exact (branches_turn_status fuel offset all w r s Hs Hst).
  - rewrite app_nil_r.
    exact (branches_turn_payload fuel offset all w r s Hs Hst Hd).
  - rewrite app_nil_r, (branches_turn_reject template token fuel offset all w
                          msg resp s Hs).
    by eexists [_; _].
Qed.

Lemma branchRequests_snoc n :
  branchRequests template token n
  ++ [branchesRequest template token (n * 500)]
  = branchRequests template token (S n).
Proof. unfold branchRequests. by rewrite seq_S, map_app. Qed.

(** Full pages of 500 branches, then the outcome that ends the loop. *)
Lemma branches_pages pre :
  forall rs o last rest fuel n all w,
    Forall2 (servesPage branchesData) rs pre ->
    Forall (fun items => length items = 500) pre ->
    EndsBranches o last ->
    script w = map Resolve rs ++ o :: rest ->
    length pre < fuel ->
    exists lines,
      loop template token fuel (n * 500) all w
      = Ok (all ++ concat pre ++ last)
           (after w rest
              (map (fun k => branchesRequest template token (k * 500))
                   (seq n (S (length pre))))
              lines).
Proof.
  induction pre as [|page pre IH];
    intros rs o last rest fuel n all w Hrs Hfull Hend Hs Hfuel.
  - apply Forall2_nil_inv_r in Hrs as ->.
    destruct fuel as [|fuel]; [simpl in Hfuel; lia|].
    destruct (branches_turn_end fuel (n * 500) all w o rest last Hs Hend)
      as [lines Hrun].
    exists lines. by rewrite Hrun.
  - apply Forall2_cons_inv_r in Hrs as (r & rs' & Hr & Hrs' & ->).
    apply Forall_cons in Hfull as [Hpage Hfull].
    destruct fuel as [|fuel]; [simpl in Hfuel; lia|].
    rewrite (branches_turn_page fuel (n * 500) all w r
               (map Resolve rs' ++ o :: rest) page Hs Hr).
    apply Nat.eqb_eq in Hpage as Hpage'. rewrite Hpage'.
    replace (n * 500 + 500) with (S n * 500) by lia.
    destruct (IH rs' o last rest fuel (S n) (all ++ page)
                (after w (map Resolve rs' ++ o :: rest)
                   [branchesRequest template token (n * 500)]
                   [fetchingBranches (n * 500)])
                Hrs' Hfull Hend eq_refl) as [lines Hrun];
      [simpl in Hfuel; lia|].
    rewrite Hrun. exists (fetchingBranches (n * 500) :: lines).
    unfold after. cbn [files answers script requests console].
    change (concat (page :: pre)) with (page ++ concat pre).
    change (seq n (S (length (page :: pre))))
      with (n :: seq (S n) (S (length pre))).
    cbn [map]. by rewrite <- !app_assoc.
Qed.
End BranchLoop.

(** X10. The branch loop of getProjectBranches always returns: after any
    number of full pages of 500 branches, a page of another length, a
    status other than 200, a 200 response without branch array or a
    rejected request ends the loop with all the branches received (those
    of the last page included), after one request per page at offsets 0,
    500, 1000, ... and with the later outcomes unconsumed. *)
Theorem fetchBranches_always_returns (template token : string)
    (rs : list Response) (pre : list (list Branch)) (o : Outcome)
    (last : list Branch) (rest : list Outcome) (w : World) :
  Forall2 (servesPage GetProjectBranches.branchesData) rs pre ->
  Forall (fun items => length items = 500) pre ->
  EndsBranches o last ->
  script w = map Resolve rs ++ o :: rest ->
  exists lines,
    GetProjectBranches.fetchBranches template token w
    = Ok (concat pre ++ last)
         (after w rest (branchRequests template token (S (length pre))) lines).
Proof.
  intros Hrs Hfull Hend Hs. unfold GetProjectBranches.fetchBranches.
  apply (branches_pages template token pre rs o last rest
           (S (length (script w))) 0 [] w Hrs Hfull Hend Hs).
  rewrite Hs, length_app, length_map. apply Forall2_length in Hrs. lia.
Qed.

Lemma fetchBranches_always_returns_witness :
  let page := replicate 500 (mkBranch "b" "main" "p1") in
  let w := Runs.start [Resolve (okResponse (BranchesPage page));
                       Reject "Network Error" None;
                       Resolve (okResponse (BranchesPage page))] in
  exists lines,
    GetProjectBranches.fetchBranches "https://api/branches?offset={offset}"
      "tok" w
    = Ok (concat [page] ++ [])
         (after w [Resolve (okResponse (BranchesPage page))]
            (branchRequests "https://api/branches?offset={offset}" "tok" 2)
            lines).
Proof.
  intros page w.
  apply (fetchBranches_always_returns
           "https://api/branches?offset={offset}" "tok"
           [okResponse (BranchesPage page)] [page]
           (Reject "Network Error" None) []
           [Resolve (okResponse (BranchesPage page))] w).
  - repeat constructor.
  - repeat constructor.
  - constructor.
  - reflexivity.
Defined.

(** ** getProjectBranches: correlation step and whole run *)

Section Associate.
Import GetProjectBranches.


End Associate.



Section GetProjectBranchesRun.
Import GetProjectBranches.
Variable w : World.
Variable config : Config.
Variable req : Request.
Hypothesis Hjson : files w !! branchesListPath = None.
Hypothesis Hconfig : files w !! configPath = Some (JsonConfig config).
Hypothesis Hurls : urlsDefined config.
Hypothesis Hreq : Auth.authConfig config = Some req.



End GetProjectBranchesRun.



(** ** getProjectUserInformation: the role-assignments loop *)

Section RoleLoop.
Import GetProjectUserInformation.
Variable token : string.
Variable allGroups : gmap string (list User).

Lemma roles_turn_200 project later details w r s included :
  script w = Resolve r :: s ->
  status r = 200 -> data r = RoleAssignments included ->
  exists lines,
    correlateProjects token allGroups (project :: later) details w
    = correlateProjects token allGroups later
        (details ++ [detailOf allGroups project included])
        (after w s [roleAssignmentsRequest token project] lines).
Proof.
  intros Hs Hst Hd. destruct w as [f a sc rq c]; simpl in *; subst sc.
  unfold_script. simpl. apply Nat.eqb_eq in Hst. rewrite Hst, Hd. simpl.
  unfold after. simpl. rewrite <- !app_assoc. simpl. eauto.
Qed.

Lemma roles_turn_other project later details w r s :
  script w = Resolve r :: s ->
  status r <> 200 ->
  exists lines,
    correlateProjects token allGroups (project :: later) details w
    = correlateProjects token allGroups later details
        (after w s [roleAssignmentsRequest token project] lines).
Proof.
  intros Hs Hst.
  rewrite (correlateProjects_skips_not_200 token allGroups project later
             details w r s Hs Hst).
  unfold after. eauto.
Qed.

Lemma roles_turn_reject project later details w msg resp s :
  script w = Reject msg resp :: s ->
  exists lines,
    correlateProjects token allGroups (project :: later) details w
    = Exn (mkErr msg resp)
          (after w s [roleAssignmentsRequest token project] lines).
Proof.
  intros Hs. destruct w as [f a sc rq c]; simpl in *; subst sc.
  unfold_script. simpl. unfold after. simpl. eauto.
Qed.

(** One turn on a resolved response, whatever its status. *)
Lemma roles_turn project later details w r s :
  script w = Resolve r :: s -> answersRoles r ->
  exists lines,
    correlateProjects token allGroups (project :: later) details w
    = correlateProjects token allGroups later
        (details ++ omap (detailFrom allGroups) [(project, r)])
        (after w s [roleAssignmentsRequest token project] lines).
Proof.
  intros Hs Hr.
  destruct (decide (status r = 200)) as [Hst|Hst].
  - destruct (Hr Hst) as [included Hd].
    destruct (roles_turn_200 project later details w r s included Hs Hst Hd)
      as [lines Hrun].
    assert (omap (detailFrom allGroups) [(project, r)]
            = [detailOf allGroups project included]) as ->.
    { apply Nat.eqb_eq in Hst. unfold detailFrom. simpl. by rewrite Hst, Hd. }
    by exists lines.
  - destruct (roles_turn_other project later details w r s Hs Hst)
      as [lines Hrun].
    assert (omap (detailFrom allGroups) [(project, r)] = []) as ->.
    { apply Nat.eqb_neq in Hst. unfold detailFrom. simpl. by rewrite Hst. }
    exists lines. by rewrite app_nil_r.
Qed.

Lemma after_after w s1 sent1 lines1 s2 sent2 lines2 :
  after (after w s1 sent1 lines1) s2 sent2 lines2
  = after w s2 (sent1 ++ sent2) (lines1 ++ lines2).
Proof. unfold after. simpl. by rewrite <- !app_assoc. Qed.

Lemma after_nothing w : after w (script w) [] [] = w.
Proof. unfold after. rewrite !app_nil_r. symmetry. apply world_eta. Qed.

(** The loop over projects whose requests all resolve. *)
Lemma roles_loop allProjects :
  forall rs rest details w,
    length rs = length allProjects ->
    Forall answersRoles rs ->
    script w = map Resolve rs ++ rest ->
    exists lines,
      correlateProjects token allGroups allProjects details w
      = Ok (details ++ detailsFrom allGroups allProjects rs)
           (after w rest (map (roleAssignmentsRequest token) allProjects) lines).
Proof.
  induction allProjects as [|project later IH];
    intros rs rest details w Hlen Hrs Hs.
  - destruct rs; [|done]. simpl in Hs. exists [].
    unfold detailsFrom. simpl. rewrite app_nil_r, <- Hs.
    by rewrite after_nothing.
  - destruct rs as [|r rs]; [done|]. simpl in Hlen, Hs.
    apply Forall_cons in Hrs as [Hr Hrs].
    destruct (roles_turn project later details w r (map Resolve rs ++ rest)
                Hs Hr) as [lines0 Hturn].
    destruct (IH rs rest (details ++ omap (detailFrom allGroups) [(project, r)])
                (after w (map Resolve rs ++ rest)
                   [roleAssignmentsRequest token project] lines0))
      as [lines1 Hrun]; [lia|done|done|].
    exists (lines0 ++ lines1). rewrite Hturn, Hrun, after_after.
    unfold detailsFrom.
    change (zip (project :: later) (r :: rs))
      with ([(project, r)] ++ zip later rs).
    by rewrite omap_app, <- app_assoc.
Qed.

(** The loop up to the first rejected request. *)
Lemma roles_loop_reject before :
  forall project later rs msg resp rest details w,
    length rs = length before ->
    Forall answersRoles rs ->
    script w = map Resolve rs ++ Reject msg resp :: rest ->
    exists lines,
      correlateProjects token allGroups (before ++ project :: later) details w
      = Exn (mkErr msg resp)
            (after w rest
               (map (roleAssignmentsRequest token) (before ++ [project]))
               lines).
Proof.
  induction before as [|first before IH];
    intros project later rs msg resp rest details w Hlen Hrs Hs.
  - destruct rs; [|done]. simpl in Hs.
    apply (roles_turn_reject project later details w msg resp rest Hs).
  - destruct rs as [|r rs]; [done|]. simpl in Hlen, Hs.
    apply Forall_cons in Hrs as [Hr Hrs].
    destruct (roles_turn first (before ++ project :: later) details w r
                (map Resolve rs ++ Reject msg resp :: rest) Hs Hr)
      as [lines0 Hturn].
    destruct (IH project later rs msg resp rest
                (details ++ omap (detailFrom allGroups) [(first, r)])
                (after w (map Resolve rs ++ Reject msg resp :: rest)
                   [roleAssignmentsRequest token first] lines0))
      as [lines1 Hrun]; [lia|done|done|].
    exists (lines0 ++ lines1).
    change ((first :: before) ++ project :: later)
      with (first :: before ++ project :: later).
    by rewrite Hturn, Hrun, after_after.
Qed.
End RoleLoop.

Lemma detailsFrom_ids allGroups (answered : list (ProjectRef * Response)) :
  Forall (fun pr => answersRoles (snd pr)) answered ->
  map GetProjectUserInformation.projectId (omap (detailFrom allGroups) answered)
  = map (fun pr => pr_id (fst pr))
        (filter (fun pr => status (snd pr) = 200) answered).
Proof.
  induction answered as [|[project r] answered IH]; [done|].
  intros [Hr Hrs]%Forall_cons. rewrite filter_cons.
  change (omap (detailFrom allGroups) ((project, r) :: answered))
    with (match detailFrom allGroups (project, r) with
          | Some detail => detail :: omap (detailFrom allGroups) answered
          | None => omap (detailFrom allGroups) answered
          end).
  unfold detailFrom at 1. cbn [fst snd] in *.
  destruct (decide (status r = 200)) as [Hst|Hst].
  - destruct (Hr Hst) as [included Hd].
    apply Nat.eqb_eq in Hst. rewrite Hst, Hd. cbn [map].
    by rewrite IH.
  - apply Nat.eqb_neq in Hst. rewrite Hst. by apply IH.
Qed.

(** X13. The role-assignments loop of getProjectUserInformation, when
    every request resolves: one request per project is issued, in the
    order of the project list; the details are those of the projects
    answered with status 200, in the same order, each built from its own
    response; a project answered with another status is left out and the
    loop goes on.  No file is touched. *)
Theorem correlateProjects_keeps_answered_projects (token : string)
    (allGroups : gmap string (list GetProjectUserInformation.User))
    (allProjects : list ProjectRef) (rs : list Response)
    (rest : list Outcome) (w : World) :
  length rs = length allProjects ->
  Forall answersRoles rs ->
  script w = map Resolve rs ++ rest ->
  (exists lines,
     GetProjectUserInformation.correlateProjects token allGroups allProjects
       [] w
     = Ok (detailsFrom allGroups allProjects rs)
          (after w rest
             (map (GetProjectUserInformation.roleAssignmentsRequest token)
                  allProjects)
             lines))
  /\ map GetProjectUserInformation.projectId
         (detailsFrom allGroups allProjects rs)
     = map (fun pr => pr_id (fst pr))
           (filter (fun pr => status (snd pr) = 200) (zip allProjects rs)).
Proof.
  intros Hlen Hrs Hs. split.
  - apply (roles_loop token allGroups allProjects rs rest [] w Hlen Hrs Hs).
  - apply detailsFrom_ids. apply Forall_forall. intros [project r] Hin.
    apply elem_of_zip_r in Hin. simpl.
    by apply (proj1 (Forall_forall _ _) Hrs).
Qed.

Lemma correlateProjects_keeps_answered_projects_witness :
  let alpha := mkProjectRef "p1" "Alpha" in
  let beta := mkProjectRef "p2" "Beta" in
  let gamma := mkProjectRef "p3" "Gamma" in
  let roles := okResponse (RoleAssignments [IncUser "Ann" "ann@acme.test" []]) in
  let w := Runs.start [Resolve roles; Resolve Runs.unavailable; Resolve roles;
                       Sample.networkError] in
  (exists lines,
     GetProjectUserInformation.correlateProjects "tok" ∅ [alpha; beta; gamma]
       [] w
     = Ok (detailsFrom ∅ [alpha; beta; gamma]
             [roles; Runs.unavailable; roles])
          (after w [Sample.networkError]
             (map (GetProjectUserInformation.roleAssignmentsRequest "tok")
                  [alpha; beta; gamma])
             lines))
  /\ map GetProjectUserInformation.projectId
         (detailsFrom ∅ [alpha; beta; gamma] [roles; Runs.unavailable; roles])
     = ["p1"; "p3"].
Proof.
  intros alpha beta gamma roles w.
  apply (correlateProjects_keeps_answered_projects "tok" ∅
           [alpha; beta; gamma] [roles; Runs.unavailable; roles]
           [Sample.networkError] w).
  - reflexivity.
  - repeat constructor; intros Hst; try discriminate Hst;
      by exists [IncUser "Ann" "ann@acme.test" []].
  - reflexivity.
Defined.

(** ** getProjectUserInformation from start to end *)

Lemma catchAll_returns (run : M unit) w w' :
  run w = Ok tt w' -> catchAll run w = Ok tt w'.
Proof. intros Hrun. unfold catchAll, tryCatch. by rewrite Hrun. Qed.

Lemma catchAll_catches (run : M unit) w e w' :
  run w = Exn e w' ->
  exists lines,
    catchAll run w
    = Ok tt (mkWorld (files w') (answers w') (script w') (requests w')
                     (console w' ++ lines)).
Proof.
  intros Hrun. unfold catchAll, tryCatch. rewrite Hrun.
  destruct (response e) as [r|]; unfold_script;
    cbn [files answers script requests console];
    rewrite <- ?app_assoc; eauto.
Qed.

Section GetProjectUserInformationRun.
Import GetProjectUserInformation.
Variable w : World.
Variable config : Config.
Variable req : Request.
Variable rAuth : Response.
Variable token : string.
Variables (prs : list Response) (pr : Response).
Variables (ppre : list (list RemoteProject)) (plast : list RemoteProject).
Variables (urs : list Response) (ur : Response).
Variables (upre : list (list RemoteUser)) (ulast : list RemoteUser).
Variable tail : list Outcome.
Hypothesis Hjson : files w !! projectListPath = None.
Hypothesis Hcsv : files w !! csvPath = None.
Hypothesis Hconfig : files w !! configPath = Some (JsonConfig config).
Hypothesis Hreq : Auth.authConfig config = Some req.
Hypothesis Htoken : Auth.extractToken rAuth = Some token.
Hypothesis Hne : token <> "".
Hypothesis Hs :
  script w = Resolve rAuth :: map Resolve prs ++ Resolve pr
               :: map Resolve urs ++ Resolve ur :: tail.
Hypothesis Hprojects :
  servesAll GetProjectProperties.projectsData 5 prs pr ppre plast.
Hypothesis Husers : servesAll usersData 50 urs ur upre ulast.

Local Abbreviation allProjects :=
  (map formatProject (concat (ppre ++ [plast]))).
Local Abbreviation allUsers := (map formatUser (concat (upre ++ [ulast]))).
Local Abbreviation listing :=
  (req :: pageRequests (GetProjectProperties.baseProjectsUrl config) token 5
            (S (length ppre))
       ++ pageRequests usersUrl token 50 (S (length upre))).

(** The run up to the role-assignments loop: the project list is saved
    and both listings are done. *)
Lemma run_until_roles :
  exists lines,
    body w
    = (projectDetails ← correlateProjects token (groupUsers allUsers)
                          allProjects [];
       writeFile csvPath (Csv (csvTable projectDetails));;
       consoleLog "Project details have been saved to projectDetails.csv")
        (done w (withProjectList allProjects (files w)) tail listing lines).
Proof.
  destruct Hprojects as (Hprs & Hpfull & Hpr & Hplast).
  destruct Husers as (Hurs & Hufull & Hur & Hulast).
  destruct (resolve_ok false config req Hreq w rAuth _ token Hs Htoken Hne)
    as [lines0 Hauth].
  edestruct (paginate_ends_on_page GetProjectProperties.projectsData
               formatProject "projects" "Projects"
               (GetProjectProperties.baseProjectsUrl config) token 5
               prs ppre pr plast (map Resolve urs ++ Resolve ur :: tail)
               (after w (map Resolve prs ++ Resolve pr
                           :: map Resolve urs ++ Resolve ur :: tail)
                      [req] lines0))
    as [lines1 Hpages]; [done|done|reflexivity|done|done|].
  set (saved := Info "Project list has been saved to projectList.json").
  edestruct (paginate_ends_on_page usersData formatUser "users" "Users"
               usersUrl token 50 urs upre ur ulast tail
               (done w (withProjectList allProjects (files w))
                  (map Resolve urs ++ Resolve ur :: tail)
                  (req :: pageRequests
                            (GetProjectProperties.baseProjectsUrl config)
                            token 5 (S (length ppre)))
                  (lines0 ++ lines1 ++ [saved])))
    as [lines2 Husers']; [done|done|reflexivity|done|done|].
  exists (lines0 ++ lines1 ++ [saved] ++ lines2).
  unfold body, deleteFileIfExists.
  unfold mbind at 1, M_bind at 1, bind at 1.
  rewrite confirmDelete_absent by done.
  unfold mbind at 1, M_bind at 1, bind at 1.
  rewrite confirmDelete_absent by done.
  unfold mbind at 1, M_bind at 1, bind at 1.
  rewrite (readConfig_ok _ config) by done.
  unfold mbind at 1, M_bind at 1, bind at 1. rewrite Hauth.
  change GetProjectUserInformation.limit with 5.
  unfold mbind at 1, M_bind at 1, bind at 1. rewrite Hpages.
  unfold mbind at 1, M_bind at 1, bind at 1.
  unfold writeFile at 1.
  unfold mbind at 1, M_bind at 1, bind at 1.
  unfold consoleLog at 1.
  unfold mbind at 1, M_bind at 1, bind at 1.
  match goal with
  | |- context [Paginator.paginate usersData formatUser "users" "Users"
                  usersUrl token userLimit ?w0] =>
      replace w0
        with (done w (withProjectList allProjects (files w))
                (map Resolve urs ++ Resolve ur :: tail)
                (req :: pageRequests
                          (GetProjectProperties.baseProjectsUrl config)
                          token 5 (S (length ppre)))
                (lines0 ++ lines1 ++ [saved]))
        by (unfold done, after, withProjectList;
            cbn [files answers script requests console];
            by rewrite <- !app_assoc)
  end.
  change userLimit with 50. rewrite Husers'.
  f_equal. unfold done, after.
  cbn [files answers script requests console].
  by rewrite <- !app_assoc.
Qed.


Lemma user_information_run_rejected before project later rrs msg resp rest :
  allProjects = before ++ project :: later ->
  tail = map Resolve rrs ++ Reject msg resp :: rest ->
  length rrs = length before ->
  Forall answersRoles rrs ->
  exists lines,
    fetchProjectsWithAuth w
    = Ok tt
        (done w (withProjectList allProjects (files w)) rest
           (listing
            ++ map (roleAssignmentsRequest token) (before ++ [project]))
           lines).
Proof.
  intros Hsplit Htail Hlen Hrrs.
  destruct run_until_roles as [lines0 Hbody].
  destruct (roles_loop_reject token (groupUsers allUsers) before project later
              rrs msg resp rest []
              (done w (withProjectList allProjects (files w)) tail listing
                 lines0) Hlen Hrrs Htail) as [lines1 Hroles].
  assert (body w
          = Exn (mkErr msg resp)
                (after (done w (withProjectList allProjects (files w)) tail
                          listing lines0) rest
                   (map (roleAssignmentsRequest token) (before ++ [project]))
                   lines1)) as Hrun.
  { rewrite <- Hsplit in Hroles. rewrite Hbody.
    unfold mbind at 1, M_bind at 1, bind at 1. by rewrite Hroles. }
  destruct (catchAll_catches body w _ _ Hrun) as [lines2 Hcaught].
  exists (lines0 ++ lines1 ++ lines2).
  unfold fetchProjectsWithAuth. rewrite Hcaught. unfold done, after.
  cbn [files answers script requests console app].
  by repeat (progress (rewrite <- ?app_assoc; cbn [app])).
Qed.
End GetProjectUserInformationRun.


(** X15. When a role-assignments request of getProjectUserInformation is
    rejected, after any number of projects whose requests resolved, the
    run ends in its outer handler: projectList.json, saved before, holds
    the whole project list, projectDetails.csv is not written, the
    details gathered so far are dropped and the projects after the failed
    one are never asked for. *)
Theorem getProjectUserInformation_rejection_keeps_project_list (w : World)
    (config : Config) (req : Request) (rAuth : Response) (token : string)
    (prs : list Response) (pr : Response)
    (ppre : list (list RemoteProject)) (plast : list RemoteProject)
    (urs : list Response) (ur : Response)
    (upre : list (list RemoteUser)) (ulast : list RemoteUser)
    (before : list ProjectRef) (project : ProjectRef) (later : list ProjectRef)
    (rrs : list Response) (msg : string) (resp : option Response)
    (rest : list Outcome) :
  let allProjects :=
    map GetProjectUserInformation.formatProject (concat (ppre ++ [plast])) in
  files w !! GetProjectUserInformation.projectListPath = None ->
  files w !! GetProjectUserInformation.csvPath = None ->
  files w !! GetProjectUserInformation.configPath = Some (JsonConfig config) ->
  Auth.authConfig config = Some req ->
  Auth.extractToken rAuth = Some token -> token <> "" ->
  script w = Resolve rAuth :: map Resolve prs ++ Resolve pr
               :: map Resolve urs ++ Resolve ur
               :: map Resolve rrs ++ Reject msg resp :: rest ->
  servesAll GetProjectProperties.projectsData 5 prs pr ppre plast ->
  servesAll GetProjectUserInformation.usersData 50 urs ur upre ulast ->
  allProjects = before ++ project :: later ->
  length rrs = length before ->
  Forall answersRoles rrs ->
  exists lines w',
    GetProjectUserInformation.fetchProjectsWithAuth w
    = Ok tt w'
    /\ w' = done w (withProjectList allProjects (files w)) rest
              ((req :: pageRequests
                         (GetProjectProperties.baseProjectsUrl config)
                         token 5 (S (length ppre))
                    ++ pageRequests GetProjectUserInformation.usersUrl token 50
                         (S (length upre)))
               ++ map (GetProjectUserInformation.roleAssignmentsRequest token)
                    (before ++ [project]))
              lines
    /\ files w' !! GetProjectUserInformation.projectListPath
       = Some (JsonProjectRefs allProjects)
    /\ files w' !! GetProjectUserInformation.csvPath = None.
Proof.
  intros allProjects Hjson Hcsv Hconfig Hreq Htoken Hne Hs Hprojects Husers
    Hsplit Hlen Hrrs.
  destruct (user_information_run_rejected w config req rAuth token prs pr
              ppre plast urs ur upre ulast
              (map Resolve rrs ++ Reject msg resp :: rest)
              Hjson Hcsv Hconfig Hreq Htoken Hne Hs Hprojects Husers
              before project later rrs msg resp rest Hsplit eq_refl Hlen Hrrs)
    as [lines Hrun].
  exists lines. eexists. split; [exact Hrun|]. split; [reflexivity|].
  unfold done, withProjectList. cbn [files]. split.
  - apply lookup_insert_eq.
  - by rewrite lookup_insert_ne by done.
Qed.


Lemma getProjectUserInformation_rejection_keeps_project_list_witness :
  let w := Runs.start [Resolve Runs.authResponse; Resolve Listing.projects;
                       Resolve Listing.users; Resolve Listing.roles;
                       Sample.serverError] in
  exists lines w',
    GetProjectUserInformation.fetchProjectsWithAuth w = Ok tt w'
    /\ console w' = console w ++ lines
    /\ length (requests w') = 5
    /\ files w' !! "./projectList.json"
       = Some (JsonProjectRefs [mkProjectRef "p1" "Alpha";
                                mkProjectRef "p2" "Beta"])
    /\ files w' !! "./projectDetails.csv" = None.
Proof.
  intros w.
  destruct (getProjectUserInformation_rejection_keeps_project_list w
              Sample.config Runs.authRequest Runs.authResponse "tok"
              [] Listing.projects []
              [Sample.remote "p1" "Alpha"; Sample.remote "p2" "Beta"]
              [] Listing.users []
              [mkRemoteUser "u1" "Ann" "ann@acme.test" ["g1"];
               mkRemoteUser "u2" "Bob" "bob@acme.test" []]
              [mkProjectRef "p1" "Alpha"] (mkProjectRef "p2" "Beta") []
              [Listing.roles] "Request failed with status code 500"
              (Some (mkResponse 500 "Internal Server Error" None NoPayload))
              [])
    as (lines & w' & Hrun & Hw' & Hjson & Hcsv).
  - reflexivity.
  - reflexivity.
  - reflexivity.
  - reflexivity.
  - reflexivity.
  - discriminate.
  - reflexivity.
  - repeat split; try constructor; simpl; lia.
  - repeat split; try constructor; simpl; lia.
  - reflexivity.
  - reflexivity.
  - repeat constructor; intros Hst.
    by exists [IncGroup "g1" "devs"; IncUser "Bob" "bob@acme.test" []].
  - exists lines, w'. split; [exact Hrun|]. subst w'.
    repeat split; reflexivity.
Defined.

(** ** getProjectBranches: the URL templates *)

(** X16. getProjectBranches checks its three URL templates before
    anything else is done with the configuration: when one of them is
    empty the run ends in the outer handler with that error, without any
    request and without writing a file, whatever credentials the
    configuration holds. *)
Theorem getProjectBranches_requires_url_templates (w : World)
    (config : Config) :
  files w !! GetProjectBranches.branchesListPath = None ->
  files w !! GetProjectBranches.configPath = Some (JsonConfig config) ->
  ~ urlsDefined config ->
  GetProjectBranches.fetchBranchesWithAuth w
  = Ok tt
      (mkWorld (files w) (answers w) (script w) (requests w)
         (console w
          ++ [Error "Error: One or more URL templates are missing or not correctly defined in the config."])).
Proof.
  intros Hjson Hconfig Hurls.
  unfold GetProjectBranches.fetchBranchesWithAuth, catchAll, tryCatch,
    GetProjectBranches.body.
  unfold mbind at 1, M_bind at 1, bind at 1.
  rewrite confirmDelete_absent by done.
  unfold mbind at 1, M_bind at 1, bind at 1.
  rewrite (readConfig_ok _ config) by done.
  fold (branchesTemplate config). unfold Js.truthy.
  destruct (String.eqb (Auth.authUrl config) "") eqn:H1;
    [done|apply String.eqb_neq in H1].
  destruct (String.eqb (Auth.authUrlV2 config) "") eqn:H2;
    [done|apply String.eqb_neq in H2].
  destruct (String.eqb (branchesTemplate config) "") eqn:H3;
    [done|apply String.eqb_neq in H3].
  by destruct Hurls.
Qed.

Lemma getProjectBranches_requires_url_templates_witness :
  let config :=
    mkConfig "acme" "ops@acme.test" (Some "secret") None
      "https://{customer}.polaris.test/api/auth/authenticate"
      "https://{customer}.polaris.test/api/auth/v2/authenticate" "" "" "" in
  let w := mkWorld {[ "./config.json" := JsonConfig config ]} []
             [Sample.authOk] [] [] in
  GetProjectBranches.fetchBranchesWithAuth w
  = Ok tt
      (mkWorld (files w) [] [Sample.authOk] []
         [Error "Error: One or more URL templates are missing or not correctly defined in the config."]).
Proof.
  intros config w.
  apply (getProjectBranches_requires_url_templates w config).
  - reflexivity.
  - reflexivity.
  - intros (_ & _ & Hb). by apply Hb.
Defined.

(** ** getProjectUserInformation: individual users and groups *)

(** X17. The individual users of a project's details are the users of
    the [included] array whose first group reference is missing, has an
    empty id, or has the id "N/A" itself; every other user of the array
    is left out of the individual users, whether or not its group is
    among the groups of the project. *)
Theorem individual_users_have_no_first_group
    (allGroups : gmap string (list GetProjectUserInformation.User))
    (project : ProjectRef) (included : list Included)
    (userName userEmail : string) :
  (userName, userEmail)
    ∈ GetProjectUserInformation.individualUsers
        (GetProjectUserInformation.detailOf allGroups project included)
  <-> exists groups,
        IncUser userName userEmail groups ∈ included
        /\ (head groups = None \/ head groups = Some ""
            \/ head groups = Some "N/A").
Proof.
  unfold GetProjectUserInformation.detailOf,
    GetProjectUserInformation.includedUsers.
  cbn [GetProjectUserInformation.individualUsers].
  rewrite list_elem_of_In, in_map_iff. split.
  - intros ([[uname uemail] gid] & Heq & Hin). simpl in Heq.
    injection Heq as -> ->.
    apply list_elem_of_In, list_elem_of_filter in Hin as [Hna Hin].
    simpl in Hna. subst gid.
    apply list_elem_of_omap in Hin as (item & Hitem & Hsome).
    destruct item as [uname uemail groups| |]; try done.
    injection Hsome as -> -> Hgid. exists groups. split; [done|].
    destruct (head groups) as [first|]; [|by left]. right.
    unfold Js.truthy in Hgid. simpl in Hgid.
    destruct (String.eqb first "") eqn:Hempty; simpl in Hgid.
    + apply String.eqb_eq in Hempty. left. by subst.
    + right. by subst.
  - intros (groups & Hin & Hhead).
    exists (userName, userEmail, "N/A"). split; [done|].
    apply list_elem_of_In, list_elem_of_filter. split; [done|].
    apply list_elem_of_omap. exists (IncUser userName userEmail groups).
    split; [done|]. destruct Hhead as [->|[->| ->]]; done.
Qed.

Section AllGroups.
Import GetProjectUserInformation.


End AllGroups.


(** * The scripts of src/unnamed/part_001 *)

(** ** The users list: group names *)

Section SetFrom.
Import UsersList.

Local Abbreviation add :=
  (fun (seen : list string) (value : string) =>
     if decide (value ∈ seen) then seen else seen ++ [value]).

Lemma add_fold_elem_of values :
  forall seen x,
    x ∈ fold_left add values seen <-> x ∈ seen \/ x ∈ values.
Proof.
  induction values as [|value values IH]; intros seen x; cbn [fold_left].
  - rewrite elem_of_nil. tauto.
  - rewrite IH, elem_of_cons. destruct (decide (value ∈ seen)) as [Hin|Hout].
    + split; [tauto|]. intros [?|[->|?]]; tauto.
    + rewrite elem_of_app, list_elem_of_singleton. tauto.
Qed.

Lemma add_fold_NoDup values :
  forall seen, NoDup seen -> NoDup (fold_left add values seen).
Proof.
  induction values as [|value values IH]; intros seen Hseen; cbn [fold_left];
    [done|].
  apply IH. destruct (decide (value ∈ seen)) as [Hin|Hout]; [done|].
  apply NoDup_app. split; [done|]. split.
  - intros x Hx [->|[]%elem_of_nil]%elem_of_cons. done.
  - apply NoDup_singleton.
Qed.

(** Values already seen are skipped. *)
Lemma add_fold_skips x values :
  forall seen,
    x ∈ seen ->
    fold_left add values seen
    = fold_left add (filter (fun value => value <> x) values) seen.
Proof.
  induction values as [|value values IH]; intros seen Hx; [done|].
  rewrite filter_cons. cbn [fold_left].
  destruct (decide (value <> x)) as [Hne|Heq].
  - cbn [fold_left]. apply IH.
    destruct (decide (value ∈ seen)); [done|]. apply elem_of_app. by left.
  - apply dec_stable in Heq. subst value.
    destruct (decide (x ∈ seen)); [|done]. by apply IH.
Qed.

Lemma add_fold_cons x values :
  forall seen,
    x ∉ values -> x ∉ seen ->
    fold_left add values (x :: seen) = x :: fold_left add values seen.
Proof.
  induction values as [|value values IH]; intros seen Hvalues Hseen; [done|].
  apply not_elem_of_cons in Hvalues as [Hne Hvalues]. cbn [fold_left].
  destruct (decide (value ∈ seen)) as [Hin|Hout];
    destruct (decide (value ∈ x :: seen)) as [Hin'|Hout'].
  - by apply IH.
  - exfalso. apply Hout'. by right.
  - apply elem_of_cons in Hin' as [->|?]; done.
  - change ((x :: seen) ++ [value]) with (x :: (seen ++ [value])).
    apply IH; [done|].
    intros [?|[->|[]%elem_of_nil]%elem_of_cons]%elem_of_app; done.
Qed.

Lemma setFrom_cons x values :
  setFrom (x :: values)
  = x :: setFrom (filter (fun value => value <> x) values).
Proof.
  unfold setFrom. cbn [fold_left].
  destruct (decide (x ∈ [])) as [[]%elem_of_nil|_]. cbn [app].
  rewrite (add_fold_skips x values [x]) by (by left).
  apply add_fold_cons; [|apply not_elem_of_nil].
  intros [Hne _]%list_elem_of_filter. done.
Qed.
End SetFrom.

(** X19. The group names of groupsList.json ([uniqueGroups]) hold every
    group name gathered by the loop exactly once, in the order of first
    occurrence: the first name leads and the later copies of it are
    dropped before the rest is treated the same way. *)
Theorem uniqueGroups_first_occurrences (allGroups : list (string * string)) :
  NoDup (UsersList.uniqueGroups allGroups)
  /\ (forall groupname,
        groupname ∈ UsersList.uniqueGroups allGroups
        <-> groupname ∈ map snd allGroups)
  /\ (forall group rest,
        allGroups = group :: rest ->
        UsersList.uniqueGroups allGroups
        = snd group
            :: UsersList.setFrom
                 (filter (fun groupname => groupname <> snd group)
                         (map snd rest))).
Proof.
  unfold UsersList.uniqueGroups, UsersList.setFrom. split; [|split].
  - apply add_fold_NoDup, NoDup_nil_2.
  - intros groupname. rewrite add_fold_elem_of, elem_of_nil. tauto.
  - intros group rest ->. apply setFrom_cons.
Qed.

Lemma uniqueGroups_first_occurrences_witness :
  UsersList.uniqueGroups
    [("g1", "devs"); ("g2", "ops"); ("g1", "devs"); ("g3", "qa"); ("g9", "ops")]
  = "devs" :: UsersList.setFrom ["ops"; "qa"; "ops"]
  /\ UsersList.setFrom ["ops"; "qa"; "ops"] = ["ops"; "qa"].
Proof.
  split; [|reflexivity].
  apply (proj2 (proj2 (uniqueGroups_first_occurrences
                         [("g1", "devs"); ("g2", "ops"); ("g1", "devs");
                          ("g3", "qa"); ("g9", "ops")]))
           ("g1", "devs")
           [("g2", "ops"); ("g1", "devs"); ("g3", "qa"); ("g9", "ops")]).
  reflexivity.
Defined.

Lemma find_first_match {A : Type} (f : A -> bool) before x after :
  Forall (fun y => f y = false) before -> f x = true ->
  List.find f (before ++ x :: after) = Some x.
Proof.
  intros Hbefore Hx. induction Hbefore as [|y before Hy _ IH]; simpl.
  - by rewrite Hx.
  - by rewrite Hy.
Qed.

Lemma find_no_match {A : Type} (f : A -> bool) l :
  Forall (fun y => f y = false) l -> List.find f l = None.
Proof.
  intros Hl. induction Hl as [|y l Hy _ IH]; simpl; [done|]. by rewrite Hy.
Qed.

(** X20. The group shown for a user in usersList is looked up among the
    groups of the same role-assignments response by the user's first
    group id only: it is the name of the first such group with that id,
    and "N/A" when the user has no group, when no group of the response
    has that id, or when that group's name is empty. *)
Theorem user_group_is_first_matching_group (groups : list (string * string))
    (userGroups : list string) :
  (head userGroups = None -> UsersList.groupOf groups userGroups = "N/A")
  /\ (forall first,
        head userGroups = Some first -> first ∉ map fst groups ->
        UsersList.groupOf groups userGroups = "N/A")
  /\ (forall first before groupname after,
        head userGroups = Some first ->
        groups = before ++ (first, groupname) :: after ->
        first ∉ map fst before ->
        UsersList.groupOf groups userGroups
        = if String.eqb groupname "" then "N/A" else groupname).
Proof.
  unfold UsersList.groupOf. split; [|split].
  - by intros ->.
  - intros first -> Hout. cbn [mbind option_bind].
    rewrite find_no_match; [done|].
    apply Forall_forall. intros [gid gname] Hin. simpl.
    apply String.eqb_neq. intros ->. apply Hout.
    apply list_elem_of_In, in_map_iff. exists (first, gname).
    split; [done|]. by apply list_elem_of_In.
  - intros first before groupname after -> -> Hout. cbn [mbind option_bind].
    rewrite (find_first_match _ before (first, groupname) after).
    + simpl. unfold Js.truthy. by destruct (String.eqb groupname "").
    + apply Forall_forall. intros [gid gname] Hin. simpl.
      apply String.eqb_neq. intros ->. apply Hout.
      apply list_elem_of_In, in_map_iff. exists (first, gname).
      split; [done|]. by apply list_elem_of_In.
    + simpl. apply String.eqb_refl.
Qed.

Lemma user_group_is_first_matching_group_witness :
  UsersList.groupOf [("g1", "devs"); ("g2", "ops"); ("g2", "other")] []
  = "N/A"
  /\ UsersList.groupOf [("g1", "devs"); ("g2", "ops"); ("g2", "other")]
       ["g7"; "g1"] = "N/A"
  /\ UsersList.groupOf [("g1", "devs"); ("g2", "ops"); ("g2", "other")]
       ["g2"; "g1"] = "ops".
Proof.
  split; [|split].
  - apply (proj1 (user_group_is_first_matching_group
                    [("g1", "devs"); ("g2", "ops"); ("g2", "other")] [])).
    reflexivity.
  - apply (proj1 (proj2 (user_group_is_first_matching_group
                           [("g1", "devs"); ("g2", "ops"); ("g2", "other")]
                           ["g7"; "g1"])) "g7").
    + reflexivity.
    + apply (bool_decide_unpack _). vm_compute. exact I.
  - apply (proj2 (proj2 (user_group_is_first_matching_group
                           [("g1", "devs"); ("g2", "ops"); ("g2", "other")]
                           ["g2"; "g1"]))
             "g2" [("g1", "devs")] "ops" [("g2", "other")]).
    + reflexivity.
    + reflexivity.
    + apply (bool_decide_unpack _). vm_compute. exact I.
Defined.

(** ** Files a script never writes *)

Section NeverWrites.
Variable path : string.
Context {A B : Type}.




End NeverWrites.



















(** ** The loops over the projects in src/unnamed/part_001 *)

Lemma includedOf_200 r included :
  status r = 200 -> data r = RoleAssignments included ->
  includedOf r = included.
Proof.
  intros Hst Hd. unfold includedOf. apply Nat.eqb_eq in Hst.
  by rewrite Hst, Hd.
Qed.

Lemma includedOf_other r : status r <> 200 -> includedOf r = [].
Proof. intros Hst. unfold includedOf. apply Nat.eqb_neq in Hst. by rewrite Hst. Qed.

Section UsersListLoop.
Import UsersList.
Variable token : string.

Local Abbreviation roleRequest :=
  (GetProjectUserInformation.roleAssignmentsRequest token).

Lemma usersList_turn project later allUsers allGroups w r s :
  script w = Resolve r :: s -> answersRoles r ->
  exists lines,
    collect token (project :: later) allUsers allGroups w
    = collect token later
        (allUsers ++ usersOf project (includedOf r))
        (allGroups ++ GetProjectUserInformation.includedGroups (includedOf r))
        (after w s [roleRequest project] lines).
Proof.
  intros Hs Hr. destruct (decide (status r = 200)) as [Hst|Hst].
  - destruct (Hr Hst) as [included Hd].
    rewrite (includedOf_200 r included Hst Hd).
    destruct w as [f a sc rq c]; simpl in *; subst sc.
    unfold_script. simpl. apply Nat.eqb_eq in Hst. rewrite Hst, Hd. simpl.
    unfold after. simpl.
    exists [Info ("Fetching role assignments for project " +:+ pr_name project
                    +:+ " (ID: " +:+ pr_id project +:+ ")...");
            Info ("Role assignments response received: "
                    +:+ pretty (status r) +:+ " " +:+ statusText r)].
    by rewrite <- !app_assoc.
  - rewrite (includedOf_other r Hst).
    destruct w as [f a sc rq c]; simpl in *; subst sc.
    unfold_script. simpl. apply Nat.eqb_neq in Hst. rewrite Hst. simpl.
    unfold after, usersOf. simpl. rewrite !app_nil_r.
    exists [Info ("Fetching role assignments for project " +:+ pr_name project
                    +:+ " (ID: " +:+ pr_id project +:+ ")...");
            Info ("Role assignments response received: "
                    +:+ pretty (status r) +:+ " " +:+ statusText r);
            Error ("HTTP Error: " +:+ pretty (status r) +:+ " - "
                     +:+ statusText r)].
    by rewrite <- !app_assoc.
Qed.

Lemma usersList_loop allProjects :
  forall rs rest allUsers allGroups w,
    length rs = length allProjects ->
    Forall answersRoles rs ->
    script w = map Resolve rs ++ rest ->
    exists lines,
      collect token allProjects allUsers allGroups w
      = Ok (allUsers ++ usersFrom (zip allProjects rs),
            allGroups ++ groupsFrom (zip allProjects rs))
           (after w rest (map roleRequest allProjects) lines).
Proof.
  induction allProjects as [|project later IH];
    intros rs rest allUsers allGroups w Hlen Hrs Hs.
  - destruct rs; [|done]. simpl in Hs. exists [].
    unfold usersFrom, groupsFrom. simpl. rewrite !app_nil_r, <- Hs.
    by rewrite after_nothing.
  - destruct rs as [|r rs]; [done|]. simpl in Hlen, Hs.
    apply Forall_cons in Hrs as [Hr Hrs].
    destruct (usersList_turn project later allUsers allGroups w r
                (map Resolve rs ++ rest) Hs Hr) as [lines0 Hturn].
    destruct (IH rs rest (allUsers ++ usersOf project (includedOf r))
                (allGroups
                 ++ GetProjectUserInformation.includedGroups (includedOf r))
                (after w (map Resolve rs ++ rest) [roleRequest project] lines0))
      as [lines1 Hrun]; [lia|done|done|].
    exists (lines0 ++ lines1). rewrite Hturn, Hrun, after_after.
    unfold usersFrom, groupsFrom.
    change (zip (project :: later) (r :: rs))
      with ((project, r) :: zip later rs).
    cbn [flat_map fst snd]. by rewrite <- !app_assoc.
Qed.
End UsersListLoop.

Section DetailsListLoop.
Import DetailsList.
Variable token : string.

Local Abbreviation roleRequest :=
  (GetProjectUserInformation.roleAssignmentsRequest token).

Lemma detailsList_turn project later allDetails w r s :
  script w = Resolve r :: s -> answersRoles r ->
  exists lines,
    collect token (project :: later) allDetails w
    = collect token later (allDetails ++ detailsOf project (includedOf r))
        (after w s [roleRequest project] lines).
Proof.
  intros Hs Hr. destruct (decide (status r = 200)) as [Hst|Hst].
  - destruct (Hr Hst) as [included Hd].
    rewrite (includedOf_200 r included Hst Hd).
    destruct w as [f a sc rq c]; simpl in *; subst sc.
    unfold_script. simpl. apply Nat.eqb_eq in Hst. rewrite Hst, Hd. simpl.
    unfold after. simpl.
    exists [Info ("Fetching role assignments for project " +:+ pr_name project
                    +:+ " (ID: " +:+ pr_id project +:+ ")...");
            Info ("Role assignments response received: "
                    +:+ pretty (status r) +:+ " " +:+ statusText r)].
    by rewrite <- !app_assoc.
  - rewrite (includedOf_other r Hst).
    destruct w as [f a sc rq c]; simpl in *; subst sc.
    unfold_script. simpl. apply Nat.eqb_neq in Hst. rewrite Hst. simpl.
    unfold after, detailsOf. simpl. rewrite !app_nil_r.
    exists [Info ("Fetching role assignments for project " +:+ pr_name project
                    +:+ " (ID: " +:+ pr_id project +:+ ")...");
            Info ("Role assignments response received: "
                    +:+ pretty (status r) +:+ " " +:+ statusText r);
            Error ("HTTP Error: " +:+ pretty (status r) +:+ " - "
                     +:+ statusText r)].
    by rewrite <- !app_assoc.
Qed.

Lemma detailsList_loop allProjects :
  forall rs rest allDetails w,
    length rs = length allProjects ->
    Forall answersRoles rs ->
    script w = map Resolve rs ++ rest ->
    exists lines,
      collect token allProjects allDetails w
      = Ok (allDetails ++ rowsFrom (zip allProjects rs))
           (after w rest (map roleRequest allProjects) lines).
Proof.
  induction allProjects as [|project later IH];
    intros rs rest allDetails w Hlen Hrs Hs.
  - destruct rs; [|done]. simpl in Hs. exists [].
    unfold rowsFrom. simpl. rewrite !app_nil_r, <- Hs.
    by rewrite after_nothing.
  - destruct rs as [|r rs]; [done|]. simpl in Hlen, Hs.
    apply Forall_cons in Hrs as [Hr Hrs].
    destruct (detailsList_turn project later allDetails w r
                (map Resolve rs ++ rest) Hs Hr) as [lines0 Hturn].
    destruct (IH rs rest (allDetails ++ detailsOf project (includedOf r))
                (after w (map Resolve rs ++ rest) [roleRequest project] lines0))
      as [lines1 Hrun]; [lia|done|done|].
    exists (lines0 ++ lines1). rewrite Hturn, Hrun, after_after.
    unfold rowsFrom.
    change (zip (project :: later) (r :: rs))
      with ((project, r) :: zip later rs).
    cbn [flat_map fst snd]. by rewrite <- !app_assoc.
Qed.
End DetailsListLoop.

(** ** The scripts of src/unnamed/part_001 from start to end *)

Section UsersListRun.
Import UsersList.
Variable stringify : Json -> string.
Variable w : World.
Variable config : Config.
Variable req : Request.
Variable rAuth : Response.
Variable token : string.
Variables (prs : list Response) (pr : Response).
Variables (ppre : list (list RemoteProject)) (plast : list RemoteProject).
Variables (rrs : list Response) (rest : list Outcome).
Hypothesis Hjson : files w !! projectListPath = None.
Hypothesis Hcsv : files w !! csvPath = None.
Hypothesis Hconfig : files w !! configPath = Some (JsonConfig config).
Hypothesis Hreq : Auth.authConfig config = Some req.
Hypothesis Htoken : Auth.extractToken rAuth = Some token.
Hypothesis Hne : token <> "".
Hypothesis Hs :
  script w = Resolve rAuth :: map Resolve prs ++ Resolve pr
               :: map Resolve rrs ++ rest.
Hypothesis Hprojects :
  servesAll GetProjectProperties.projectsData 5 prs pr ppre plast.

Local Abbreviation allProjects :=
  (map GetProjectUserInformation.formatProject (concat (ppre ++ [plast]))).

Hypothesis Hlen : length rrs = length allProjects.
Hypothesis Hrrs : Forall answersRoles rrs.

Lemma usersList_run :
  exists lines,
    fetchProjectsWithAuth stringify w
    = Ok tt
        (done w (withUsersLists stringify allProjects rrs (files w)) rest
           (req :: pageRequests (GetProjectProperties.baseProjectsUrl config)
                     token 5 (S (length ppre))
                ++ map (GetProjectUserInformation.roleAssignmentsRequest token)
                     allProjects)
           lines).
Proof.
  destruct Hprojects as (Hprs & Hpfull & Hpr & Hplast).
  destruct (resolve_ok false config req Hreq w rAuth _ token Hs Htoken Hne)
    as [lines0 Hauth].
  edestruct (paginate_ends_on_page GetProjectProperties.projectsData
               GetProjectUserInformation.formatProject "projects" "Projects"
               (GetProjectProperties.baseProjectsUrl config) token 5
               prs ppre pr plast (map Resolve rrs ++ rest)
               (after w (map Resolve prs ++ Resolve pr
                           :: map Resolve rrs ++ rest)
                      [req] lines0))
    as [lines1 Hpages]; [done|done|reflexivity|done|done|].
  set (saved := Info "Project list has been saved to projectList.json").
  set (w2 := done w (<[projectListPath := JsonProjectRefs allProjects]> (files w))
               (map Resolve rrs ++ rest)
               (req :: pageRequests
                         (GetProjectProperties.baseProjectsUrl config)
                         token 5 (S (length ppre)))
               (lines0 ++ lines1 ++ [saved])).
  destruct (usersList_loop token allProjects rrs rest [] [] w2 Hlen Hrrs
              eq_refl) as [lines2 Hloop].
  exists (lines0 ++ lines1 ++ [saved] ++ lines2
          ++ [Info "User list has been saved to usersList.json";
              Info "User list has been saved to usersList.csv";
              Info "Group list has been saved to groupsList.json"]).
  apply catchAll_returns. unfold body.
  unfold mbind at 1, M_bind at 1, bind at 1.
  rewrite confirmDelete_absent by done.
  unfold mbind at 1, M_bind at 1, bind at 1.
  rewrite confirmDelete_absent by done.
  unfold mbind at 1, M_bind at 1, bind at 1.
  rewrite (readConfig_ok _ config) by done.
  unfold mbind at 1, M_bind at 1, bind at 1. rewrite Hauth.
  change UsersList.limit with 5.
  unfold mbind at 1, M_bind at 1, bind at 1. rewrite Hpages.
  unfold mbind at 1, M_bind at 1, bind at 1.
  unfold writeFile at 1.
  unfold mbind at 1, M_bind at 1, bind at 1.
  unfold consoleLog at 1.
  unfold mbind at 1, M_bind at 1, bind at 1.
  match goal with
  | |- context [collect token allProjects [] [] ?w0] =>
      replace w0 with w2
        by (unfold w2, done, after;
            cbn [files answers script requests console];
            by rewrite <- !app_assoc)
  end.
  rewrite Hloop. unfold_script. unfold w2, done, after, withUsersLists.
  cbn [files answers script requests console app fst snd].
  by repeat (progress (rewrite <- ?app_assoc; cbn [app])).
Qed.
End UsersListRun.

(** X22. A clean run of the users-list script (no projectList.json and
    no projectList.csv present, a token obtained, projects served in
    pages of 5, every role-assignments request resolved) writes four
    files: projectList.json with the projects, usersList.json and
    usersList.csv with the users of the responses answered with status
    200, project by project, and groupsList.json with the names of their
    groups, each once.  The requests are the authentication, the project
    pages and one role-assignments request per project. *)
Theorem usersList_clean_run (stringify : Json -> string) (w : World)
    (config : Config) (req : Request) (rAuth : Response) (token : string)
    (prs : list Response) (pr : Response)
    (ppre : list (list RemoteProject)) (plast : list RemoteProject)
    (rrs : list Response) (rest : list Outcome) :
  let allProjects :=
    map GetProjectUserInformation.formatProject (concat (ppre ++ [plast])) in
  files w !! UsersList.projectListPath = None ->
  files w !! UsersList.csvPath = None ->
  files w !! UsersList.configPath = Some (JsonConfig config) ->
  Auth.authConfig config = Some req ->
  Auth.extractToken rAuth = Some token -> token <> "" ->
  script w = Resolve rAuth :: map Resolve prs ++ Resolve pr
               :: map Resolve rrs ++ rest ->
  servesAll GetProjectProperties.projectsData 5 prs pr ppre plast ->
  length rrs = length allProjects ->
  Forall answersRoles rrs ->
  exists lines,
    UsersList.fetchProjectsWithAuth stringify w
    = Ok tt
        (done w (withUsersLists stringify allProjects rrs (files w)) rest
           (req :: pageRequests (GetProjectProperties.baseProjectsUrl config)
                     token 5 (S (length ppre))
                ++ map (GetProjectUserInformation.roleAssignmentsRequest token)
                     allProjects)
           lines).
Proof. intros allProjects. apply usersList_run. Qed.

Lemma usersList_clean_run_witness :
  let w := Runs.start [Resolve Runs.authResponse; Resolve Listing.projects;
                       Resolve Listing.roles; Resolve Runs.unavailable] in
  exists lines w',
    UsersList.fetchProjectsWithAuth (fun _ => "json") w = Ok tt w'
    /\ console w' = console w ++ lines
    /\ files w' !! "./usersList.csv"
       = Some (Csv (mkTable
                      ["Project Name"; "Project ID"; "Name"; "Email"; "Group"]
                      [["Alpha"; "p1"; "Bob"; "bob@acme.test"; "N/A"]]))
    /\ UsersList.uniqueGroups
         (groupsFrom (zip [mkProjectRef "p1" "Alpha"; mkProjectRef "p2" "Beta"]
                          [Listing.roles; Runs.unavailable]))
       = ["devs"]
    /\ length (requests w') = 4.
Proof.
  intros w.
  destruct (usersList_clean_run (fun _ => "json") w Sample.config
              Runs.authRequest Runs.authResponse "tok"
              [] Listing.projects []
              [Sample.remote "p1" "Alpha"; Sample.remote "p2" "Beta"]
              [Listing.roles; Runs.unavailable] [])
    as [lines Hrun].
  - reflexivity.
  - reflexivity.
  - reflexivity.
  - reflexivity.
  - reflexivity.
  - discriminate.
  - reflexivity.
  - repeat split; try constructor; simpl; lia.
  - reflexivity.
  - repeat constructor; intros Hst; try discriminate Hst.
    by exists [IncGroup "g1" "devs"; IncUser "Bob" "bob@acme.test" []].
  - exists lines. eexists. split; [exact Hrun|].
    repeat split; reflexivity.
Defined.

Lemma parseProjects_ok c projects w :
  GetProjectBranches.projectRefs c = Some projects ->
  DetailsList.parseProjects c w = Ok (Some projects) w.
Proof. destruct c; try done; simpl; by intros [= <-]. Qed.

Section DetailsListRun.
Import DetailsList.
Variable stringify : Json -> string.
Variable w : World.
Variable config : Config.
Variable req : Request.
Hypothesis Hconfig : files w !! configPath = Some (JsonConfig config).
Hypothesis Hreq : Auth.authConfig config = Some req.

(** The run from the second authentication on. *)
Lemma detailsList_from_auth w0 rAuth token allProjects rrs rest :
  files w0 !! configPath = Some (JsonConfig config) ->
  script w0 = Resolve rAuth :: map Resolve rrs ++ rest ->
  Auth.extractToken rAuth = Some token -> token <> "" ->
  length rrs = length allProjects ->
  Forall answersRoles rrs ->
  exists lines,
    (config ← readConfig configPath;
     token ← Auth.resolve false config;
     allDetails ← collect token allProjects [];
     writeFile detailsJsonPath
       (Text (stringify (JArray (map detailJson allDetails))));;
     consoleLog "Details list has been saved to detailsList.json";;
     writeFile detailsCsvPath (Csv (detailsTable allDetails));;
     consoleLog "Details list has been saved to detailsList.csv") w0
    = Ok tt
        (done w0 (withDetailsLists stringify allProjects rrs (files w0)) rest
           (req :: map (GetProjectUserInformation.roleAssignmentsRequest token)
                     allProjects)
           lines).
Proof.
  intros Hconfig0 Hs Htoken Hne Hlen Hrrs.
  destruct (resolve_ok false config req Hreq w0 rAuth _ token Hs Htoken Hne)
    as [lines0 Hauth].
  destruct (detailsList_loop token allProjects rrs rest []
              (after w0 (map Resolve rrs ++ rest) [req] lines0)
              Hlen Hrrs eq_refl) as [lines1 Hloop].
  exists (lines0 ++ lines1
          ++ [Info "Details list has been saved to detailsList.json";
              Info "Details list has been saved to detailsList.csv"]).
  unfold mbind at 1, M_bind at 1, bind at 1.
  rewrite (readConfig_ok _ config) by done.
  unfold mbind at 1, M_bind at 1, bind at 1. rewrite Hauth.
  unfold mbind at 1, M_bind at 1, bind at 1. rewrite Hloop.
  unfold_script. unfold done, after, withDetailsLists.
  cbn [files answers script requests console app].
  by repeat (progress (rewrite <- ?app_assoc; cbn [app])).
Qed.

Lemma detailsList_reuse projects rAuth token rrs rest :
  projectListOf (files w) = Some projects ->
  script w = Resolve rAuth :: map Resolve rrs ++ rest ->
  Auth.extractToken rAuth = Some token -> token <> "" ->
  length rrs = length projects ->
  Forall answersRoles rrs ->
  exists lines,
    fetchProjectsWithAuth stringify w
    = Ok tt
        (done w (withDetailsLists stringify projects rrs (files w)) rest
           (req :: map (GetProjectUserInformation.roleAssignmentsRequest token)
                     projects)
           lines).
Proof.
  intros Hlist Hs Htoken Hne Hlen Hrrs.
  unfold projectListOf in Hlist.
  change GetProjectBranches.projectListPath with projectListPath in Hlist.
  destruct (files w !! projectListPath) as [c|] eqn:Hfile; [|done].
  simpl in Hlist.
  set (w1 := mkWorld (files w) (answers w) (script w) (requests w)
               (console w
                ++ [Info "Reading projects from existing projectList.json"])).
  destruct (detailsList_from_auth w1 rAuth token projects rrs rest
              Hconfig Hs Htoken Hne Hlen Hrrs) as [lines Hrun].
  exists (Info "Reading projects from existing projectList.json" :: lines).
  apply catchAll_returns. unfold body, acquireProjects.
  unfold mbind at 1, M_bind at 1, bind at 1.
  unfold mbind at 1, M_bind at 1, bind at 1.
  unfold fileExists at 1. rewrite bool_decide_eq_true_2 by (by rewrite Hfile).
  unfold mbind at 1, M_bind at 1, bind at 1.
  unfold readFile at 1. rewrite Hfile.
  unfold mbind at 1, M_bind at 1, bind at 1.
  rewrite (parseProjects_ok c projects) by done.
  unfold mbind at 1, M_bind at 1, bind at 1.
  unfold consoleLog at 1. fold w1. unfold mret at 1, M_ret at 1, ret at 1.
  rewrite Hrun. unfold done, w1.
  cbn [files answers script requests console].
  by rewrite <- app_assoc.
Qed.

Lemma detailsList_fetch rAuth1 token1 prs pr ppre plast rAuth2 token2 rrs rest :
  files w !! projectListPath = None ->
  script w = Resolve rAuth1 :: map Resolve prs ++ Resolve pr
               :: Resolve rAuth2 :: map Resolve rrs ++ rest ->
  Auth.extractToken rAuth1 = Some token1 -> token1 <> "" ->
  Auth.extractToken rAuth2 = Some token2 -> token2 <> "" ->
  servesAll GetProjectProperties.projectsData 500 prs pr ppre plast ->
  length rrs
  = length (map GetProjectUserInformation.formatProject
                (concat (ppre ++ [plast]))) ->
  Forall answersRoles rrs ->
  exists lines,
    fetchProjectsWithAuth stringify w
    = Ok tt
        (done w
           (withDetailsLists stringify
              (map GetProjectUserInformation.formatProject
                   (concat (ppre ++ [plast])))
              rrs
              (<[projectListPath :=
                   JsonProjectRefs
                     (map GetProjectUserInformation.formatProject
                          (concat (ppre ++ [plast])))]> (files w)))
           rest
           ((req :: pageRequests (GetProjectProperties.baseProjectsUrl config)
                      token1 500 (S (length ppre)))
            ++ req
               :: map (GetProjectUserInformation.roleAssignmentsRequest token2)
                    (map GetProjectUserInformation.formatProject
                         (concat (ppre ++ [plast]))))
           lines).
Proof.
  intros Hfile Hs Htoken1 Hne1 Htoken2 Hne2 Hprojects Hlen Hrrs.
  destruct Hprojects as (Hprs & Hpfull & Hpr & Hplast).
  set (allProjects := map GetProjectUserInformation.formatProject
                        (concat (ppre ++ [plast]))) in *.
  set (fetchLine :=
         Info "projectList.json does not exist. Fetching projects from the API.").
  set (w1 := mkWorld (files w) (answers w) (script w) (requests w)
               (console w ++ [fetchLine])).
  destruct (resolve_ok false config req Hreq w1 rAuth1 _ token1 Hs Htoken1 Hne1)
    as [lines0 Hauth].
  edestruct (paginate_ends_on_page GetProjectProperties.projectsData
               GetProjectUserInformation.formatProject "projects" "Projects"
               (GetProjectProperties.baseProjectsUrl config) token1 500
               prs ppre pr plast (Resolve rAuth2 :: map Resolve rrs ++ rest)
               (after w1 (map Resolve prs ++ Resolve pr
                            :: Resolve rAuth2 :: map Resolve rrs ++ rest)
                      [req] lines0))
    as [lines1 Hpages]; [done|done|reflexivity|done|done|].
  fold allProjects in Hpages.
  set (saved := Info "Project list has been saved to projectList.json").
  set (w2 := done w (<[projectListPath := JsonProjectRefs allProjects]> (files w))
               (Resolve rAuth2 :: map Resolve rrs ++ rest)
               (req :: pageRequests
                         (GetProjectProperties.baseProjectsUrl config)
                         token1 500 (S (length ppre)))
               ([fetchLine] ++ lines0 ++ lines1 ++ [saved])).
  destruct (detailsList_from_auth w2 rAuth2 token2 allProjects rrs rest)
    as [lines2 Hrun]; [|reflexivity|done|done|done|done|].
  { unfold w2, done. cbn [files]. by rewrite lookup_insert_ne by done. }
  exists ([fetchLine] ++ lines0 ++ lines1 ++ [saved] ++ lines2).
  apply catchAll_returns. unfold body, acquireProjects.
  unfold mbind at 1, M_bind at 1, bind at 1.
  unfold mbind at 1, M_bind at 1, bind at 1.
  unfold fileExists at 1.
  rewrite bool_decide_eq_false_2 by (rewrite Hfile; by intros []).
  unfold mbind at 1, M_bind at 1, bind at 1.
  unfold consoleLog at 1. fold fetchLine. fold w1.
  unfold mbind at 1, M_bind at 1, bind at 1.
  rewrite (readConfig_ok _ config) by done.
  unfold mbind at 1, M_bind at 1, bind at 1. rewrite Hauth.
  change DetailsList.limit with 500.
  unfold mbind at 1, M_bind at 1, bind at 1. rewrite Hpages.
  unfold mbind at 1, M_bind at 1, bind at 1.
  unfold writeFile at 1.
  unfold mbind at 1, M_bind at 1, bind at 1.
  unfold consoleLog at 1. fold saved.
  unfold mret at 1, M_ret at 1, ret at 1.
  match goal with
  | |- context [mbind _ (readConfig configPath) ?w0] =>
      replace w0 with w2
        by (unfold w2, w1, done, after;
            cbn [files answers script requests console];
            by repeat (progress (rewrite <- ?app_assoc; cbn [app])))
  end.
  rewrite Hrun. unfold w2, done.
  cbn [files answers script requests console].
  by repeat (progress (rewrite <- ?app_assoc; cbn [app])).
Qed.
End DetailsListRun.

(** X23. When projectList.json exists and holds a project list, the
    details-list script takes its projects from the file: it lists no
    projects from the API and leaves projectList.json as it is.  After
    one authentication it asks for the role assignments of every project
    of the file, in the order of the file, and writes detailsList.json
    and detailsList.csv with the users and groups of the responses
    answered with status 200. *)
Theorem detailsList_reuses_project_list (stringify : Json -> string)
    (w : World) (config : Config) (req : Request) (projects : list ProjectRef)
    (rAuth : Response) (token : string) (rrs : list Response)
    (rest : list Outcome) :
  files w !! DetailsList.configPath = Some (JsonConfig config) ->
  Auth.authConfig config = Some req ->
  projectListOf (files w) = Some projects ->
  script w = Resolve rAuth :: map Resolve rrs ++ rest ->
  Auth.extractToken rAuth = Some token -> token <> "" ->
  length rrs = length projects ->
  Forall answersRoles rrs ->
  exists lines w',
    DetailsList.fetchProjectsWithAuth stringify w = Ok tt w'
    /\ w' = done w (withDetailsLists stringify projects rrs (files w)) rest
              (req :: map (GetProjectUserInformation.roleAssignmentsRequest
                             token) projects)
              lines
    /\ files w' !! DetailsList.projectListPath
       = files w !! DetailsList.projectListPath.
Proof.
  intros Hconfig Hreq Hlist Hs Htoken Hne Hlen Hrrs.
  destruct (detailsList_reuse stringify w config req Hconfig Hreq projects
              rAuth token rrs rest Hlist Hs Htoken Hne Hlen Hrrs)
    as [lines Hrun].
  exists lines. eexists. split; [exact Hrun|]. split; [reflexivity|].
  unfold done, withDetailsLists. cbn [files].
  by rewrite !lookup_insert_ne by done.
Qed.

Lemma detailsList_reuses_project_list_witness :
  let projects := [mkProjectRef "p1" "Alpha"; mkProjectRef "p2" "Beta"] in
  let w := mkWorld {[ "./config.json" := JsonConfig Sample.config;
                      "./projectList.json" := JsonProjectRefs projects ]}
             []
             [Resolve Runs.authResponse; Resolve Listing.roles;
              Resolve Runs.unavailable] [] [] in
  exists lines w',
    DetailsList.fetchProjectsWithAuth (fun _ => "json") w = Ok tt w'
    /\ console w' = console w ++ lines
    /\ length (requests w') = 3
    /\ files w' !! "./projectList.json" = Some (JsonProjectRefs projects)
    /\ files w' !! "./detailsList.csv"
       = Some (Csv (mkTable
                      ["Project Name"; "Project ID"; "Type"; "Name"; "Email"]
                      [["Alpha"; "p1"; "User"; "Bob"; "bob@acme.test"];
                       ["Alpha"; "p1"; "GroupName"; "devs"; ""]])).
Proof.
  intros projects w.
  destruct (detailsList_reuses_project_list (fun _ => "json") w Sample.config
              Runs.authRequest projects Runs.authResponse "tok"
              [Listing.roles; Runs.unavailable] [])
    as (lines & w' & Hrun & Hw' & Hsame).
  - reflexivity.
  - reflexivity.
  - reflexivity.
  - reflexivity.
  - reflexivity.
  - discriminate.
  - reflexivity.
  - repeat constructor; intros Hst; try discriminate Hst.
    by exists [IncGroup "g1" "devs"; IncUser "Bob" "bob@acme.test" []].
  - exists lines, w'. split; [exact Hrun|]. subst w'.
    repeat split; reflexivity.
Defined.

(** X24. When projectList.json does not exist, the details-list script
    authenticates twice in one run: once before it lists the projects in
    pages of 500 and saves them to projectList.json, and once more, with
    the same request, before the role-assignments loop.  The project
    pages are asked for with the token of the first authentication, the
    role assignments with the token of the second. *)
Theorem detailsList_authenticates_twice (stringify : Json -> string)
    (w : World) (config : Config) (req : Request)
    (rAuth1 : Response) (token1 : string)
    (prs : list Response) (pr : Response)
    (ppre : list (list RemoteProject)) (plast : list RemoteProject)
    (rAuth2 : Response) (token2 : string)
    (rrs : list Response) (rest : list Outcome) :
  let allProjects :=
    map GetProjectUserInformation.formatProject (concat (ppre ++ [plast])) in
  files w !! DetailsList.configPath = Some (JsonConfig config) ->
  Auth.authConfig config = Some req ->
  files w !! DetailsList.projectListPath = None ->
  script w = Resolve rAuth1 :: map Resolve prs ++ Resolve pr
               :: Resolve rAuth2 :: map Resolve rrs ++ rest ->
  Auth.extractToken rAuth1 = Some token1 -> token1 <> "" ->
  Auth.extractToken rAuth2 = Some token2 -> token2 <> "" ->
  servesAll GetProjectProperties.projectsData 500 prs pr ppre plast ->
  length rrs = length allProjects ->
  Forall answersRoles rrs ->
  exists lines,
    DetailsList.fetchProjectsWithAuth stringify w
    = Ok tt
        (done w
           (withDetailsLists stringify allProjects rrs
              (<[DetailsList.projectListPath := JsonProjectRefs allProjects]>
                 (files w)))
           rest
           ((req :: pageRequests (GetProjectProperties.baseProjectsUrl config)
                      token1 500 (S (length ppre)))
            ++ req
               :: map (GetProjectUserInformation.roleAssignmentsRequest token2)
                    allProjects)
           lines).
Proof.
  intros allProjects Hconfig Hreq. by apply detailsList_fetch.
Qed.

Lemma detailsList_authenticates_twice_witness :
  let second :=
    mkResponse 200 "OK" (Some ["access_token=tok2; Path=/"]) (AuthBody None) in
  let w := Runs.start [Resolve Runs.authResponse; Resolve Listing.projects;
                       Resolve second; Resolve Listing.roles;
                       Resolve Runs.unavailable] in
  exists lines w',
    DetailsList.fetchProjectsWithAuth (fun _ => "json") w = Ok tt w'
    /\ console w' = console w ++ lines
    /\ requests w'
       = [Runs.authRequest;
          Paginator.pageRequest
            (GetProjectProperties.baseProjectsUrl Sample.config) "tok" 500 0;
          Runs.authRequest;
          GetProjectUserInformation.roleAssignmentsRequest "tok2"
            (mkProjectRef "p1" "Alpha");
          GetProjectUserInformation.roleAssignmentsRequest "tok2"
            (mkProjectRef "p2" "Beta")]
    /\ files w' !! "./projectList.json"
       = Some (JsonProjectRefs [mkProjectRef "p1" "Alpha";
                                mkProjectRef "p2" "Beta"]).
Proof.
  intros second w.
  destruct (detailsList_authenticates_twice (fun _ => "json") w Sample.config
              Runs.authRequest Runs.authResponse "tok"
              [] Listing.projects []
              [Sample.remote "p1" "Alpha"; Sample.remote "p2" "Beta"]
              second "tok2" [Listing.roles; Runs.unavailable] [])
    as [lines Hrun].
  - reflexivity.
  - reflexivity.
  - reflexivity.
  - reflexivity.
  - reflexivity.
  - discriminate.
  - reflexivity.
  - discriminate.
  - repeat split; try constructor; simpl; lia.
  - reflexivity.
  - repeat constructor; intros Hst; try discriminate Hst.
    by exists [IncGroup "g1" "devs"; IncUser "Bob" "bob@acme.test" []].
  - exists lines. eexists. split; [exact Hrun|].
    repeat split; reflexivity.
Defined.

(** ** The deletion prompts of the other scripts *)

(** X25. The deletion prompts of the users-list script and of
    getProjectBranches behave as those of getProjectProperties.  In the
    users-list script a negative answer at the first prompt, or at the
    second, ends the run with no request made and no file touched from
    that prompt on, a file confirmed at the first prompt being deleted by
    then.  getProjectBranches has the single prompt for
    branchesList.json: a negative answer ends the run with every file as
    it was and no request made. *)
Theorem other_scripts_respect_prompts (stringify : Json -> string) :
  promptsRespected (UsersList.fetchProjectsWithAuth stringify)
    UsersList.projectListPath "Existing projectList.json file deleted."
    UsersList.csvPath
  /\ (forall w a rest,
        is_Some (files w !! GetProjectBranches.branchesListPath) ->
        answers w = a :: rest -> negative a ->
        GetProjectBranches.fetchBranchesWithAuth w
        = Ok tt (mkWorld (files w) rest (script w) (requests w)
                         (console w ++ [exiting]))).
Proof.
  split.
  - by apply twoChecks_respects.
  - intros w a rest Hf Ha Hneg.
    unfold GetProjectBranches.fetchBranchesWithAuth, catchAll, tryCatch,
      GetProjectBranches.body.
    unfold mbind at 1, M_bind at 1, bind at 1.
    by rewrite (confirmDelete_negative _ _ _ _ a rest).
Qed.

Lemma other_scripts_respect_prompts_witness :
  let w := mkWorld {[ "./branchesList.json" := Text "old" ]} ["nope"]
             [Sample.authOk] [] [] in
  GetProjectBranches.fetchBranchesWithAuth w
  = Ok tt (mkWorld (files w) [] [Sample.authOk] [] [exiting]).
Proof.
  intros w.
  apply (proj2 (other_scripts_respect_prompts (fun _ => "json")) w "nope" []).
  - vm_compute. eauto.
  - reflexivity.
  - split; vm_compute; discriminate.
Defined.

(** ** setProjectProperties: the order of its reads *)

(** X26. setProjectProperties authenticates before it reads
    projectList.json: when the file is missing the run has already issued
    the authentication request; it then ends in its handler, with no
    file touched and no further request. *)
Theorem setProjectProperties_authenticates_before_reading_list (w : World)
    (config : Config) (req : Request) (rAuth : Response) (token : string)
    (rest : list Outcome) :
  files w !! SetProjectProperties.configPath = Some (JsonConfig config) ->
  files w !! SetProjectProperties.projectListPath = None ->
  Auth.authConfig config = Some req ->
  script w = Resolve rAuth :: rest ->
  Auth.extractToken rAuth = Some token -> token <> "" ->
  exists lines,
    SetProjectProperties.setProjectProperties w
    = Ok tt (after w rest [req] lines).
Proof.
  intros Hconfig Hlist Hreq Hs Htoken Hne.
  set (w1 := mkWorld (files w) (answers w) (script w) (requests w)
               (console w ++ [Info "Config data loaded:"])).
  destruct (resolve_ok true config req Hreq w1 rAuth rest token Hs Htoken Hne)
    as [lines Hauth].
  exists ([Info "Config data loaded:"] ++ lines ++ [Error "Error: ENOENT"]).
  unfold SetProjectProperties.setProjectProperties, tryCatch,
    SetProjectProperties.body.
  unfold mbind at 1, M_bind at 1, bind at 1.
  rewrite (readConfig_ok _ config) by done.
  unfold mbind at 1, M_bind at 1, bind at 1.
  unfold consoleLog at 1. fold w1.
  unfold mbind at 1, M_bind at 1, bind at 1. rewrite Hauth.
  unfold mbind at 1, M_bind at 1, bind at 1.
  unfold readFile at 1. unfold after at 1. cbn [files]. unfold w1 at 1.
  cbn [files]. rewrite Hlist.
  unfold_script. unfold after, w1.
  cbn [files answers script requests console response message].
  by rewrite <- !app_assoc.
Qed.

Lemma setProjectProperties_authenticates_before_reading_list_witness :
  let w := Runs.start [Resolve Runs.authResponse; Resolve Listing.projects] in
  exists lines,
    SetProjectProperties.setProjectProperties w
    = Ok tt (after w [Resolve Listing.projects] [Runs.authRequest] lines).
Proof.
  intros w.
  apply (setProjectProperties_authenticates_before_reading_list w
           Sample.config Runs.authRequest Runs.authResponse "tok"
           [Resolve Listing.projects]).
  - reflexivity.
  - reflexivity.
  - reflexivity.
  - reflexivity.
  - reflexivity.
  - discriminate.
Defined.

(** ** No configuration, no request *)

Section NeedsConfig.
Context {A B : Type}.

Lemma needsConfig_readConfig (k : Config -> M A) :
  needsConfig (readConfig "./config.json" ≫= k).
Proof.
  intros w Hf. unfold mbind, M_bind, bind, readConfig.
  unfold mbind, M_bind, bind, readFile. by rewrite Hf.
Qed.

Lemma needsConfig_bind (m : M A) (k : A -> M B) :
  quiet m -> (forall a, needsConfig (k a)) -> needsConfig (m ≫= k).
Proof.
  intros Hm Hk w Hf. unfold mbind, M_bind, bind.
  destruct (Hm w) as [Hreq Hfile].
  destruct (m w) as [a w'|e w'|w']; simpl in *; try done.
  rewrite (Hk a w') by auto. done.
Qed.

Lemma needsConfig_tryCatch (m : M A) (handler : Err -> M A) :
  needsConfig m -> (forall e, quiet (handler e)) ->
  needsConfig (tryCatch m handler).
Proof.
  intros Hm Hh w Hf. unfold tryCatch. specialize (Hm w Hf).
  destruct (m w) as [a w'|e w'|w']; simpl in *; try done.
  destruct (Hh e w') as [Hreq _]. by rewrite Hreq.
Qed.

Lemma needsConfig_ret (a : A) : needsConfig (mret a : M A).
Proof. by intros w _. Qed.
End NeedsConfig.

Lemma quiet_confirmDelete path question deleted :
  path <> "./config.json" -> quiet (confirmDelete path question deleted).
Proof.
  intros Hne w. unfold confirmDelete. unfold_script.
  destruct (files w !! path) as [c|] eqn:Hpath.
  - rewrite bool_decide_eq_true_2 by eauto.
    destruct (answers w) as [|a rest]; [done|].
    destruct (affirmative a); simpl; [|done].
    rewrite Hpath. simpl. split; [done|].
    intros Hf. by rewrite lookup_delete_ne.
  - rewrite bool_decide_eq_false_2 by (by intros []). done.
Qed.

Lemma quiet_catchAll_handler e :
  quiet (match response e with
         | Some r =>
             consoleError ("HTTP Error: " +:+ pretty (status r) +:+ " - "
                             +:+ statusText r);;
             consoleError "Response data:"
         | None => consoleError ("Error: " +:+ message e)
         end).
Proof. intros w. by destruct (response e). Qed.

Lemma needsConfig_catchAll run : needsConfig run -> needsConfig (catchAll run).
Proof.
  intros Hrun. apply needsConfig_tryCatch; [done|].
  apply quiet_catchAll_handler.
Qed.

Lemma needsConfig_twoChecks path1 question1 deleted1 path2 question2 deleted2
    work :
  path1 <> "./config.json" -> path2 <> "./config.json" ->
  needsConfig work ->
  needsConfig (catchAll (twoChecks path1 question1 deleted1
                           path2 question2 deleted2 work)).
Proof.
  intros Hne1 Hne2 Hwork. apply needsConfig_catchAll. unfold twoChecks.
  apply needsConfig_bind; [by apply quiet_confirmDelete|].
  intros [|]; [|apply needsConfig_ret].
  apply needsConfig_bind; [by apply quiet_confirmDelete|].
  intros [|]; [done|apply needsConfig_ret].
Qed.

Lemma needsConfig_acquire {A : Type} (k : option (list ProjectRef) -> M A) :
  (forall a, needsConfig (k a)) ->
  needsConfig (DetailsList.acquireProjects ≫= k).
Proof.
  intros Hk w Hf. unfold mbind at 1, M_bind at 1, bind at 1.
  unfold DetailsList.acquireProjects, fileExists.
  unfold mbind at 1, M_bind at 1, bind at 1.
  destruct (files w !! DetailsList.projectListPath) as [c|] eqn:Hp.
  - rewrite bool_decide_eq_true_2 by eauto.
    unfold mbind at 1, M_bind at 1, bind at 1. unfold readFile. rewrite Hp.
    unfold DetailsList.parseProjects.
    destruct c; unfold_script; simpl; try done;
      match goal with
      | |- requests (final (k ?a ?w0)) = _ => exact (Hk a w0 Hf)
      end.
  - rewrite bool_decide_eq_false_2 by (by intros []).
    unfold readConfig. unfold_script. simpl.
    change DetailsList.configPath with "./config.json". by rewrite Hf.
Qed.

(** X27. No script talks to the API without its configuration: when
    config.json is missing, a run of any of the six scripts issues no
    request at all, whatever output files exist and whatever the operator
    answers at the deletion prompts. *)
Theorem no_request_without_config (stringify : Json -> string) (w : World) :
  files w !! "./config.json" = None ->
  requests (final (GetProjectProperties.fetchProjectsWithAuth w)) = requests w
  /\ requests (final (SetProjectProperties.setProjectProperties w))
     = requests w
  /\ requests (final (GetProjectBranches.fetchBranchesWithAuth w)) = requests w
  /\ requests (final (GetProjectUserInformation.fetchProjectsWithAuth w))
     = requests w
  /\ requests (final (UsersList.fetchProjectsWithAuth stringify w))
     = requests w
  /\ requests (final (DetailsList.fetchProjectsWithAuth stringify w))
     = requests w.
Proof.
  intros Hf. repeat split.
  - revert w Hf. apply needsConfig_twoChecks; [done..|].
    apply needsConfig_readConfig.
  - revert w Hf. apply needsConfig_tryCatch.
    + apply needsConfig_readConfig.
    + intros e w. by destruct (response e).
  - revert w Hf. apply needsConfig_catchAll.
    unfold GetProjectBranches.body.
    apply needsConfig_bind; [by apply quiet_confirmDelete|].
    intros [|]; [|apply needsConfig_ret]. apply needsConfig_readConfig.
  - revert w Hf. apply needsConfig_twoChecks; [done..|].
    apply needsConfig_readConfig.
  - revert w Hf. apply needsConfig_twoChecks; [done..|].
    apply needsConfig_readConfig.
  - revert w Hf. apply needsConfig_catchAll. unfold DetailsList.body.
    apply needsConfig_acquire. intros a. apply needsConfig_readConfig.
Qed.

Lemma no_request_without_config_witness :
  let w := mkWorld {[ "./projectList.json" := Text "old";
                      "./branchesList.json" := Text "old" ]}
             ["yes"; "y"] [Sample.authOk] [] [] in
  requests (final (GetProjectProperties.fetchProjectsWithAuth w)) = []
  /\ requests (final (SetProjectProperties.setProjectProperties w)) = []
  /\ requests (final (GetProjectBranches.fetchBranchesWithAuth w)) = []
  /\ requests (final (GetProjectUserInformation.fetchProjectsWithAuth w)) = []
  /\ requests (final (UsersList.fetchProjectsWithAuth (fun _ => "json") w))
     = []
  /\ requests (final (DetailsList.fetchProjectsWithAuth (fun _ => "json") w))
     = [].
Proof.
  intros w. apply (no_request_without_config (fun _ => "json") w).
  reflexivity.
Defined.
